(** * Point-E server: request orchestration and tiered storage

    A shallow embedding of [server.py] (the production variant, with a
    remote blob tier and a local fallback) and of [local_server.py] (the
    local variant), and the properties of the readiness gate, the
    credential check, the identity derivation, the point-cloud codec, the
    storage paths and the asset catalog.

    Python values are modelled as follows.
    - [str] is [string]; a character is its code point, so the model
      covers the code points 0..255 (the range in which an HTTP header
      value arrives, headers being decoded as Latin-1).
    - [bytes] is [list Byte.byte].
    - an exception is a value of [exn]; a computation that can raise
      returns a [result]; a function that reads or writes the globals, the
      file system or a collaborator runs in the monad [M].
    - the inference library, the blob store, the clock and the hash are
      collaborators: they are parameters of the model. *)

From Stdlib Require Import ZArith Strings.String Strings.Ascii Strings.Byte.
From Stdlib Require Import Numbers.DecimalString List Lia.
From Stdlib Require Import Sorting.Sorted Sorting.Permutation.
From stdpp Require Import base gmap strings list.

Set Default Proof Using "Type".
Open Scope string_scope.
Open Scope list_scope.

(** ** Python values, exceptions and library functions *)

Module Py.

(** The exception classes that occur; all are subclasses of [Exception]. *)
Inductive exn : Type :=
| HTTPException (status_code : Z) (detail : string)
| ValueError (msg : string)
| TypeError (msg : string)
| KeyError (key : string)
| IndexError (msg : string)
| AttributeError (msg : string)
| OverflowError (msg : string)
| FileNotFoundError (path : string)
| FileExistsError (path : string)
| IsADirectoryError (path : string)
| NotADirectoryError (path : string)
| RuntimeError (msg : string)
| DefaultCredentialsError (msg : string)
| Exception (msg : string).

Inductive result (A : Type) : Type :=
| Ok (a : A)
| Raise (e : exn).
Arguments Ok {A} a.
Arguments Raise {A} e.

Definition is_ok {A} (r : result A) : bool :=
  match r with Ok _ => true | Raise _ => false end.

(** [try: r except: h] for a computation without effects. *)
Definition try_except {A} (r : result A) (h : exn -> result A) : result A :=
  match r with Ok a => Ok a | Raise e => h e end.

(** *** The state and exception monad *)

Definition M (S A : Type) : Type := S -> result A * S.

Definition ret {S A} (a : A) : M S A := fun s => (Ok a, s).
Definition raise {S A} (e : exn) : M S A := fun s => (Raise e, s).
Definition bind {S A B} (m : M S A) (k : A -> M S B) : M S B :=
  fun s => match m s with
           | (Ok a, s') => k a s'
           | (Raise e, s') => (Raise e, s')
           end.
Definition get {S} : M S S := fun s => (Ok s, s).
Definition gets {S A} (f : S -> A) : M S A := fun s => (Ok (f s), s).
Definition modify {S} (f : S -> S) : M S unit := fun s => (Ok tt, f s).
Definition lift {S A} (r : result A) : M S A := fun s => (r, s).

(** [try: m except Exception as e: h e]: the effects of [m] before the
    exception stay. *)
Definition try_catch {S A} (m : M S A) (h : exn -> M S A) : M S A :=
  fun s => match m s with
           | (Ok a, s') => (Ok a, s')
           | (Raise e, s') => h e s'
           end.

(** *** Characters and strings *)

Definition ord (c : ascii) : N := N_of_ascii c.

Definition in_range (lo hi : N) (c : ascii) : bool :=
  ((lo <=? ord c) && (ord c <=? hi))%N.

(** [c.isascii()] *)
Definition isascii (c : ascii) : bool := (ord c <? 128)%N.

(** [str.lower] on one character: the letters A-Z and the Latin-1
    capitals U+00C0..U+00DE, the multiplication sign U+00D7 apart. *)
Definition lower_char (c : ascii) : ascii :=
  if in_range 65 90 c
     || (in_range 192 222 c && negb (ord c =? 215)%N)
  then ascii_of_N (ord c + 32) else c.

(** [c.isalnum()] *)
Definition isalnum (c : ascii) : bool :=
  in_range 48 57 c || in_range 65 90 c || in_range 97 122 c
  || (ord c =? 170)%N || (ord c =? 178)%N || (ord c =? 179)%N
  || (ord c =? 181)%N || (ord c =? 185)%N || (ord c =? 186)%N
  || in_range 188 190 c
  || in_range 192 214 c || in_range 216 246 c || in_range 248 255 c.

(** [c.isspace()] *)
Definition isspace (c : ascii) : bool :=
  in_range 9 13 c || in_range 28 32 c
  || (ord c =? 133)%N || (ord c =? 160)%N.

Fixpoint all_chars (p : ascii -> bool) (s : string) : bool :=
  match s with
  | EmptyString => true
  | String c s' => p c && all_chars p s'
  end.

Fixpoint map_chars (f : ascii -> ascii) (s : string) : string :=
  match s with
  | EmptyString => EmptyString
  | String c s' => String (f c) (map_chars f s')
  end.

Fixpoint filter_chars (p : ascii -> bool) (s : string) : string :=
  match s with
  | EmptyString => EmptyString
  | String c s' => if p c then String c (filter_chars p s')
                   else filter_chars p s'
  end.

Fixpoint has_char (c : ascii) (s : string) : bool :=
  match s with
  | EmptyString => false
  | String d s' => Ascii.eqb c d || has_char c s'
  end.

(** The truth value of a string: [if s] *)
Definition truthy (s : string) : bool :=
  match s with EmptyString => false | _ => true end.

Definition is_ascii_str (s : string) : bool := all_chars isascii s.
Definition lower (s : string) : string := map_chars lower_char s.

(** [s[:n]] *)
Fixpoint take (n : nat) (s : string) : string :=
  match n, s with
  | S n', String c s' => String c (take n' s')
  | _, _ => EmptyString
  end.

(** The part of [s] before the first [sep] and the part after it, when
    [sep] occurs. *)
Fixpoint cut (sep : ascii) (s : string) : option (string * string) :=
  match s with
  | EmptyString => None
  | String c s' =>
      if Ascii.eqb c sep then Some (EmptyString, s')
      else match cut sep s' with
           | Some (a, b) => Some (String c a, b)
           | None => None
           end
  end.

(** [s.split(sep, 1)] for a separator of one character *)
Definition split1 (sep : ascii) (s : string) : list string :=
  match cut sep s with
  | Some (a, b) => [a; b]
  | None => [s]
  end.

(** [s.split(sep)] for a separator of one character: the pieces, the
    piece being read kept in an accumulator. *)
Fixpoint split_acc (sep : ascii) (acc : string) (s : string) : list string :=
  match s with
  | EmptyString => [acc]
  | String c s' =>
      if Ascii.eqb c sep then acc :: split_acc sep EmptyString s'
      else split_acc sep (acc +:+ String c EmptyString) s'
  end.

Definition split (sep : ascii) (s : string) : list string :=
  split_acc sep EmptyString s.

(** [s.lstrip()], [s.rstrip()], [s.strip()] *)
Fixpoint lstrip (s : string) : string :=
  match s with
  | String c s' => if isspace c then lstrip s' else s
  | EmptyString => EmptyString
  end.

Fixpoint rstrip (s : string) : string :=
  match s with
  | EmptyString => EmptyString
  | String c s' =>
      match rstrip s' with
      | EmptyString => if isspace c then EmptyString
                       else String c EmptyString
      | r => String c r
      end
  end.

Definition strip (s : string) : string := lstrip (rstrip s).

(** [s.startswith(p)] *)
Fixpoint startswith (p s : string) : bool :=
  match p, s with
  | EmptyString, _ => true
  | String a p', String b s' => Ascii.eqb a b && startswith p' s'
  | String _ _, EmptyString => false
  end.

(** [sub in s] *)
Fixpoint contains (sub s : string) : bool :=
  startswith sub s ||
  match s with
  | EmptyString => false
  | String _ s' => contains sub s'
  end.

(** [s.endswith(p)] *)
Fixpoint endswith (p s : string) : bool :=
  String.eqb p s ||
  match s with
  | EmptyString => false
  | String _ s' => endswith p s'
  end.

(** [os.path.basename(p)]: what follows the last slash. *)
Fixpoint basename (p : string) : string :=
  match p with
  | EmptyString => EmptyString
  | String c p' =>
      if has_char "/" p' then basename p'
      else if Ascii.eqb c "/" then p' else p
  end.

(** [str(n)] for an [int] *)
Definition str_nat (n : nat) : string := NilZero.string_of_uint (Nat.to_uint n).
Definition str_int (z : Z) : string := NilZero.string_of_int (Z.to_int z).

(** A non-negative number on [w] decimal digits at least, zero padded:
    the [%02d] and [%04d] of [strftime]. *)
Fixpoint zeros (n : nat) : string :=
  match n with O => EmptyString | S n' => String "0" (zeros n') end.

Definition zfill (w : nat) (n : nat) : string :=
  let d := str_nat n in zeros (w - String.length d) +:+ d.

(** [s.encode('utf-8')]: one byte below U+0080, two from there to
    U+00FF. *)
Definition utf8_char (c : ascii) : list byte :=
  if isascii c then [byte_of_ascii c]
  else [byte_of_ascii (ascii_of_N (192 + ord c / 64));
        byte_of_ascii (ascii_of_N (128 + ord c mod 64))].

Fixpoint encode_utf8 (s : string) : list byte :=
  match s with
  | EmptyString => []
  | String c s' => utf8_char c ++ encode_utf8 s'
  end.

(** *** Paths, as [pathlib] writes them *)

(** [sep.join(l)] *)
Fixpoint join (sep : string) (l : list string) : string :=
  match l with
  | [] => EmptyString
  | [x] => x
  | x :: l' => x +:+ sep +:+ join sep l'
  end.

(** The root of a POSIX path: exactly two leading slashes are kept, any
    other number is one. *)
Definition path_root (p : string) : string :=
  if startswith "//" p && negb (startswith "///" p) then "//"
  else if startswith "/" p then "/"
  else EmptyString.

(** The parts below the root: empty components and [.] are dropped,
    [..] is kept. *)
Definition path_parts (p : string) : list string :=
  List.filter (fun c => negb (String.eqb c "" || String.eqb c "."))
    (split "/" p).

(** [str(Path(p))] *)
Definition path_str (p : string) : string :=
  match path_root p, path_parts p with
  | EmptyString, [] => "."
  | r, ps => r +:+ join "/" ps
  end.

(** [posixpath.join(a, b)] *)
Definition posix_join (a b : string) : string :=
  if startswith "/" b then b
  else if negb (truthy a) || endswith "/" a then a +:+ b
  else a +:+ "/" +:+ b.

(** [hmac.compare_digest] on two [str]: both must be ASCII. *)
Definition compare_digest (a b : string) : result bool :=
  if is_ascii_str a && is_ascii_str b then Ok (String.eqb a b)
  else Raise (TypeError "comparing strings with non-ASCII characters is not supported").

End Py.

Import Py.

Declare Scope py_scope.
Delimit Scope py_scope with py.
Notation "x <- m ;; k" := (bind m (fun x => k))
(at level 100, m at next level, right associativity) : py_scope.
Notation "m ;;; k" := (bind m (fun _ => k))
(at level 100, right associativity) : py_scope.

Open Scope py_scope.

(** ** Dates and times: [datetime] *)

Module DateTime.

Record datetime : Type := {
  year : nat; month : nat; day : nat;
  hour : nat; minute : nat; second : nat; microsecond : nat
}.

(** One directive of [strftime]; the years of the clock have four
    digits. *)
Definition directive (c : ascii) (dt : datetime) : string :=
  if Ascii.eqb c "Y" then zfill 4 (year dt)
  else if Ascii.eqb c "m" then zfill 2 (month dt)
  else if Ascii.eqb c "d" then zfill 2 (day dt)
  else if Ascii.eqb c "H" then zfill 2 (hour dt)
  else if Ascii.eqb c "M" then zfill 2 (minute dt)
  else if Ascii.eqb c "S" then zfill 2 (second dt)
  else String "%" (String c EmptyString).

(** [dt.strftime(fmt)] with the directives the servers use. *)
Fixpoint strftime (fmt : string) (dt : datetime) : string :=
  match fmt with
  | EmptyString => EmptyString
  | String "%" (String c fmt') => directive c dt +:+ strftime fmt' dt
  | String c fmt' => String c (strftime fmt' dt)
  end.

(** [str(dt.date())] *)
Definition str_date (dt : datetime) : string := strftime "%Y-%m-%d" dt.

(** [dt.isoformat()] *)
Definition isoformat (dt : datetime) : string :=
  strftime "%Y-%m-%dT%H:%M:%S" dt +:+
  match microsecond dt with
  | O => EmptyString
  | us => "." +:+ zfill 6 us
  end.

(** [dt.isoformat()] for a [datetime] that carries the time zone UTC *)
Definition isoformat_utc (dt : datetime) : string :=
  isoformat dt +:+ "+00:00".

Definition is_leap (y : nat) : bool :=
  ((y mod 4 =? 0) && negb (y mod 100 =? 0) || (y mod 400 =? 0))%nat.

Definition days_in_month (y m : nat) : nat :=
  match m with
  | 2 => if is_leap y then 29 else 28
  | 4 | 6 | 9 | 11 => 30
  | _ => 31
  end.

Definition next_day (dt : datetime) : datetime :=
  if (day dt <? days_in_month (year dt) (month dt))%nat then
    {| year := year dt; month := month dt; day := S (day dt);
       hour := hour dt; minute := minute dt; second := second dt;
       microsecond := microsecond dt |}
  else if (month dt <? 12)%nat then
    {| year := year dt; month := S (month dt); day := 1;
       hour := hour dt; minute := minute dt; second := second dt;
       microsecond := microsecond dt |}
  else
    {| year := S (year dt); month := 1; day := 1;
       hour := hour dt; minute := minute dt; second := second dt;
       microsecond := microsecond dt |}.

(** [dt + timedelta(days=n)]; years end at 9999. *)
Definition add_days (n : nat) (dt : datetime) : result datetime :=
  let dt' := Nat.iter n next_day dt in
  if (9999 <? year dt')%nat then Raise (OverflowError "date value out of range")
  else Ok dt'.

End DateTime.

(** ** The file system *)

Module Fs.

(** A file system maps the normalised absolute path of an entry, as the
    list of its components, to the entry; the root, [[]], is a directory
    and has no entry of its own. There are no links, no permissions and
    no limits on names or space. *)
Inductive node : Type :=
| File (data : list byte)
| Dir.

Abbreviation filesystem := (gmap (list string) node).

Definition NUL : ascii := "000"%char.

Definition is_dir (fs : filesystem) (key : list string) : bool :=
  match key with
  | [] => true
  | _ => match fs !! key with Some Dir => true | _ => false end
  end.

(** The directory a component leads to from [cur]. *)
Definition enter (cur : list string) (c : string) : list string :=
  if String.eqb c "" || String.eqb c "." then cur
  else if String.eqb c ".." then removelast cur
  else cur ++ [c].

(** A name that can be given to a file: not empty, and neither of the
    two names every directory has. *)
Definition ordinary (name : string) : bool :=
  negb (String.eqb name "" || String.eqb name "." || String.eqb name "..").

(** Following components from [cur]: every component is looked up in a
    directory. The entry reached last is not examined. *)
Fixpoint walk (fs : filesystem) (path : string) (cur : list string)
    (comps : list string) : result (list string) :=
  match comps with
  | [] => Ok cur
  | c :: rest =>
      if is_dir fs cur then walk fs path (enter cur c) rest
      else match fs !! cur with
           | Some _ => Raise (NotADirectoryError path)
           | None => Raise (FileNotFoundError path)
           end
  end.

(** Where resolution of [path] starts. *)
Definition origin (cwd : list string) (path : string) : list string :=
  if startswith "/" path then [] else cwd.

(** [os.stat(path)] as far as the kind and content of the entry go. *)
Definition stat (fs : filesystem) (cwd : list string) (path : string)
    : result node :=
  if has_char NUL path then Raise (ValueError "embedded null byte")
  else if negb (truthy path) then Raise (FileNotFoundError path)
  else match walk fs path (origin cwd path) (split "/" path) with
       | Raise e => Raise e
       | Ok [] => Ok Dir
       | Ok key => match fs !! key with
                   | Some n => Ok n
                   | None => Raise (FileNotFoundError path)
                   end
       end.

(** [os.path.exists(path)] *)
Definition exists_ (fs : filesystem) (cwd : list string) (path : string)
    : bool :=
  is_ok (stat fs cwd path).

(** [with open(path, 'wb') as f: f.write(data)] *)
Definition write_file (fs : filesystem) (cwd : list string) (path : string)
    (data : list byte) : result filesystem :=
  if has_char NUL path then Raise (ValueError "embedded null byte")
  else if negb (truthy path) then Raise (FileNotFoundError path)
  else
    let comps := split "/" path in
    match walk fs path (origin cwd path) (removelast comps) with
    | Raise e => Raise e
    | Ok d =>
        let name := List.last comps "" in
        if negb (is_dir fs d) then
          match fs !! d with
          | Some _ => Raise (NotADirectoryError path)
          | None => Raise (FileNotFoundError path)
          end
        else if negb (ordinary name) then Raise (IsADirectoryError path)
        else match fs !! (d ++ [name]) with
             | Some Dir => Raise (IsADirectoryError path)
             | _ => Ok (<[d ++ [name] := File data]> fs)
             end
    end.

(** [os.makedirs(path, exist_ok=True)] for a path without [..]: the
    missing directories are made, the leaf last. *)
Fixpoint makedirs_from (fs : filesystem) (path : string)
    (cur : list string) (comps : list string) : result filesystem :=
  match comps with
  | [] => Ok fs
  | c :: rest =>
      let nxt := enter cur c in
      match nxt with
      | [] => makedirs_from fs path nxt rest
      | _ =>
          match fs !! nxt with
          | Some Dir => makedirs_from fs path nxt rest
          | Some (File _) =>
              match rest with
              | [] => Raise (FileExistsError path)
              | _ => Raise (NotADirectoryError path)
              end
          | None => makedirs_from (<[nxt := Dir]> fs) path nxt rest
          end
      end
  end.

Definition makedirs (fs : filesystem) (cwd : list string) (path : string)
    : result filesystem :=
  if has_char NUL path then Raise (ValueError "embedded null byte")
  else if negb (truthy path) then Raise (FileNotFoundError path)
  else makedirs_from fs path (origin cwd path) (split "/" path).

(** [Path(p).mkdir(exist_ok=True)]: the directory is made under the
    text of the path, which [pathlib] has normalised; the parent must
    be there, and a directory that is there already is left alone. *)
Definition mkdir (fs : filesystem) (cwd : list string) (p : string)
    : result filesystem :=
  let path := path_str p in
  if has_char NUL path then Raise (ValueError "embedded null byte")
  else
    let comps := split "/" path in
    match walk fs path (origin cwd path) (removelast comps) with
    | Raise e => Raise e
    | Ok d =>
        if negb (is_dir fs d) then
          match fs !! d with
          | Some _ => Raise (NotADirectoryError path)
          | None => Raise (FileNotFoundError path)
          end
        else
          let name := List.last comps "" in
          let key := enter d name in
          if is_dir fs key then Ok fs
          else match fs !! key with
               | Some _ => Raise (FileExistsError path)
               | None =>
                   if negb (ordinary name) then Raise (FileNotFoundError path)
                   else Ok (<[key := Dir]> fs)
               end
    end.

(** What a [FileResponse(path)] sends: the file is looked up when the
    response is sent, and must be a regular file. *)
Definition file_response (fs : filesystem) (cwd : list string)
    (path : string) : result (list byte) :=
  match stat fs cwd path with
  | Ok (File data) => Ok data
  | Ok Dir => Raise (RuntimeError ("File at path " +:+ path +:+ " is not a file."))
  | Raise (FileNotFoundError _) =>
      Raise (RuntimeError ("File at path " +:+ path +:+ " does not exist."))
  | Raise e => Raise e
  end.

End Fs.

(** ** The inference library and the blob store: the collaborators *)

Module PointE.
Section PointE.

(** [float] is the type of the scalars of a point cloud; [obj] is the
    type of the objects of the inference library that a server only
    passes around: models, diffusions, checkpoints, sample tensors and
    decoded images. *)
Variables (float obj : Type).

Definition vec3 : Type := float * float * float.

(** [point_e.util.point_cloud.PointCloud] *)
Record PointCloud : Type := {
  coords : list vec3;
  channels : gmap string (list float)
}.

(** [point_e.util.mesh.TriMesh] *)
Record TriMesh : Type := {
  verts : list vec3;
  faces : list (nat * nat * nat);
  vertex_channels : gmap string (list float)
}.

Inductive device : Type := Cuda | Mps | Cpu.

Inductive model_kwargs : Type :=
| Texts (texts : list string)
| Images (images : list obj).

(** A [PointCloudSampler] *)
Record Sampler : Type := {
  sample_batch_progressive : nat -> model_kwargs -> result (list obj);
  output_to_point_clouds : option obj -> result (list PointCloud)
}.

(** The keyword arguments of the sampler's constructor; the guidance
    scales are kept as written. *)
Record SamplerArgs : Type := {
  sa_device : device;
  sa_models : list obj;
  sa_diffusions : list obj;
  sa_num_points : list Z;
  sa_aux_channels : list string;
  sa_guidance_scale : list string;
  sa_model_kwargs_key_filter : option (list string)
}.

(** What the servers call in [torch], [point_e] and [PIL]. *)
Record Library : Type := {
  cuda_is_available : bool;
  cuda_get_device_name : nat -> result string;
  mps_is_available : bool;
  model_from_config : string -> device -> result obj;
  model_eval : obj -> result unit;
  diffusion_from_config : string -> result obj;
  load_checkpoint : string -> device -> result obj;
  load_state_dict : obj -> obj -> result unit;
  PointCloudSampler : SamplerArgs -> result Sampler;
  marching_cubes_mesh : PointCloud -> obj -> Z -> Z -> result TriMesh;
  write_ply : TriMesh -> result (list byte);
  Image_open : list byte -> result obj
}.

(** A call into the inference library that a server makes while it
    serves a request. *)
Inductive call : Type :=
| SampleCall (kwargs : model_kwargs)
| MeshCall (grid_size : Z).

End PointE.

Arguments coords {float}.
Arguments channels {float}.
Arguments verts {float}.
Arguments faces {float}.
Arguments vertex_channels {float}.
Arguments Texts {obj}.
Arguments Images {obj}.
Arguments SampleCall {obj}.
Arguments MeshCall {obj}.
Arguments sample_batch_progressive {float obj}.
Arguments output_to_point_clouds {float obj}.
Arguments cuda_is_available {float obj}.
Arguments mps_is_available {float obj}.
Arguments cuda_get_device_name {float obj}.
Arguments model_from_config {float obj}.
Arguments model_eval {float obj}.
Arguments diffusion_from_config {float obj}.
Arguments load_checkpoint {float obj}.
Arguments load_state_dict {float obj}.
Arguments PointCloudSampler {float obj}.
Arguments marching_cubes_mesh {float obj}.
Arguments write_ply {float obj}.
Arguments Image_open {float obj}.

End PointE.

Module Gcs.

(** A blob as a listing shows it; the time of its creation is in UTC. *)
Record Blob : Type := {
  name : string;
  time_created : option DateTime.datetime;
  size : option Z
}.

(** A [storage.Client]: the answers of the blob store. The arguments
    are the bucket, then the blob, then the rest. *)
Record Client : Type := {
  bucket_exists : string -> result bool;
  create_bucket : string -> string -> result unit;
  patch_cors : string -> result unit;
  upload_from_string : string -> string -> list byte -> string -> result unit;
  generate_signed_url : string -> string -> Z -> result string;
  list_blobs : string -> string -> result (list Blob)
}.

End Gcs.

(** ** What the servers read from their surroundings *)

Module Env.
Section Env.

Variables (float obj : Type).

(** The surroundings of a server process: the inference library, the
    constructor of the blob-store client, the clock ([now n] is its
    [n]-th reading), the random identifiers ([uuid4 n] is [str] of the
    [n]-th), MD5 as a hexadecimal digest, [str] of an exception, the
    text of a float in an f-string, [int(c * 255)] (which raises a
    [ValueError] for a NaN and an [OverflowError] for an infinity), and
    [round(stop - start, 2)] for two readings of the clock. *)
Record World : Type := {
  lib : PointE.Library float obj;
  storage_Client : option string -> result Gcs.Client;
  now : nat -> DateTime.datetime;
  uuid4 : nat -> string;
  md5_hexdigest : list byte -> string;
  str_exn : exn -> string;
  format_float : float -> string;
  int_times_255 : float -> result Z;
  elapsed : DateTime.datetime -> DateTime.datetime -> float
}.

End Env.

Arguments lib {float obj}.
Arguments storage_Client {float obj}.
Arguments now {float obj}.
Arguments uuid4 {float obj}.
Arguments md5_hexdigest {float obj}.
Arguments str_exn {float obj}.
Arguments format_float {float obj}.
Arguments int_times_255 {float obj}.
Arguments elapsed {float obj}.

End Env.

(** ** The serialization codec: the ASCII PLY text of a point cloud *)

Module Codec.
Section Codec.

Context {float obj : Type}.
Variable w : Env.World float obj.

Definition LF : string := String "010"%char EmptyString.

(** [colors[k][i]]: the channels are one-dimensional [numpy] arrays,
    whose [IndexError] names the index and the size. *)
Definition item (colors : gmap string (list float)) (k : string) (i : nat)
    : result float :=
  match colors !! k with
  | None => Raise (KeyError k)
  | Some l => match l !! i with
              | None => Raise (IndexError ("index " +:+ str_nat i
                                 +:+ " is out of bounds for axis 0 with size "
                                 +:+ str_nat (List.length l)))
              | Some c => Ok c
              end
  end.

(** [int(colors[k][i] * 255)] *)
Definition scaled (colors : gmap string (list float)) (k : string) (i : nat)
    : result Z :=
  match item colors k i with
  | Raise e => Raise e
  | Ok c => Env.int_times_255 w c
  end.

(** ['R' in colors] *)
Definition has_color (colors : gmap string (list float)) : bool :=
  match colors !! "R" with Some _ => true | None => false end.

(** The lines before the vertices. *)
Definition header (n : nat) (colored : bool) : string :=
  "ply" +:+ LF +:+ "format ascii 1.0" +:+ LF +:+
  "element vertex " +:+ str_nat n +:+ LF +:+
  "property float x" +:+ LF +:+ "property float y" +:+ LF +:+
  "property float z" +:+ LF +:+
  (if colored
   then "property uchar red" +:+ LF +:+ "property uchar green" +:+ LF +:+
        "property uchar blue" +:+ LF
   else "") +:+
  "end_header" +:+ LF.

Definition position (p : PointE.vec3 float) : string :=
  let '(x, y, z) := p in
  Env.format_float w x +:+ " " +:+ Env.format_float w y +:+ " " +:+
  Env.format_float w z.

(** The line of vertex [i]: one turn of the loop. *)
Definition vertex_line (colors : gmap string (list float)) (i : nat)
    (p : PointE.vec3 float) : result string :=
  if has_color colors then
    match scaled colors "R" i with
    | Raise e => Raise e
    | Ok r =>
      match scaled colors "G" i with
      | Raise e => Raise e
      | Ok g =>
        match scaled colors "B" i with
        | Raise e => Raise e
        | Ok b =>
            Ok (position p +:+ " " +:+ str_int r +:+ " " +:+ str_int g
                +:+ " " +:+ str_int b +:+ LF)
        end
      end
    end
  else Ok (position p +:+ LF).

(** The loop over the vertices from index [i] on: the text written so
    far, and the exception that stopped the loop if one did. *)
Fixpoint write_vertices (colors : gmap string (list float)) (i : nat)
    (ps : list (PointE.vec3 float)) (out : string) : string * result unit :=
  match ps with
  | [] => (out, Ok tt)
  | p :: ps' =>
      match vertex_line colors i p with
      | Ok l => write_vertices colors (S i) ps' (out +:+ l)
      | Raise e => (out, Raise e)
      end
  end.

(** All the writes of the codec, in order. *)
Definition write_pointcloud (pc : PointE.PointCloud float)
    : string * result unit :=
  write_vertices (PointE.channels pc) 0 (PointE.coords pc)
    (header (List.length (PointE.coords pc)) (has_color (PointE.channels pc))).

(** The text the codec produces when no write fails. *)
Definition pointcloud_ply (pc : PointE.PointCloud float) : result string :=
  match write_pointcloud pc with
  | (out, Ok _) => Ok out
  | (_, Raise e) => Raise e
  end.

End Codec.
End Codec.

(** ** [server.py]: the production server *)

Module Server.
Section Server.

Context {float obj : Type}.

(** The configuration read from the process environment when the module
    is loaded. *)
Record Config : Type := {
  BUCKET_NAME : string;
  PROJECT_ID : option string;
  ENABLE_GCS : bool;
  SECRET_KEY : string
}.

Variable cfg : Config.
Variable w : Env.World float obj.

(** The globals of the module, the file system, the working directory,
    the numbers of readings of the clock and of identifiers drawn, and
    the calls made into the inference library, the oldest first. *)
Record state : Type := {
  text_model : option obj;
  text_sampler : option (PointE.Sampler float obj);
  image_model : option obj;
  image_sampler : option (PointE.Sampler float obj);
  sdf_model : option obj;
  models_ready : bool;
  gcs_client : option Gcs.Client;
  fs : Fs.filesystem;
  cwd : list string;
  clock_reads : nat;
  uuids_drawn : nat;
  calls : list (PointE.call obj)
}.

(** The globals as the module sets them when it is loaded. *)
Definition initial (files : Fs.filesystem) (dir : list string) : state :=
  {| text_model := None; text_sampler := None; image_model := None;
     image_sampler := None; sdf_model := None; models_ready := false;
     gcs_client := None; fs := files; cwd := dir; clock_reads := 0;
     uuids_drawn := 0; calls := [] |}.

Definition set_text_model (v : option obj) (s : state) : state :=
  {| text_model := v; text_sampler := text_sampler s;
     image_model := image_model s; image_sampler := image_sampler s;
     sdf_model := sdf_model s; models_ready := models_ready s;
     gcs_client := gcs_client s; fs := fs s; cwd := cwd s;
     clock_reads := clock_reads s; uuids_drawn := uuids_drawn s;
     calls := calls s |}.

Definition set_text_sampler (v : option (PointE.Sampler float obj))
    (s : state) : state :=
  {| text_model := text_model s; text_sampler := v;
     image_model := image_model s; image_sampler := image_sampler s;
     sdf_model := sdf_model s; models_ready := models_ready s;
     gcs_client := gcs_client s; fs := fs s; cwd := cwd s;
     clock_reads := clock_reads s; uuids_drawn := uuids_drawn s;
     calls := calls s |}.

Definition set_image_model (v : option obj) (s : state) : state :=
  {| text_model := text_model s; text_sampler := text_sampler s;
     image_model := v; image_sampler := image_sampler s;
     sdf_model := sdf_model s; models_ready := models_ready s;
     gcs_client := gcs_client s; fs := fs s; cwd := cwd s;
     clock_reads := clock_reads s; uuids_drawn := uuids_drawn s;
     calls := calls s |}.

Definition set_image_sampler (v : option (PointE.Sampler float obj))
    (s : state) : state :=
  {| text_model := text_model s; text_sampler := text_sampler s;
     image_model := image_model s; image_sampler := v;
     sdf_model := sdf_model s; models_ready := models_ready s;
     gcs_client := gcs_client s; fs := fs s; cwd := cwd s;
     clock_reads := clock_reads s; uuids_drawn := uuids_drawn s;
     calls := calls s |}.

Definition set_sdf_model (v : option obj) (s : state) : state :=
  {| text_model := text_model s; text_sampler := text_sampler s;
     image_model := image_model s; image_sampler := image_sampler s;
     sdf_model := v; models_ready := models_ready s;
     gcs_client := gcs_client s; fs := fs s; cwd := cwd s;
     clock_reads := clock_reads s; uuids_drawn := uuids_drawn s;
     calls := calls s |}.

Definition set_models_ready (v : bool) (s : state) : state :=
  {| text_model := text_model s; text_sampler := text_sampler s;
     image_model := image_model s; image_sampler := image_sampler s;
     sdf_model := sdf_model s; models_ready := v;
     gcs_client := gcs_client s; fs := fs s; cwd := cwd s;
     clock_reads := clock_reads s; uuids_drawn := uuids_drawn s;
     calls := calls s |}.

Definition set_gcs_client (v : option Gcs.Client) (s : state) : state :=
  {| text_model := text_model s; text_sampler := text_sampler s;
     image_model := image_model s; image_sampler := image_sampler s;
     sdf_model := sdf_model s; models_ready := models_ready s;
     gcs_client := v; fs := fs s; cwd := cwd s;
     clock_reads := clock_reads s; uuids_drawn := uuids_drawn s;
     calls := calls s |}.

Definition set_fs (v : Fs.filesystem) (s : state) : state :=
  {| text_model := text_model s; text_sampler := text_sampler s;
     image_model := image_model s; image_sampler := image_sampler s;
     sdf_model := sdf_model s; models_ready := models_ready s;
     gcs_client := gcs_client s; fs := v; cwd := cwd s;
     clock_reads := clock_reads s; uuids_drawn := uuids_drawn s;
     calls := calls s |}.

Definition set_clock_reads (v : nat) (s : state) : state :=
  {| text_model := text_model s; text_sampler := text_sampler s;
     image_model := image_model s; image_sampler := image_sampler s;
     sdf_model := sdf_model s; models_ready := models_ready s;
     gcs_client := gcs_client s; fs := fs s; cwd := cwd s;
     clock_reads := v; uuids_drawn := uuids_drawn s;
     calls := calls s |}.

Definition set_uuids_drawn (v : nat) (s : state) : state :=
  {| text_model := text_model s; text_sampler := text_sampler s;
     image_model := image_model s; image_sampler := image_sampler s;
     sdf_model := sdf_model s; models_ready := models_ready s;
     gcs_client := gcs_client s; fs := fs s; cwd := cwd s;
     clock_reads := clock_reads s; uuids_drawn := v;
     calls := calls s |}.

Definition set_calls (v : list (PointE.call obj)) (s : state) : state :=
  {| text_model := text_model s; text_sampler := text_sampler s;
     image_model := image_model s; image_sampler := image_sampler s;
     sdf_model := sdf_model s; models_ready := models_ready s;
     gcs_client := gcs_client s; fs := fs s; cwd := cwd s;
     clock_reads := clock_reads s; uuids_drawn := uuids_drawn s;
     calls := v |}.

(** [datetime.now()] *)
Definition datetime_now : M state DateTime.datetime :=
  fun s => (Ok (Env.now w (clock_reads s)),
            set_clock_reads (S (clock_reads s)) s).

(** [str(uuid.uuid4())] *)
Definition uuid4_str : M state string :=
  fun s => (Ok (Env.uuid4 w (uuids_drawn s)),
            set_uuids_drawn (S (uuids_drawn s)) s).

(** The call is entered in the record of calls. *)
Definition record_call (c : PointE.call obj) : M state unit :=
  modify (fun s => set_calls (calls s ++ [c]) s).

(** *** The credential check *)

Definition verify_secret_key (authorization : option string) : result bool :=
  if negb (truthy (SECRET_KEY cfg)) then
    Raise (ValueError "POINT_E_SECRET_KEY must be configured for production use")
  else
    match authorization with
    | None => Ok false
    | Some a =>
        if negb (truthy a) then Ok false
        else
          try_except
            (match split1 " " a with
             | [scheme; token] =>
                 if negb (String.eqb (lower scheme) "bearer") then Ok false
                 else compare_digest token (SECRET_KEY cfg)
             | _ => Raise (ValueError "not enough values to unpack (expected 2, got 1)")
             end)
            (fun _ => Ok false)
    end.

(** *** The origin address *)

(** A request as the handlers see it: the headers under their lowercase
    names, and the host of the peer when the transport knows it. *)
Record Request : Type := {
  headers : gmap string string;
  client : option string
}.

(** [request.headers.get(name)]: the names of headers are compared
    without regard to case. *)
Definition headers_get (req : Request) (name : string) : option string :=
  headers req !! lower name.

Definition first_truthy (o : option string) : option string :=
  match o with
  | Some v => if truthy v then Some v else None
  | None => None
  end.

Definition get_forwarded_ip (req : Request) : result string :=
  match first_truthy (headers_get req "X-Forwarded-For") with
  | Some forwarded_for =>
      match split "," forwarded_for with
      | first :: _ => Ok (strip first)
      | [] => Raise (IndexError "list index out of range")
      end
  | None =>
    match first_truthy (headers_get req "X-Real-IP") with
    | Some real_ip => Ok real_ip
    | None =>
      match first_truthy (headers_get req "X-Original-IP") with
      | Some original_ip => Ok original_ip
      | None =>
          match client req with
          | Some host => Ok host
          | None => Raise (AttributeError "'NoneType' object has no attribute 'host'")
          end
      end
    end
  end.

(** *** The identity *)

(** [f"{v}"] for a value that is a string or [None] *)
Definition fstr (v : option string) : string :=
  match v with Some s => s | None => "None" end.

(** [d.get(k, '') if d else ''] for a dictionary [d] that may be [None];
    an empty dictionary counts as false. *)
Definition get_or_empty (d : option (gmap string (option string)))
    (k : string) : option string :=
  match d with
  | None => Some ""
  | Some h =>
      if decide (h = ∅) then Some ""
      else match h !! k with
           | Some v => v
           | None => Some ""
           end
  end.

Definition generate_user_id
    (request_headers : option (gmap string (option string))) : M state string :=
  let user_agent := get_or_empty request_headers "user-agent" in
  let ip := get_or_empty request_headers "x-forwarded-for" in
  today <- datetime_now ;;
  let unique_string :=
    fstr user_agent +:+ fstr ip +:+ DateTime.str_date today in
  ret ("user_" +:+ take 8 (Env.md5_hexdigest w (encode_utf8 unique_string))).

(** *** The storage gateway *)

Definition get_storage_path (user_id filename : string) : M state string :=
  today <- datetime_now ;;
  let date_folder := DateTime.strftime "%Y/%m/%d" today in
  ret ("users/" +:+ user_id +:+ "/" +:+ date_folder +:+ "/" +:+ filename).

(** [timedelta(days=30)] and [timedelta(hours=1)], in seconds *)
Definition days (n : Z) : Z := n * 86400.
Definition hours (n : Z) : Z := n * 3600.

Definition save_to_gcs (file_content : list byte) (storage_path : string)
    (content_type : string) : M state (option string) :=
  s <- get ;;
  match gcs_client s with
  | None => ret None
  | Some c =>
      try_catch
        (lift (Gcs.upload_from_string c (BUCKET_NAME cfg) storage_path
                 file_content content_type) ;;;
         url <- lift (Gcs.generate_signed_url c (BUCKET_NAME cfg)
                        storage_path (days 30)) ;;
         ret (Some url))
        (fun _ => ret None)
  end.

Definition scratch : string := "/tmp/point-e-models".

(** [os.makedirs(path, exist_ok=True)] *)
Definition makedirs (path : string) : M state unit :=
  fun s => match Fs.makedirs (fs s) (cwd s) path with
           | Ok fs' => (Ok tt, set_fs fs' s)
           | Raise e => (Raise e, s)
           end.

(** [with open(path, 'wb') as f: f.write(data)] *)
Definition write_file (path : string) (data : list byte) : M state unit :=
  fun s => match Fs.write_file (fs s) (cwd s) path data with
           | Ok fs' => (Ok tt, set_fs fs' s)
           | Raise e => (Raise e, s)
           end.

Definition save_to_local (file_content : list byte) (filename : string)
    : M state string :=
  makedirs scratch ;;;
  let local_path := scratch +:+ "/" +:+ filename in
  write_file local_path file_content ;;;
  ret ("/download/" +:+ filename).

Definition setup_gcs : M state unit :=
  if negb (ENABLE_GCS cfg) then ret tt
  else
    try_catch
      (c <- lift (Env.storage_Client w (PROJECT_ID cfg)) ;;
       modify (set_gcs_client (Some c)) ;;;
       try_catch
         (present <- lift (Gcs.bucket_exists c (BUCKET_NAME cfg)) ;;
          (if present : bool then ret tt
           else lift (Gcs.create_bucket c (BUCKET_NAME cfg) "us-central1")) ;;;
          lift (Gcs.patch_cors c (BUCKET_NAME cfg)))
         (fun _ => ret tt))
      (fun _ => modify (set_gcs_client None)).

(** *** Loading the models: the readiness gate *)

Definition pick_device : PointE.device :=
  if PointE.cuda_is_available (Env.lib w) then PointE.Cuda else PointE.Cpu.

(** [m.load_state_dict(load_checkpoint(name, device))] *)
Definition load_weights (m : obj) (name : string) (device : PointE.device)
    : M state unit :=
  ckpt <- lift (PointE.load_checkpoint (Env.lib w) name device) ;;
  lift (PointE.load_state_dict (Env.lib w) m ckpt).

Definition text_sampler_args (device : PointE.device)
    (models diffusions : list obj) : PointE.SamplerArgs obj :=
  {| PointE.sa_device := device; PointE.sa_models := models;
     PointE.sa_diffusions := diffusions;
     PointE.sa_num_points := [1024; 4096 - 1024]%Z;
     PointE.sa_aux_channels := ["R"; "G"; "B"];
     PointE.sa_guidance_scale := ["3.0"; "0.0"];
     PointE.sa_model_kwargs_key_filter := Some ["texts"; ""] |}.

Definition image_sampler_args (device : PointE.device)
    (models diffusions : list obj) : PointE.SamplerArgs obj :=
  {| PointE.sa_device := device; PointE.sa_models := models;
     PointE.sa_diffusions := diffusions;
     PointE.sa_num_points := [1024; 4096 - 1024]%Z;
     PointE.sa_aux_channels := ["R"; "G"; "B"];
     PointE.sa_guidance_scale := ["3.0"; "3.0"];
     PointE.sa_model_kwargs_key_filter := None |}.

(** The body of the [try] of [load_models_fast]. *)
Definition load_all (device : PointE.device) : M state unit :=
  tm <- lift (PointE.model_from_config (Env.lib w) "base40M-textvec" device) ;;
  modify (set_text_model (Some tm)) ;;;
  lift (PointE.model_eval (Env.lib w) tm) ;;;
  text_diffusion <- lift (PointE.diffusion_from_config (Env.lib w) "base40M-textvec") ;;
  upsampler_model <- lift (PointE.model_from_config (Env.lib w) "upsample" device) ;;
  lift (PointE.model_eval (Env.lib w) upsampler_model) ;;;
  upsampler_diffusion <- lift (PointE.diffusion_from_config (Env.lib w) "upsample") ;;
  load_weights tm "base40M-textvec" device ;;;
  load_weights upsampler_model "upsample" device ;;;
  ts <- lift (PointE.PointCloudSampler (Env.lib w)
                (text_sampler_args device [tm; upsampler_model]
                   [text_diffusion; upsampler_diffusion])) ;;
  modify (set_text_sampler (Some ts)) ;;;
  im <- lift (PointE.model_from_config (Env.lib w) "base1B" device) ;;
  modify (set_image_model (Some im)) ;;;
  lift (PointE.model_eval (Env.lib w) im) ;;;
  image_diffusion <- lift (PointE.diffusion_from_config (Env.lib w) "base1B") ;;
  load_weights im "base1B" device ;;;
  smp <- lift (PointE.PointCloudSampler (Env.lib w)
                (image_sampler_args device [im; upsampler_model]
                   [image_diffusion; upsampler_diffusion])) ;;
  modify (set_image_sampler (Some smp)) ;;;
  sm <- lift (PointE.model_from_config (Env.lib w) "sdf" device) ;;
  modify (set_sdf_model (Some sm)) ;;;
  lift (PointE.model_eval (Env.lib w) sm) ;;;
  load_weights sm "sdf" device ;;;
  modify (set_models_ready true) ;;;
  setup_gcs.

Definition load_models_fast : M state unit :=
  let device := pick_device in
  try_catch (load_all device)
    (fun e => modify (set_models_ready false) ;;; raise e).

(** *** The calls into the inference library *)

(** The loop that keeps the last value the sampler yields, and the first
    point cloud of the output. *)
Definition sample_loop (sampler : PointE.Sampler float obj)
    (kwargs : PointE.model_kwargs obj) : M state (PointE.PointCloud float) :=
  yielded <- lift (PointE.sample_batch_progressive sampler 1 kwargs) ;;
  let samples := List.last (map Some yielded) None in
  pcs <- lift (PointE.output_to_point_clouds sampler samples) ;;
  match pcs with
  | pc :: _ => ret pc
  | [] => raise (IndexError "list index out of range")
  end.

(** A call of the sampler: it is entered in the record, then made. *)
Definition run_sampler (sampler : PointE.Sampler float obj)
    (kwargs : PointE.model_kwargs obj) : M state (PointE.PointCloud float) :=
  record_call (PointE.SampleCall kwargs) ;;;
  sample_loop sampler kwargs.

Definition generate_from_text (prompt : string)
    : M state (PointE.PointCloud float) :=
  s <- get ;;
  match models_ready s, text_sampler s with
  | true, Some sampler => run_sampler sampler (PointE.Texts [prompt])
  | _, _ => raise (HTTPException 503 "Models not ready")
  end.

Definition generate_from_image (image : obj)
    : M state (PointE.PointCloud float) :=
  s <- get ;;
  match models_ready s, image_sampler s with
  | true, Some sampler => run_sampler sampler (PointE.Images [image])
  | _, _ => raise (HTTPException 503 "Image model not ready")
  end.

Definition pointcloud_to_mesh (pc : PointE.PointCloud float) (grid_size : Z)
    : M state (PointE.TriMesh float) :=
  s <- get ;;
  match models_ready s, sdf_model s with
  | true, Some sdf =>
      record_call (PointE.MeshCall grid_size) ;;;
      lift (PointE.marching_cubes_mesh (Env.lib w) pc sdf 4096 grid_size)
  | _, _ => raise (HTTPException 503 "SDF model not ready")
  end.

(** The file is made when it is opened; what the codec wrote before an
    exception stays in it. *)
Definition save_pointcloud_ply (pc : PointE.PointCloud float)
    (filepath : string) : M state unit :=
  let '(out, r) := Codec.write_pointcloud w pc in
  write_file filepath (encode_utf8 out) ;;;
  lift r.

(** *** The handlers *)

(** [GET /ready] *)
Definition ready : M state bool :=
  s <- get ;;
  if negb (models_ready s) then raise (HTTPException 503 "Models not ready")
  else ret true.

Record TextRequest : Type := {
  prompt : string;
  user_id : option string;
  format : string;
  grid_size : Z;
  num_samples : Z
}.

Record GenerationResponse : Type := {
  success : bool;
  message : string;
  file_url : option string;
  download_url : option string;
  resp_user_id : option string;
  vertices : option nat;
  resp_faces : option nat;
  expires_at : option string
}.

(** The block [Try GCS first, fallback to local], which the handlers
    repeat: the [file_url] and the [download_url]. *)
Definition store (uid filename : string) (content : list byte)
    : M state (string * string) :=
  s <- get ;;
  download <- match gcs_client s with
              | Some _ =>
                  storage_path <- get_storage_path uid filename ;;
                  save_to_gcs content storage_path "model/ply"
              | None => ret None
              end ;;
  match first_truthy download with
  | None => local <- save_to_local content filename ;; ret (local, local)
  | Some url => ret ("/gcs/" +:+ filename, url)
  end.

(** [(datetime.now() + timedelta(days=30)).isoformat()] *)
Definition expiry : M state string :=
  t <- datetime_now ;;
  t' <- lift (DateTime.add_days 30 t) ;;
  ret (DateTime.isoformat t').

Definition safe_char (c : ascii) : bool :=
  isalnum c || Ascii.eqb c " " || Ascii.eqb c "-" || Ascii.eqb c "_".

Definition safe_prompt (p : string) : string :=
  take 30 (rstrip (filter_chars safe_char p)).

(** The body of the [try] of [text_to_3d] from the line after the
    sampling on: the artifact is encoded, named and stored. *)
Definition text_to_3d_finish (request : TextRequest) (uid : string)
    (pc : PointE.PointCloud float) : M state GenerationResponse :=
  u <- uuid4_str ;;
  let request_id := take 8 u in
  t <- datetime_now ;;
  let timestamp := DateTime.strftime "%Y%m%d_%H%M%S" t in
  let safe := safe_prompt (prompt request) in
  if String.eqb (format request) "mesh" then
    mesh <- pointcloud_to_mesh pc (grid_size request) ;;
    mesh_content <- lift (PointE.write_ply (Env.lib w) mesh) ;;
    let filename := "mesh_" +:+ safe +:+ "_" +:+ timestamp +:+ "_"
                    +:+ request_id +:+ ".ply" in
    urls <- store uid filename mesh_content ;;
    e <- expiry ;;
    ret {| success := true;
           message := "Generated mesh: " +:+ prompt request;
           file_url := Some (fst urls); download_url := Some (snd urls);
           resp_user_id := Some uid;
           vertices := Some (List.length (PointE.verts mesh));
           resp_faces := Some (List.length (PointE.faces mesh));
           expires_at := Some e |}
  else
    ply_content <- lift (Codec.pointcloud_ply w pc) ;;
    let ply_bytes := encode_utf8 ply_content in
    let filename := "pointcloud_" +:+ safe +:+ "_" +:+ timestamp +:+ "_"
                    +:+ request_id +:+ ".ply" in
    urls <- store uid filename ply_bytes ;;
    e <- expiry ;;
    ret {| success := true;
           message := "Generated point cloud: " +:+ prompt request;
           file_url := Some (fst urls); download_url := Some (snd urls);
           resp_user_id := Some uid;
           vertices := Some (List.length (PointE.coords pc));
           resp_faces := Some 0;
           expires_at := Some e |}.

(** The identity of a request: the one it carries, or the derived one. *)
Definition identity (given : option string)
    (user_agent x_forwarded_for : option string) : M state string :=
  let hdrs : gmap string (option string) :=
    <["user-agent" := user_agent]> (<["x-forwarded-for" := x_forwarded_for]> ∅) in
  match first_truthy given with
  | Some u => ret u
  | None => generate_user_id (Some hdrs)
  end.

(** The body of the [try] of [text_to_3d]. *)
Definition text_to_3d_body (request : TextRequest)
    (user_agent x_forwarded_for : option string) : M state GenerationResponse :=
  uid <- identity (user_id request) user_agent x_forwarded_for ;;
  pc <- generate_from_text (prompt request) ;;
  text_to_3d_finish request uid pc.

(** [POST /generate/text] *)
Definition text_to_3d (req : Request) (request : TextRequest)
    (user_agent x_forwarded_for authorization : option string)
    : M state GenerationResponse :=
  ok <- lift (verify_secret_key authorization) ;;
  if negb ok then
    raise (HTTPException 401 "Invalid or missing authentication token")
  else
    original_ip <- lift (get_forwarded_ip req) ;;
    try_catch (text_to_3d_body request user_agent x_forwarded_for)
      (fun e => raise (HTTPException 500 (Env.str_exn w e))).

(** [s.rfind(c)], with -1 when [c] does not occur *)
Fixpoint rfind_from (c : ascii) (s : string) (i found : Z) : Z :=
  match s with
  | EmptyString => found
  | String d s' => rfind_from c s' (i + 1) (if Ascii.eqb d c then i else found)
  end.

Definition rfind (c : ascii) (s : string) : Z := rfind_from c s 0 (-1).

(** [os.path.splitext(p)[0]]: the extension starts at the last dot of the
    last component, unless only dots come before it there. *)
Definition splitext_root (p : string) : string :=
  let sepIndex := rfind "/" p in
  let dotIndex := rfind "." p in
  if (sepIndex <? dotIndex)%Z then
    if all_chars (Ascii.eqb ".")
         (substring (Z.to_nat (sepIndex + 1))
            (Z.to_nat (dotIndex - sepIndex - 1)) p)
    then p
    else take (Z.to_nat dotIndex) p
  else p.

(** An uploaded file: the name the client gave it, and its content. *)
Record UploadFile : Type := {
  upload_filename : option string;
  upload_content : list byte
}.

(** The body of the [try] of [image_to_3d]; the branch of the point
    cloud is empty and gives [None]. *)
Definition image_to_3d_body (file : UploadFile) (fmt : string)
    (grid : Z) (uid_form user_agent x_forwarded_for : option string)
    (original_ip : string) : M state (option GenerationResponse) :=
  s <- get ;;
  match models_ready s, image_sampler s with
  | true, Some _ =>
      uid <- identity uid_form user_agent x_forwarded_for ;;
      let image_data := upload_content file in
      image <- lift (PointE.Image_open (Env.lib w) image_data) ;;
      pc <- generate_from_image image ;;
      u <- uuid4_str ;;
      let request_id := take 8 u in
      t <- datetime_now ;;
      let timestamp := DateTime.strftime "%Y%m%d_%H%M%S" t in
      let original_name :=
        take 20 (splitext_root
                   (match first_truthy (upload_filename file) with
                    | Some n => n
                    | None => "image"
                    end)) in
      if String.eqb fmt "mesh" then
        mesh <- pointcloud_to_mesh pc grid ;;
        mesh_content <- lift (PointE.write_ply (Env.lib w) mesh) ;;
        let filename := "mesh_from_" +:+ original_name +:+ "_" +:+ timestamp
                        +:+ "_" +:+ request_id +:+ ".ply" in
        urls <- store uid filename mesh_content ;;
        e <- expiry ;;
        ret (Some {| success := true;
                     message := "Generated mesh from image";
                     file_url := Some (fst urls);
                     download_url := Some (snd urls);
                     resp_user_id := Some uid;
                     vertices := Some (List.length (PointE.verts mesh));
                     resp_faces := Some (List.length (PointE.faces mesh));
                     expires_at := Some e |})
      else ret None
  | _, _ => raise (HTTPException 503 "Image model not ready")
  end.

(** [POST /generate/image] *)
Definition image_to_3d (req : Request) (file : UploadFile) (fmt : string)
    (grid : Z) (uid_form user_agent x_forwarded_for authorization : option string)
    : M state (option GenerationResponse) :=
  ok <- lift (verify_secret_key authorization) ;;
  if negb ok then
    raise (HTTPException 401 "Invalid or missing authentication token")
  else
    original_ip <- lift (get_forwarded_ip req) ;;
    try_catch
      (image_to_3d_body file fmt grid uid_form user_agent x_forwarded_for
         original_ip)
      (fun e => raise (HTTPException 500 (Env.str_exn w e))).

(** *** The asset catalog *)

Record ModelEntry : Type := {
  entry_filename : string;
  entry_path : string;
  entry_download_url : string;
  created : option string;
  entry_size : option Z;
  type_ : string
}.

Record UserModelsResponse : Type := {
  models_user_id : string;
  models : list ModelEntry;
  total_count : nat
}.

(** The kind of an artifact, as the catalog infers it from the name of
    the blob. *)
Definition kind_of (blob_name : string) : string :=
  if contains "mesh_" blob_name then "mesh" else "pointcloud".

(** The dictionary made for one blob. *)
Definition catalog_entry (c : Gcs.Client) (blob : Gcs.Blob) : result ModelEntry :=
  match Gcs.generate_signed_url c (BUCKET_NAME cfg) (Gcs.name blob) (hours 1) with
  | Raise e => Raise e
  | Ok url =>
      Ok {| entry_filename := basename (Gcs.name blob);
            entry_path := Gcs.name blob;
            entry_download_url := url;
            created := option_map DateTime.isoformat_utc (Gcs.time_created blob);
            entry_size := Gcs.size blob;
            type_ := kind_of (Gcs.name blob) |}
  end.

(** The loop over the blobs. *)
Fixpoint collect (c : Gcs.Client) (blobs : list Gcs.Blob)
    : result (list ModelEntry) :=
  match blobs with
  | [] => Ok []
  | blob :: rest =>
      if endswith ".ply" (Gcs.name blob) then
        match catalog_entry c blob with
        | Raise e => Raise e
        | Ok entry =>
            match collect c rest with
            | Raise e => Raise e
            | Ok entries => Ok (entry :: entries)
            end
        end
      else collect c rest
  end.

(** [sorted(l, key=key, reverse=True)]: descending, and stable. *)
Fixpoint insert_desc {A} (key : A -> string) (x : A) (l : list A) : list A :=
  match l with
  | [] => [x]
  | y :: l' => if String.ltb (key x) (key y) then y :: insert_desc key x l'
               else x :: l
  end.

Definition sorted_desc {A} (key : A -> string) (l : list A) : list A :=
  foldr (insert_desc key) [] l.

Definition created_key (m : ModelEntry) : string :=
  match first_truthy (created m) with Some t => t | None => "" end.

(** [GET /user/{user_id}/models] *)
Definition get_user_models (uid : string) : M state UserModelsResponse :=
  s <- get ;;
  match gcs_client s with
  | None => raise (HTTPException 503 "Storage not available")
  | Some c =>
      try_catch
        (blobs <- lift (Gcs.list_blobs c (BUCKET_NAME cfg)
                          ("users/" +:+ uid +:+ "/")) ;;
         entries <- lift (collect c blobs) ;;
         ret {| models_user_id := uid;
                models := sorted_desc created_key entries;
                total_count := List.length entries |})
        (fun e => raise (HTTPException 500
                           ("Failed to list user models: " +:+ Env.str_exn w e)))
  end.

(** [GET /download/{filename}]: the bytes the response sends. *)
Definition download (filename : string) : M state (list byte) :=
  let filepath := scratch +:+ "/" +:+ filename in
  s <- get ;;
  if negb (Fs.exists_ (fs s) (cwd s) filepath) then
    raise (HTTPException 404 "File not found")
  else lift (Fs.file_response (fs s) (cwd s) filepath).

(** *** The probes *)

(** The dictionary [GET /health] returns. *)
Record Health : Type := {
  health_status : string;
  health_models_ready : bool;
  health_storage_ready : bool;
  health_production : bool
}.

(** [GET /health] *)
Definition health : M state Health :=
  s <- get ;;
  ret {| health_status := if models_ready s then "healthy" else "loading";
         health_models_ready := models_ready s;
         health_storage_ready :=
           match gcs_client s with Some _ => true | None => false end;
         health_production := true |}.

(** The dictionary [GET /] returns. *)
Record Root : Type := {
  root_status : string;
  root_version : string;
  root_gpu_available : bool;
  root_models_ready : bool;
  root_storage : string;
  root_features : list string;
  root_authentication : string
}.

(** [GET /] *)
Definition root : M state Root :=
  s <- get ;;
  ret {| root_status := "Point-E Production Server";
         root_version := "3.0.0";
         root_gpu_available := PointE.cuda_is_available (Env.lib w);
         root_models_ready := models_ready s;
         root_storage := match gcs_client s with
                         | Some _ => "Google Cloud Storage"
                         | None => "Local storage"
                         end;
         root_features := ["text-to-3d"; "image-to-3d"; "user-storage"];
         root_authentication :=
           if truthy (SECRET_KEY cfg) then "Bearer token required"
           else "Not configured" |}.

End Server.
End Server.

(** ** [local_server.py]: the local server *)

Module LocalServer.
Section LocalServer.

Context {float obj : Type}.
Variable w : Env.World float obj.

Record state : Type := {
  text_model : option obj;
  text_sampler : option (PointE.Sampler float obj);
  image_model : option obj;
  image_sampler : option (PointE.Sampler float obj);
  sdf_model : option obj;
  models_ready : bool;
  device : option PointE.device;
  fs : Fs.filesystem;
  cwd : list string;
  clock_reads : nat;
  calls : list (PointE.call obj)
}.

(** The globals as the module sets them when it is loaded, before the
    output directory is made. *)
Definition initial (files : Fs.filesystem) (dir : list string) : state :=
  {| text_model := None; text_sampler := None; image_model := None;
     image_sampler := None; sdf_model := None; models_ready := false;
     device := None; fs := files; cwd := dir; clock_reads := 0;
     calls := [] |}.

Definition set_text_model (v : option obj) (s : state) : state :=
  {| text_model := v; text_sampler := text_sampler s;
     image_model := image_model s; image_sampler := image_sampler s;
     sdf_model := sdf_model s; models_ready := models_ready s;
     device := device s; fs := fs s; cwd := cwd s;
     clock_reads := clock_reads s; calls := calls s |}.

Definition set_text_sampler (v : option (PointE.Sampler float obj))
    (s : state) : state :=
  {| text_model := text_model s; text_sampler := v;
     image_model := image_model s; image_sampler := image_sampler s;
     sdf_model := sdf_model s; models_ready := models_ready s;
     device := device s; fs := fs s; cwd := cwd s;
     clock_reads := clock_reads s; calls := calls s |}.

Definition set_image_model (v : option obj) (s : state) : state :=
  {| text_model := text_model s; text_sampler := text_sampler s;
     image_model := v; image_sampler := image_sampler s;
     sdf_model := sdf_model s; models_ready := models_ready s;
     device := device s; fs := fs s; cwd := cwd s;
     clock_reads := clock_reads s; calls := calls s |}.

Definition set_image_sampler (v : option (PointE.Sampler float obj))
    (s : state) : state :=
  {| text_model := text_model s; text_sampler := text_sampler s;
     image_model := image_model s; image_sampler := v;
     sdf_model := sdf_model s; models_ready := models_ready s;
     device := device s; fs := fs s; cwd := cwd s;
     clock_reads := clock_reads s; calls := calls s |}.

Definition set_sdf_model (v : option obj) (s : state) : state :=
  {| text_model := text_model s; text_sampler := text_sampler s;
     image_model := image_model s; image_sampler := image_sampler s;
     sdf_model := v; models_ready := models_ready s;
     device := device s; fs := fs s; cwd := cwd s;
     clock_reads := clock_reads s; calls := calls s |}.

Definition set_models_ready (v : bool) (s : state) : state :=
  {| text_model := text_model s; text_sampler := text_sampler s;
     image_model := image_model s; image_sampler := image_sampler s;
     sdf_model := sdf_model s; models_ready := v;
     device := device s; fs := fs s; cwd := cwd s;
     clock_reads := clock_reads s; calls := calls s |}.

Definition set_device (v : option PointE.device) (s : state) : state :=
  {| text_model := text_model s; text_sampler := text_sampler s;
     image_model := image_model s; image_sampler := image_sampler s;
     sdf_model := sdf_model s; models_ready := models_ready s;
     device := v; fs := fs s; cwd := cwd s;
     clock_reads := clock_reads s; calls := calls s |}.

Definition set_fs (v : Fs.filesystem) (s : state) : state :=
  {| text_model := text_model s; text_sampler := text_sampler s;
     image_model := image_model s; image_sampler := image_sampler s;
     sdf_model := sdf_model s; models_ready := models_ready s;
     device := device s; fs := v; cwd := cwd s;
     clock_reads := clock_reads s; calls := calls s |}.

Definition set_clock_reads (v : nat) (s : state) : state :=
  {| text_model := text_model s; text_sampler := text_sampler s;
     image_model := image_model s; image_sampler := image_sampler s;
     sdf_model := sdf_model s; models_ready := models_ready s;
     device := device s; fs := fs s; cwd := cwd s;
     clock_reads := v; calls := calls s |}.

Definition set_calls (v : list (PointE.call obj)) (s : state) : state :=
  {| text_model := text_model s; text_sampler := text_sampler s;
     image_model := image_model s; image_sampler := image_sampler s;
     sdf_model := sdf_model s; models_ready := models_ready s;
     device := device s; fs := fs s; cwd := cwd s;
     clock_reads := clock_reads s; calls := v |}.

(** [datetime.now()] and [time.time()]: a reading of the clock. *)
Definition datetime_now : M state DateTime.datetime :=
  fun s => (Ok (Env.now w (clock_reads s)),
            set_clock_reads (S (clock_reads s)) s).

Definition record_call (c : PointE.call obj) : M state unit :=
  modify (fun s => set_calls (calls s ++ [c]) s).

Definition mkdir (path : string) : M state unit :=
  fun s => match Fs.mkdir (fs s) (cwd s) path with
           | Ok fs' => (Ok tt, set_fs fs' s)
           | Raise e => (Raise e, s)
           end.

Definition write_file (path : string) (data : list byte) : M state unit :=
  fun s => match Fs.write_file (fs s) (cwd s) path data with
           | Ok fs' => (Ok tt, set_fs fs' s)
           | Raise e => (Raise e, s)
           end.

Definition OUTPUT_DIR : string := "generated_models".

(** What the module does when it is loaded: [OUTPUT_DIR.mkdir(exist_ok=True)] *)
Definition on_import : M state unit := mkdir OUTPUT_DIR.

(** [str(a / b)] for the path whose text is [a]: an absolute [b]
    replaces [a], and the result is normalised. *)
Definition joinpath (a b : string) : string := path_str (posix_join a b).

Definition get_device : M state (PointE.device * string) :=
  if PointE.cuda_is_available (Env.lib w) then
    n <- lift (PointE.cuda_get_device_name (Env.lib w) 0) ;;
    ret (PointE.Cuda, "CUDA GPU (" +:+ n +:+ ")")
  else if PointE.mps_is_available (Env.lib w) then
    ret (PointE.Mps, "Apple Silicon GPU (MPS)")
  else ret (PointE.Cpu, "CPU").

Definition load_weights (m : obj) (name : string) (d : PointE.device)
    : M state unit :=
  ckpt <- lift (PointE.load_checkpoint (Env.lib w) name d) ;;
  lift (PointE.load_state_dict (Env.lib w) m ckpt).

(** The text model, the upsampler and the text sampler; the upsampler
    and its diffusion are used again for the image sampler. *)
Definition load_text (d : PointE.device) : M state (obj * obj) :=
  tm <- lift (PointE.model_from_config (Env.lib w) "base40M-textvec" d) ;;
  modify (set_text_model (Some tm)) ;;;
  lift (PointE.model_eval (Env.lib w) tm) ;;;
  text_diffusion <- lift (PointE.diffusion_from_config (Env.lib w) "base40M-textvec") ;;
  upsampler_model <- lift (PointE.model_from_config (Env.lib w) "upsample" d) ;;
  lift (PointE.model_eval (Env.lib w) upsampler_model) ;;;
  upsampler_diffusion <- lift (PointE.diffusion_from_config (Env.lib w) "upsample") ;;
  load_weights tm "base40M-textvec" d ;;;
  load_weights upsampler_model "upsample" d ;;;
  ts <- lift (PointE.PointCloudSampler (Env.lib w)
                (Server.text_sampler_args d [tm; upsampler_model]
                   [text_diffusion; upsampler_diffusion])) ;;
  modify (set_text_sampler (Some ts)) ;;;
  ret (upsampler_model, upsampler_diffusion).

(** The body of the inner [try]: the image model, which is optional. *)
Definition load_image (d : PointE.device) (upsampler_model upsampler_diffusion : obj)
    : M state unit :=
  im <- lift (PointE.model_from_config (Env.lib w) "base1B" d) ;;
  modify (set_image_model (Some im)) ;;;
  lift (PointE.model_eval (Env.lib w) im) ;;;
  image_diffusion <- lift (PointE.diffusion_from_config (Env.lib w) "base1B") ;;
  load_weights im "base1B" d ;;;
  smp <- lift (PointE.PointCloudSampler (Env.lib w)
                 (Server.image_sampler_args d [im; upsampler_model]
                    [image_diffusion; upsampler_diffusion])) ;;
  modify (set_image_sampler (Some smp)).

Definition load_sdf (d : PointE.device) : M state unit :=
  sm <- lift (PointE.model_from_config (Env.lib w) "sdf" d) ;;
  modify (set_sdf_model (Some sm)) ;;;
  lift (PointE.model_eval (Env.lib w) sm) ;;;
  load_weights sm "sdf" d.

Definition load_models : M state unit :=
  dn <- get_device ;;
  let d := fst dn in
  modify (set_device (Some d)) ;;;
  try_catch
    (up <- load_text d ;;
     try_catch (load_image d (fst up) (snd up))
       (fun _ => modify (set_image_model None) ;;;
                 modify (set_image_sampler None)) ;;;
     load_sdf d ;;;
     modify (set_models_ready true))
    (fun e => modify (set_models_ready false) ;;; raise e).

(** The loop over the sampler, between two readings of the clock. *)
Definition run_sampler (sampler : PointE.Sampler float obj)
    (kwargs : PointE.model_kwargs obj)
    : M state (PointE.PointCloud float * (DateTime.datetime * DateTime.datetime)) :=
  start_time <- datetime_now ;;
  record_call (PointE.SampleCall kwargs) ;;;
  yielded <- lift (PointE.sample_batch_progressive sampler 1 kwargs) ;;
  let samples := List.last (map Some yielded) None in
  stop_time <- datetime_now ;;
  pcs <- lift (PointE.output_to_point_clouds sampler samples) ;;
  match pcs with
  | pc :: _ => ret (pc, (start_time, stop_time))
  | [] => raise (IndexError "list index out of range")
  end.

Definition generate_from_text (prompt : string)
    : M state (PointE.PointCloud float * (DateTime.datetime * DateTime.datetime)) :=
  s <- get ;;
  match models_ready s, text_sampler s with
  | true, Some sampler => run_sampler sampler (PointE.Texts [prompt])
  | _, _ => raise (HTTPException 503 "Models not ready")
  end.

Definition generate_from_image (image : obj)
    : M state (PointE.PointCloud float * (DateTime.datetime * DateTime.datetime)) :=
  s <- get ;;
  match models_ready s, image_sampler s with
  | true, Some sampler => run_sampler sampler (PointE.Images [image])
  | _, _ => raise (HTTPException 503 "Image model not available")
  end.

Definition pointcloud_to_mesh (pc : PointE.PointCloud float) (grid_size : Z)
    : M state (PointE.TriMesh float) :=
  s <- get ;;
  match models_ready s, sdf_model s with
  | true, Some sdf =>
      record_call (PointE.MeshCall grid_size) ;;;
      lift (PointE.marching_cubes_mesh (Env.lib w) pc sdf 4096 grid_size)
  | _, _ => raise (HTTPException 503 "SDF model not ready")
  end.

(** The file and its name; the file is made when it is opened. *)
Definition save_mesh_locally (mesh : PointE.TriMesh float)
    (user_id : option string) (prompt : string) : M state (string * string) :=
  match user_id with
  | None => raise (TypeError "unsupported operand type(s) for /: 'PosixPath' and 'NoneType'")
  | Some uid =>
      let user_dir := joinpath OUTPUT_DIR uid in
      mkdir user_dir ;;;
      t <- datetime_now ;;
      let timestamp := DateTime.strftime "%Y%m%d_%H%M%S" t in
      let filename := "mesh_" +:+ Server.safe_prompt prompt +:+ "_"
                      +:+ timestamp +:+ ".ply" in
      let filepath := joinpath user_dir filename in
      write_file filepath [] ;;;
      content <- lift (PointE.write_ply (Env.lib w) mesh) ;;
      write_file filepath content ;;;
      ret (filepath, filename)
  end.

Record TextRequest : Type := {
  prompt : string;
  user_id : option string;
  format : string;
  grid_size : Z;
  num_samples : Z
}.

Record GenerationResponse : Type := {
  success : bool;
  message : string;
  file_url : option string;
  file_path : option string;
  resp_user_id : option string;
  vertices : option nat;
  resp_faces : option nat;
  device_used : option string;
  generation_time : option float
}.

(** The body of the [try] of [text_to_3d]. *)
Definition text_to_3d_body (request : TextRequest) : M state GenerationResponse :=
  dn <- get_device ;;
  let device_name := snd dn in
  g <- generate_from_text (prompt request) ;;
  let pc := fst g in
  if String.eqb (format request) "mesh" then
    mesh <- pointcloud_to_mesh pc (grid_size request) ;;
    saved <- save_mesh_locally mesh (user_id request) (prompt request) ;;
    ret {| success := true;
           message := "Generated mesh: " +:+ prompt request;
           file_url := Some ("/download/" +:+ Server.fstr (user_id request)
                             +:+ "/" +:+ snd saved);
           file_path := Some (fst saved);
           resp_user_id := user_id request;
           vertices := Some (List.length (PointE.verts mesh));
           resp_faces := Some (List.length (PointE.faces mesh));
           device_used := Some device_name;
           generation_time := Some (Env.elapsed w (fst (snd g)) (snd (snd g))) |}
  else raise (HTTPException 400 "Only mesh format is supported").

(** [POST /generate/text] *)
Definition text_to_3d (request : TextRequest) : M state GenerationResponse :=
  try_catch (text_to_3d_body request)
    (fun e => raise (HTTPException 500 (Env.str_exn w e))).

(** [Path(p).name]: the last component that is neither empty nor a dot. *)
Definition path_name (p : string) : string :=
  List.last
    (List.filter (fun c => negb (String.eqb c "" || String.eqb c "."))
       (split "/" p)) "".

(** [Path(p).stem] *)
Definition path_stem (p : string) : string :=
  let name := path_name p in
  let i := Server.rfind "." name in
  if ((0 <? i) && (i <? Z.of_nat (String.length name) - 1))%Z
  then take (Z.to_nat i) name else name.

Record UploadFile : Type := {
  upload_filename : option string;
  upload_content : list byte
}.

(** The body of the [try] of [image_to_3d]. *)
Definition image_to_3d_body (file : UploadFile) (uid : string) (grid : Z)
    : M state GenerationResponse :=
  s <- get ;;
  match image_model s with
  | None =>
      raise (HTTPException 503 "Image model not available. Use text-to-3D instead.")
  | Some _ =>
      dn <- get_device ;;
      let device_name := snd dn in
      image <- lift (PointE.Image_open (Env.lib w) (upload_content file)) ;;
      g <- generate_from_image image ;;
      mesh <- pointcloud_to_mesh (fst g) grid ;;
      let prompt :=
        match Server.first_truthy (upload_filename file) with
        | Some n => "from_" +:+ path_stem n
        | None => "from_image"
        end in
      saved <- save_mesh_locally mesh (Some uid) prompt ;;
      ret {| success := true;
             message := "Generated mesh from image";
             file_url := Some ("/download/" +:+ uid +:+ "/" +:+ snd saved);
             file_path := Some (fst saved);
             resp_user_id := Some uid;
             vertices := Some (List.length (PointE.verts mesh));
             resp_faces := Some (List.length (PointE.faces mesh));
             device_used := Some device_name;
             generation_time := Some (Env.elapsed w (fst (snd g)) (snd (snd g))) |}
  end.

(** [POST /generate/image] *)
Definition image_to_3d (file : UploadFile) (uid : string) (grid : Z)
    : M state GenerationResponse :=
  try_catch (image_to_3d_body file uid grid)
    (fun e => raise (HTTPException 500 (Env.str_exn w e))).

(** [GET /download/{user_id}/{filename}]: the bytes the response sends. *)
Definition download (uid filename : string) : M state (list byte) :=
  let filepath := joinpath (joinpath OUTPUT_DIR uid) filename in
  s <- get ;;
  if negb (Fs.exists_ (fs s) (cwd s) filepath) then
    raise (HTTPException 404 "File not found")
  else lift (Fs.file_response (fs s) (cwd s) filepath).

(** The dictionary [GET /health] returns. *)
Record Health : Type := {
  health_status : string;
  health_device : string;
  health_models_ready : bool
}.

(** [GET /health] *)
Definition health : M state Health :=
  dn <- get_device ;;
  s <- get ;;
  ret {| health_status := if models_ready s then "healthy" else "loading";
         health_device := snd dn;
         health_models_ready := models_ready s |}.

End LocalServer.
End LocalServer.

(** ** The record of calls into the inference library *)

Module Trace.
Section Trace.

Context {float obj : Type}.

(** From [s] to [s'] the record of calls has grown by calls that all
    satisfy [P]. *)
Definition extends (P : PointE.call obj -> Prop)
    (s s' : Server.state (float := float) (obj := obj)) : Prop :=
  exists rest,
    Server.calls s' = Server.calls s ++ rest /\ Forall P rest.

(** The computation [m] makes only calls that satisfy [P]. *)
Definition only {A : Type} (P : PointE.call obj -> Prop)
    (m : M (Server.state (float := float) (obj := obj)) A) : Prop :=
  forall s, extends P s (snd (m s)).

End Trace.
End Trace.

(** ** What a request leaves alone *)

Module Frame.
Section Frame.

Context {float obj : Type}.

(** From [s] to [s'] the loaded models, the readiness flag and the
    client of the blob store are the same. *)
Definition same_models (s s' : Server.state (float := float) (obj := obj))
    : Prop :=
  Server.text_model s' = Server.text_model s /\
  Server.text_sampler s' = Server.text_sampler s /\
  Server.image_model s' = Server.image_model s /\
  Server.image_sampler s' = Server.image_sampler s /\
  Server.sdf_model s' = Server.sdf_model s /\
  Server.models_ready s' = Server.models_ready s /\
  Server.gcs_client s' = Server.gcs_client s.

(** The computation [m] leaves them alone, however it ends. *)
Definition keeps {A : Type}
    (m : M (Server.state (float := float) (obj := obj)) A) : Prop :=
  forall s, same_models s (snd (m s)).

End Frame.
End Frame.

(** ** Test doubles

    A world in which every collaborator answers at once: scalars are
    integers, the objects of the inference library are numbers. *)

Module Doubles.

Definition cloud : PointE.PointCloud Z :=
  {| PointE.coords := [(0, 0, 0); (1, 2, 3)]%Z;
     PointE.channels := <["R" := [0; 1]%Z]> (<["G" := [1; 0]%Z]>
                          (<["B" := [1; 1]%Z]> ∅)) |}.

Definition mesh : PointE.TriMesh Z :=
  {| PointE.verts := [(0, 0, 0); (1, 0, 0); (0, 1, 0); (0, 0, 1)]%Z;
     PointE.faces := [(0, 1, 2); (0, 1, 3)];
     PointE.vertex_channels := ∅ |}.

Definition sampler : PointE.Sampler Z nat :=
  {| PointE.sample_batch_progressive := fun _ _ => Ok [1; 2];
     PointE.output_to_point_clouds := fun _ => Ok [cloud] |}.

(** A library in which everything loads. *)
Definition library : PointE.Library Z nat :=
  {| PointE.cuda_is_available := false;
     PointE.cuda_get_device_name := fun _ => Raise (RuntimeError "no CUDA device");
     PointE.mps_is_available := false;
     PointE.model_from_config := fun name _ => Ok (String.length name);
     PointE.model_eval := fun _ => Ok tt;
     PointE.diffusion_from_config := fun name => Ok (100 + String.length name);
     PointE.load_checkpoint := fun name _ => Ok (200 + String.length name);
     PointE.load_state_dict := fun _ _ => Ok tt;
     PointE.PointCloudSampler := fun _ => Ok sampler;
     PointE.marching_cubes_mesh := fun _ _ _ _ => Ok mesh;
     PointE.write_ply := fun _ => Ok [x70; x6c; x79];
     PointE.Image_open := fun _ => Ok 7 |}.


(** The same library, but CUDA is reported and its device cannot be
    named. *)
Definition library_without_device : PointE.Library Z nat :=
  {| PointE.cuda_is_available := true;
     PointE.cuda_get_device_name := fun _ => Raise (RuntimeError "no CUDA device");
     PointE.mps_is_available := false;
     PointE.model_from_config := fun name _ => Ok (String.length name);
     PointE.model_eval := fun _ => Ok tt;
     PointE.diffusion_from_config := fun name => Ok (100 + String.length name);
     PointE.load_checkpoint := fun name _ => Ok (200 + String.length name);
     PointE.load_state_dict := fun _ _ => Ok tt;
     PointE.PointCloudSampler := fun _ => Ok sampler;
     PointE.marching_cubes_mesh := fun _ _ _ _ => Ok mesh;
     PointE.write_ply := fun _ => Ok [x70; x6c; x79];
     PointE.Image_open := fun _ => Ok 7 |}.

(** 2 January 2024, 03:04:05 *)
Definition instant : DateTime.datetime :=
  {| DateTime.year := 2024; DateTime.month := 1; DateTime.day := 2;
     DateTime.hour := 3; DateTime.minute := 4; DateTime.second := 5;
     DateTime.microsecond := 0 |}.

(** [str(e)]: the status and the detail for an [HTTPException], the
    message otherwise. *)
Definition str_exn (e : exn) : string :=
  match e with
  | HTTPException status detail => str_int status +:+ ": " +:+ detail
  | ValueError m | TypeError m | IndexError m | AttributeError m
  | OverflowError m | RuntimeError m | DefaultCredentialsError m
  | Exception m => m
  | KeyError k => "'" +:+ k +:+ "'"
  | FileNotFoundError p | FileExistsError p | IsADirectoryError p
  | NotADirectoryError p => p
  end.

(** A blob store with one blob: a point cloud made from the prompt
    [mesh_x]. *)
Definition blob : Gcs.Blob :=
  {| Gcs.name := "users/u1/2024/01/02/pointcloud_mesh_x_20240102_030405_abcd1234.ply";
     Gcs.time_created := Some instant;
     Gcs.size := Some 64%Z |}.

Definition client : Gcs.Client :=
  {| Gcs.bucket_exists := fun _ => Ok true;
     Gcs.create_bucket := fun _ _ => Ok tt;
     Gcs.patch_cors := fun _ => Ok tt;
     Gcs.upload_from_string := fun _ _ _ _ => Ok tt;
     Gcs.generate_signed_url := fun bucket path _ =>
       Ok ("https://storage.example/" +:+ bucket +:+ "/" +:+ path);
     Gcs.list_blobs := fun _ _ => Ok [blob] |}.

(** A blob store with four blobs under one identity, in the order the
    listing returns them: a mesh of 1 January, a text file, a point
    cloud whose time of creation is not known, and a point cloud of
    2 January. *)
Definition blobs_many : list Gcs.Blob :=
  [ {| Gcs.name := "users/u1/2024/01/01/mesh_a_20240101_000000_aaaa1111.ply";
       Gcs.time_created :=
         Some {| DateTime.year := 2024; DateTime.month := 1; DateTime.day := 1;
                 DateTime.hour := 0; DateTime.minute := 0; DateTime.second := 0;
                 DateTime.microsecond := 0 |};
       Gcs.size := Some 100%Z |};
    {| Gcs.name := "users/u1/notes.txt";
       Gcs.time_created := Some instant;
       Gcs.size := Some 5%Z |};
    {| Gcs.name := "users/u1/untimed.ply";
       Gcs.time_created := None;
       Gcs.size := None |};
    blob ].

Definition client_many : Gcs.Client :=
  {| Gcs.bucket_exists := fun _ => Ok true;
     Gcs.create_bucket := fun _ _ => Ok tt;
     Gcs.patch_cors := fun _ => Ok tt;
     Gcs.upload_from_string := fun _ _ _ _ => Ok tt;
     Gcs.generate_signed_url := fun bucket path _ =>
       Ok ("https://storage.example/" +:+ bucket +:+ "/" +:+ path);
     Gcs.list_blobs := fun _ _ => Ok blobs_many |}.

Definition world_with (l : PointE.Library Z nat)
    (mk : option string -> result Gcs.Client) : Env.World Z nat :=
  {| Env.lib := l;
     Env.storage_Client := mk;
     Env.now := fun _ => instant;
     Env.uuid4 := fun _ => "abcd1234-0000-4000-8000-000000000000";
     Env.md5_hexdigest := fun _ => "0123456789abcdef0123456789abcdef";
     Env.str_exn := str_exn;
     Env.format_float := str_int;
     Env.int_times_255 := fun c => Ok (c * 255)%Z;
     Env.elapsed := fun _ _ => 0%Z |}.

(** Without credentials for the blob store, and with them. *)
Definition world : Env.World Z nat :=
  world_with library (fun _ => Raise (DefaultCredentialsError "no credentials")).

Definition world_with_gcs : Env.World Z nat :=
  world_with library (fun _ => Ok client).

Definition world_with_many : Env.World Z nat :=
  world_with library (fun _ => Ok client_many).


Definition world_without_device : Env.World Z nat :=
  world_with library_without_device
    (fun _ => Raise (DefaultCredentialsError "no credentials")).

Definition config : Server.Config :=
  {| Server.BUCKET_NAME := "point-e-3d-models";
     Server.PROJECT_ID := None;
     Server.ENABLE_GCS := true;
     Server.SECRET_KEY := "s3cret" |}.

Definition request : Server.Request :=
  {| Server.headers := ∅; Server.client := Some "127.0.0.1" |}.

Definition text_request (p fmt : string) (grid : Z) : Server.TextRequest :=
  {| Server.prompt := p; Server.user_id := Some "u1"; Server.format := fmt;
     Server.grid_size := grid; Server.num_samples := 1 |}.

(** The production server before its models are loaded, and after. *)
Definition loading : Server.state (float := Z) (obj := nat) :=
  Server.initial ∅ [].

Definition loaded (wd : Env.World Z nat) : Server.state :=
  snd (Server.load_models_fast config wd loading).

End Doubles.

(** * Properties *)

(** ** Strings *)

Section Strings.

Lemma lower_char_space (c : ascii) : lower_char c = " "%char -> c = " "%char.
Proof.
  destruct c as [[] [] [] [] [] [] [] []]; vm_compute; intros H;
    first [reflexivity | discriminate H].
Qed.

Lemma has_char_lower_space (s : string) :
  has_char " " (lower s) = false -> has_char " " s = false.
Proof.
  induction s as [|c s IH]; [done|].
  cbn [lower map_chars has_char]. fold (lower s).
  intros H. apply orb_false_iff in H as [Hc Hs].
  apply orb_false_iff. split; [|by apply IH].
  destruct (Ascii.eqb_spec " " c) as [<-|]; [|done].
  by vm_compute in Hc.
Qed.

Lemma cut_app (sep : ascii) (a b : string) :
  has_char sep a = false -> cut sep (a +:+ String sep b) = Some (a, b).
Proof.
  induction a as [|c a IH]; simpl.
  - intros _. by rewrite Ascii.eqb_refl.
  - intros H. apply orb_false_iff in H as [Hc Ha].
    rewrite Ascii.eqb_sym, Hc. by rewrite (IH Ha).
Qed.

Lemma cut_spec (sep : ascii) (s a b : string) :
  cut sep s = Some (a, b) -> s = a +:+ String sep b /\ has_char sep a = false.
Proof.
  revert a. induction s as [|c s IH]; simpl; intros a; [done|].
  destruct (Ascii.eqb_spec c sep) as [->|Hne].
  - intros [= <- <-]. done.
  - destruct (cut sep s) as [[a' b']|]; [|done].
    intros [= <- <-]. destruct (IH a' eq_refl) as [-> Ha'].
    split; [done|]. simpl. rewrite Ha', orb_false_r.
    by apply Ascii.eqb_neq.
Qed.

Lemma cut_none (sep : ascii) (a b : string) :
  cut sep (a +:+ String sep b) <> None.
Proof.
  induction a as [|c a IH]; simpl.
  - by rewrite Ascii.eqb_refl.
  - destruct (Ascii.eqb c sep); [done|].
    destruct (cut sep (a +:+ String sep b)) as [[? ?]|]; done.
Qed.

(** Where the first separator is, the two parts are determined. *)
Lemma cut_unique (sep : ascii) (a a' b b' : string) :
  has_char sep a = false -> has_char sep a' = false ->
  a +:+ String sep b = a' +:+ String sep b' -> a = a' /\ b = b'.
Proof.
  intros Ha Ha' E.
  pose proof (cut_app sep a b Ha) as H1.
  pose proof (cut_app sep a' b' Ha') as H2.
  rewrite E in H1. rewrite H1 in H2. by injection H2.
Qed.

Lemma lower_bearer_no_space (scheme : string) :
  lower scheme = "bearer" -> has_char " " scheme = false.
Proof.
  intros H. apply has_char_lower_space. by rewrite H.
Qed.

Lemma append_assoc (a b c : string) : (a +:+ b) +:+ c = a +:+ (b +:+ c).
Proof.
  induction a as [|x a IH]; [done|].
  change (String x ((a +:+ b) +:+ c) = String x (a +:+ (b +:+ c))).
  by rewrite IH.
Qed.

Lemma append_nil_r (a : string) : a +:+ "" = a.
Proof.
  induction a as [|x a IH]; [done|].
  change (String x (a +:+ "") = String x a). by rewrite IH.
Qed.

Lemma append_String (c : ascii) (a b : string) :
  String c a +:+ b = String c (a +:+ b).
Proof. reflexivity. Qed.

Lemma all_chars_app (p : ascii -> bool) (a b : string) :
  all_chars p (a +:+ b) = all_chars p a && all_chars p b.
Proof.
  induction a as [|c a IH]; simpl; [done|]. by rewrite IH, andb_assoc.
Qed.

End Strings.

(** ** The credential check *)

Section Credential.

Variable cfg : Server.Config.

Lemma compare_digest_true (a b : string) :
  compare_digest a b = Ok true <->
  a = b /\ is_ascii_str b = true.
Proof.
  unfold compare_digest.
  destruct (is_ascii_str a) eqn:Ha, (is_ascii_str b) eqn:Hb; simpl;
    try (split; [done | intros [-> ?]; congruence]).
  destruct (String.eqb_spec a b) as [->|Hne]; split; try done.
  intros [? _]. done.
Qed.

Lemma compare_digest_cases (a b : string) :
  compare_digest a b = Ok true \/ compare_digest a b = Ok false \/
  exists e, compare_digest a b = Raise e.
Proof.
  unfold compare_digest.
  destruct (is_ascii_str a && is_ascii_str b); [|eauto].
  destruct (String.eqb a b); eauto.
Qed.

Lemma verify_secret_key_true (authorization : option string) :
  Server.SECRET_KEY cfg <> "" ->
  Server.verify_secret_key cfg authorization = Ok true <->
  is_ascii_str (Server.SECRET_KEY cfg) = true /\
  exists scheme,
    lower scheme = "bearer" /\
    authorization = Some (scheme +:+ " " +:+ Server.SECRET_KEY cfg).
Proof.
  intros Hkey. unfold Server.verify_secret_key.
  destruct (Server.SECRET_KEY cfg) as [|k0 key] eqn:Ek; [done|]. simpl truthy.
  cbn [negb]. destruct authorization as [a|].
  2:{ split; [done|]. intros [_ (? & _ & [=])]. }
  destruct a as [|a0 a]; simpl truthy; cbn [negb].
  { split; [done|]. intros [_ (sch & _ & [= E])]. by destruct sch. }
  unfold split1. destruct (cut " " (String a0 a)) as [[sch tok]|] eqn:Ec.
  - apply cut_spec in Ec as [Ea Hsch]. rewrite Ea.
    destruct (String.eqb_spec (lower sch) "bearer") as [Hl|Hl]; cbn [negb].
    + destruct (compare_digest_cases tok (String k0 key)) as [H|[H|[e H]]];
        rewrite H; simpl.
      * apply compare_digest_true in H as [-> Hasc].
        split; [|done]. intros _. split; [done|]. by exists sch.
      * split; [done|]. intros [Hasc (sch' & Hl' & [= E])].
        apply cut_unique in E as [-> ->];
          [|done|by apply lower_bearer_no_space].
        assert (compare_digest (String k0 key) (String k0 key) = Ok true) as H'
          by by apply compare_digest_true.
        congruence.
      * split; [done|]. intros [Hasc (sch' & Hl' & [= E])].
        apply cut_unique in E as [-> ->];
          [|done|by apply lower_bearer_no_space].
        assert (compare_digest (String k0 key) (String k0 key) = Ok true) as H'
          by by apply compare_digest_true.
        congruence.
    + simpl. split; [done|]. intros [_ (sch' & Hl' & [= E])].
      apply cut_unique in E as [-> ->];
        [|done|by apply lower_bearer_no_space].
      done.
  - simpl. split; [done|]. intros [_ (sch' & Hl' & [= E])].
    rewrite E in Ec. by apply cut_none in Ec.
Qed.

Lemma verify_secret_key_total (authorization : option string) :
  Server.SECRET_KEY cfg <> "" ->
  exists b, Server.verify_secret_key cfg authorization = Ok b.
Proof.
  intros Hkey. unfold Server.verify_secret_key.
  destruct (Server.SECRET_KEY cfg) as [|k0 key]; [done|]. simpl truthy.
  cbn [negb]. destruct authorization as [a|]; [|by eexists].
  destruct (truthy a); cbn [negb]; [|by eexists].
  unfold try_except.
  match goal with |- context [match ?r with Ok _ => _ | Raise _ => _ end] =>
    destruct r end; by eexists.
Qed.

End Credential.

(** What [verify_secret_key] does, for every secret and every header.
    It signals a configuration error when no secret is configured. When
    one is configured it returns a boolean for every header, absent or
    malformed ones included, and never raises; it returns [True] exactly
    when the secret consists of ASCII characters only and the header is a
    bearer credential for it: a scheme that reads [bearer] in lower case,
    one space, and a token equal to the secret. *)
Theorem verify_secret_key_spec (cfg : Server.Config)
    (authorization : option string) :
  (Server.SECRET_KEY cfg = "" /\
   Server.verify_secret_key cfg authorization =
     Raise (ValueError "POINT_E_SECRET_KEY must be configured for production use"))
  \/
  (Server.SECRET_KEY cfg <> "" /\
   exists b : bool,
     Server.verify_secret_key cfg authorization = Ok b /\
     (b = true <->
      is_ascii_str (Server.SECRET_KEY cfg) = true /\
      exists scheme,
        lower scheme = "bearer" /\
        authorization = Some (scheme +:+ " " +:+ Server.SECRET_KEY cfg))).
Proof.
  destruct (Server.SECRET_KEY cfg) as [|k0 key] eqn:Ek.
  - left. split; [done|]. unfold Server.verify_secret_key. by rewrite Ek.
  - right. split; [done|].
    assert (Server.SECRET_KEY cfg <> "") as Hkey by by rewrite Ek.
    destruct (verify_secret_key_total cfg authorization Hkey) as [b Hb].
    exists b. split; [done|]. rewrite <- Ek.
    rewrite <- (verify_secret_key_true cfg authorization Hkey).
    rewrite Hb. split; congruence.
Qed.

(** C2: the code departs from it. With the secret [é] (the one
    character U+00E9) configured, the header [Bearer é] is a bearer
    credential whose token equals the secret exactly, and it is
    rejected: the comparison of [hmac] raises a [TypeError] for text
    outside ASCII and the bare [except] answers [False]. The same
    function accepts the exact match of an ASCII secret. *)
Lemma verify_secret_key_rejects_exact_non_ascii_match :
  let secret := String "233"%char EmptyString in
  let cfg := {| Server.BUCKET_NAME := "point-e-3d-models";
                Server.PROJECT_ID := None; Server.ENABLE_GCS := true;
                Server.SECRET_KEY := secret |} in
  Server.SECRET_KEY cfg <> "" /\
  lower "Bearer" = "bearer" /\
  (exists m, compare_digest secret (Server.SECRET_KEY cfg) = Raise (TypeError m)) /\
  Server.verify_secret_key cfg (Some ("Bearer" +:+ " " +:+ secret)) = Ok false /\
  Server.verify_secret_key Doubles.config
    (Some ("Bearer" +:+ " " +:+ Server.SECRET_KEY Doubles.config)) = Ok true.
Proof.
  repeat split; try (by vm_compute). by eexists.
Qed.

(** ** The asset catalog *)

(** The blob store is unavailable after start-up when it is disabled
    or when its client cannot be made. *)
Lemma setup_gcs_unavailable {float obj : Type} (cfg : Server.Config)
    (w : Env.World float obj) (s : Server.state) :
  Server.gcs_client s = None ->
  Server.ENABLE_GCS cfg = false \/
  (exists e, Env.storage_Client w (Server.PROJECT_ID cfg) = Raise e) ->
  Server.gcs_client (snd (Server.setup_gcs cfg w s)) = None.
Proof.
  intros Hs [Hoff|[e He]]; unfold Server.setup_gcs.
  - by rewrite Hoff.
  - destruct (Server.ENABLE_GCS cfg); [|done]. simpl.
    unfold try_catch, bind, lift. by rewrite He.
Qed.

(** C3, as the code has it. While the remote tier is unavailable, the
    listing of an identity's artifacts is refused with the error 503
    [Storage not available]; it is not an empty listing. The state is
    left as it was. *)
Theorem get_user_models_without_remote_tier {float obj : Type}
    (cfg : Server.Config) (w : Env.World float obj) (uid : string)
    (s : Server.state) :
  Server.gcs_client s = None ->
  Server.get_user_models cfg w uid s =
    (Raise (HTTPException 503 "Storage not available"), s).
Proof.
  intros H. unfold Server.get_user_models, bind, get. by rewrite H.
Qed.

Lemma get_user_models_without_remote_tier_witness :
  Server.gcs_client (Doubles.loaded Doubles.world) = None /\
  Server.get_user_models Doubles.config Doubles.world "u1"
    (Doubles.loaded Doubles.world) =
    (Raise (HTTPException 503 "Storage not available"),
     Doubles.loaded Doubles.world).
Proof.
  assert (Server.gcs_client (Doubles.loaded Doubles.world) = None) as H
    by reflexivity.
  split; [exact H|].
  exact (get_user_models_without_remote_tier Doubles.config Doubles.world
           "u1" (Doubles.loaded Doubles.world) H).
Defined.

(** C3 as stated fails. The server has started without credentials for
    the blob store; the listing for [u1] is an error, not an empty
    sequence. *)
Lemma get_user_models_unavailable_is_an_error :
  Server.models_ready (Doubles.loaded Doubles.world) = true /\
  Server.gcs_client (Doubles.loaded Doubles.world) = None /\
  fst (Server.get_user_models Doubles.config Doubles.world "u1"
         (Doubles.loaded Doubles.world)) =
    Raise (HTTPException 503 "Storage not available").
Proof. by vm_compute. Qed.

(** What the catalog calls a mesh: a blob whose whole name, the
    directories included, has [mesh_] somewhere in it. *)
Lemma catalog_entry_kind (cfg : Server.Config) (c : Gcs.Client)
    (blob : Gcs.Blob) (entry : Server.ModelEntry) :
  Server.catalog_entry cfg c blob = Ok entry ->
  Server.type_ entry =
    if contains "mesh_" (Gcs.name blob) then "mesh" else "pointcloud".
Proof.
  unfold Server.catalog_entry.
  destruct (Gcs.generate_signed_url _ _ _ _); [|done].
  by intros [= <-].
Qed.

(** C6: the code departs from it. A point cloud made from the prompt
    [mesh_x] is stored under a name that begins with [pointcloud_]; the
    catalog lists it with the kind [mesh]. *)
Theorem catalog_lists_pointcloud_as_mesh :
  let s := Doubles.loaded Doubles.world_with_gcs in
  let made :=
    fst (Server.text_to_3d Doubles.config Doubles.world_with_gcs
           Doubles.request (Doubles.text_request "mesh_x" "pointcloud" 32)
           None None (Some "Bearer s3cret") s) in
  let listed :=
    fst (Server.get_user_models Doubles.config Doubles.world_with_gcs "u1" s) in
  exists resp entry,
    (exists r, made = Ok r /\
       Server.file_url r = Some ("/gcs/" +:+ Server.entry_filename entry)) /\
    listed = Ok resp /\
    Server.models resp = [entry] /\
    Server.entry_filename entry =
      "pointcloud_mesh_x_20240102_030405_abcd1234.ply" /\
    startswith "mesh_" (Server.entry_filename entry) = false /\
    Server.type_ entry = "mesh".
Proof.
  set (entry :=
    {| Server.entry_filename := "pointcloud_mesh_x_20240102_030405_abcd1234.ply";
       Server.entry_path :=
         "users/u1/2024/01/02/pointcloud_mesh_x_20240102_030405_abcd1234.ply";
       Server.entry_download_url :=
         "https://storage.example/point-e-3d-models/users/u1/2024/01/02/pointcloud_mesh_x_20240102_030405_abcd1234.ply";
       Server.created := Some "2024-01-02T03:04:05+00:00";
       Server.entry_size := Some 64%Z;
       Server.type_ := "mesh" |}).
  exists {| Server.models_user_id := "u1"; Server.models := [entry];
            Server.total_count := 1 |}, entry.
  split.
  - eexists. split; [vm_compute; reflexivity|]. reflexivity.
  - repeat split; vm_compute; reflexivity.
Qed.

(** ** The identity *)

(** C9. [generate_user_id] is deterministic: two invocations with the
    same caller-agent header, the same forwarded-address header and
    readings of the clock on the same calendar day give the same
    identity, whatever else differs (the other headers, the time of day,
    the rest of the state). *)
Theorem generate_user_id_deterministic {float obj : Type}
    (w : Env.World float obj) (h1 h2 : gmap string (option string))
    (s1 s2 : Server.state) :
  h1 !! "user-agent" = h2 !! "user-agent" ->
  h1 !! "x-forwarded-for" = h2 !! "x-forwarded-for" ->
  DateTime.year (Env.now w (Server.clock_reads s1)) =
    DateTime.year (Env.now w (Server.clock_reads s2)) ->
  DateTime.month (Env.now w (Server.clock_reads s1)) =
    DateTime.month (Env.now w (Server.clock_reads s2)) ->
  DateTime.day (Env.now w (Server.clock_reads s1)) =
    DateTime.day (Env.now w (Server.clock_reads s2)) ->
  fst (Server.generate_user_id w (Some h1) s1) =
    fst (Server.generate_user_id w (Some h2) s2) /\
  exists id, fst (Server.generate_user_id w (Some h1) s1) = Ok id.
Proof.
  intros Hua Hip Hy Hm Hd.
  assert (forall k, h1 !! k = h2 !! k ->
            Server.get_or_empty (Some h1) k = Server.get_or_empty (Some h2) k)
    as Hget.
  { intros k Hk. unfold Server.get_or_empty.
    destruct (decide (h1 = ∅)) as [->|], (decide (h2 = ∅)) as [->|];
      rewrite ?lookup_empty in *; try done.
    - by rewrite <- Hk.
    - by rewrite Hk.
    - by rewrite Hk. }
  unfold Server.generate_user_id, bind, ret, Server.datetime_now.
  cbn [fst]. rewrite (Hget _ Hua), (Hget _ Hip).
  unfold DateTime.str_date.
  cbn [DateTime.strftime DateTime.directive Ascii.eqb Bool.eqb].
  rewrite Hy, Hm, Hd.
  split; [done|]. by eexists.
Qed.

Lemma generate_user_id_deterministic_witness :
  let h1 : gmap string (option string) :=
    <["user-agent" := Some "godot"]> (<["x-forwarded-for" := None]> ∅) in
  let h2 : gmap string (option string) :=
    <["accept" := Some "*/*"]> h1 in
  fst (Server.generate_user_id Doubles.world (Some h1) Doubles.loading) =
    fst (Server.generate_user_id Doubles.world (Some h2)
           (Doubles.loaded Doubles.world)) /\
  exists id,
    fst (Server.generate_user_id Doubles.world (Some h1) Doubles.loading) = Ok id.
Proof.
  intros h1 h2.
  apply (generate_user_id_deterministic Doubles.world h1 h2 Doubles.loading
           (Doubles.loaded Doubles.world)); reflexivity.
Defined.

(** ** The serialization codec *)

Section CodecProps.

Context {float obj : Type}.
Variable w : Env.World float obj.

(** The loop writes one line for each vertex when every color it reads
    is there. *)
Lemma write_vertices_lines (colors : gmap string (list float))
    (ps : list (PointE.vec3 float)) (i : nat) (out : string) :
  (forall j p, ps !! j = Some p ->
     exists line, Codec.vertex_line w colors (i + j) p = Ok line) ->
  exists lines,
    Codec.write_vertices w colors i ps out =
      (out +:+ foldr String.append "" lines, Ok tt) /\
    List.length lines = List.length ps /\
    forall j p, ps !! j = Some p ->
      exists line, lines !! j = Some line /\
                   Codec.vertex_line w colors (i + j) p = Ok line.
Proof.
  revert i out. induction ps as [|p ps IH]; intros i out H.
  - exists []. simpl. rewrite append_nil_r. split; [done|]. split; [done|].
    intros j p' Hj. by rewrite lookup_nil in Hj.
  - destruct (H 0 p eq_refl) as [line Hline].
    rewrite Nat.add_0_r in Hline.
    destruct (IH (S i) (out +:+ line)) as (lines & Hw & Hlen & Hl).
    { intros j p' Hj. destruct (H (S j) p' Hj) as [l' Hl'].
      exists l'. by replace (S i + j) with (i + S j) by lia. }
    exists (line :: lines). cbn [Codec.write_vertices].
    rewrite Hline, Hw. cbn [foldr]. rewrite append_assoc.
    split; [done|]. split; [by simpl; rewrite Hlen|].
    intros [|j] p' Hj.
    + injection Hj as <-. exists line. by rewrite Nat.add_0_r.
    + destruct (Hl j p' Hj) as (l' & Hl1 & Hl2).
      exists l'. split; [done|]. by replace (i + S j) with (S i + j) by lia.
Qed.

Lemma item_ok (colors : gmap string (list float)) (k : string)
    (l : list float) (i : nat) :
  colors !! k = Some l -> i < List.length l ->
  exists c, l !! i = Some c /\ Codec.item colors k i = Ok c.
Proof.
  intros Hk Hi. destruct (lookup_lt_is_Some_2 l i Hi) as [c Hc].
  exists c. split; [done|]. unfold Codec.item. by rewrite Hk, Hc.
Qed.

(** A color that is there and that [int] converts is scaled. *)
Lemma scaled_ok (colors : gmap string (list float)) (k : string)
    (l : list float) (i : nat) :
  colors !! k = Some l -> i < List.length l ->
  (forall c, c ∈ l -> is_ok (Env.int_times_255 w c) = true) ->
  exists c v, l !! i = Some c /\ Env.int_times_255 w c = Ok v /\
              Codec.scaled w colors k i = Ok v.
Proof.
  intros Hk Hi Hint. destruct (item_ok colors k l i Hk Hi) as (c & Hc & Hitem).
  specialize (Hint c (list_elem_of_lookup_2 _ _ _ Hc)).
  destruct (Env.int_times_255 w c) as [v|] eqn:Hv; [|done].
  exists c, v. unfold Codec.scaled. by rewrite Hitem.
Qed.

End CodecProps.

(** C8, as the code has it. For a point cloud of [n] points whose
    color channels, when the red one is there, are all three there (red,
    green and blue) with [n] entries each, every entry a number that
    [int] converts, the codec produces the header, which declares [n]
    vertices with the three float positions, and the three 8-bit colors
    exactly when the red channel is present, and after it exactly [n]
    lines, one for each vertex in order: the three coordinates and, when
    the red channel is present, the three colors scaled to integers. *)
Theorem pointcloud_ply_layout {float obj : Type} (w : Env.World float obj)
    (pc : PointE.PointCloud float) :
  let n := List.length (PointE.coords pc) in
  let colors := PointE.channels pc in
  let colored := Codec.has_color colors in
  let LF := Codec.LF in
  (colored = true ->
   forall k, k ∈ ["R"; "G"; "B"] ->
     exists l, colors !! k = Some l /\ List.length l = n /\
               forall c, c ∈ l -> is_ok (Env.int_times_255 w c) = true) ->
  exists lines : list string,
    Codec.pointcloud_ply w pc =
      Ok ("ply" +:+ LF +:+ "format ascii 1.0" +:+ LF +:+
          "element vertex " +:+ str_nat n +:+ LF +:+
          "property float x" +:+ LF +:+ "property float y" +:+ LF +:+
          "property float z" +:+ LF +:+
          (if colored
           then "property uchar red" +:+ LF +:+ "property uchar green" +:+ LF
                +:+ "property uchar blue" +:+ LF
           else "") +:+
          "end_header" +:+ LF +:+
          foldr String.append "" lines) /\
    List.length lines = n /\
    forall i x y z, PointE.coords pc !! i = Some (x, y, z) ->
      let xyz := Env.format_float w x +:+ " " +:+ Env.format_float w y
                 +:+ " " +:+ Env.format_float w z in
      if colored then
        exists r g b lr lg lb ri gi bi,
          colors !! "R" = Some lr /\ lr !! i = Some r /\
          Env.int_times_255 w r = Ok ri /\
          colors !! "G" = Some lg /\ lg !! i = Some g /\
          Env.int_times_255 w g = Ok gi /\
          colors !! "B" = Some lb /\ lb !! i = Some b /\
          Env.int_times_255 w b = Ok bi /\
          lines !! i =
            Some (xyz +:+ " " +:+ str_int ri +:+ " " +:+ str_int gi
                  +:+ " " +:+ str_int bi +:+ LF)
      else lines !! i = Some (xyz +:+ LF).
Proof.
  intros n colors colored LF Hch.
  assert (forall i p, PointE.coords pc !! i = Some p ->
            if colored then
              exists r g b lr lg lb ri gi bi,
                colors !! "R" = Some lr /\ lr !! i = Some r /\
                Env.int_times_255 w r = Ok ri /\
                colors !! "G" = Some lg /\ lg !! i = Some g /\
                Env.int_times_255 w g = Ok gi /\
                colors !! "B" = Some lb /\ lb !! i = Some b /\
                Env.int_times_255 w b = Ok bi /\
                Codec.vertex_line w colors i p =
                  Ok (Codec.position w p +:+ " " +:+ str_int ri
                      +:+ " " +:+ str_int gi +:+ " " +:+ str_int bi +:+ LF)
            else Codec.vertex_line w colors i p =
                   Ok (Codec.position w p +:+ LF)) as Hline.
  { intros i p Hi. apply lookup_lt_Some in Hi. fold n in Hi.
    unfold Codec.vertex_line. fold colored.
    destruct colored eqn:Ec; [|done].
    destruct (Hch eq_refl "R") as (lr & Hr & Hlr & Hir);
      [rewrite !elem_of_cons; tauto|].
    destruct (Hch eq_refl "G") as (lg & Hg & Hlg & Hig);
      [rewrite !elem_of_cons; tauto|].
    destruct (Hch eq_refl "B") as (lb & Hb & Hlb & Hib);
      [rewrite !elem_of_cons; tauto|].
    destruct (scaled_ok w colors "R" lr i Hr) as (r & ri & Hr1 & Hr2 & Hr3);
      [lia|done|].
    destruct (scaled_ok w colors "G" lg i Hg) as (g & gi & Hg1 & Hg2 & Hg3);
      [lia|done|].
    destruct (scaled_ok w colors "B" lb i Hb) as (b & bi & Hb1 & Hb2 & Hb3);
      [lia|done|].
    exists r, g, b, lr, lg, lb, ri, gi, bi. rewrite Hr3, Hg3, Hb3. done. }
  destruct (write_vertices_lines w colors (PointE.coords pc) 0
              (Codec.header n colored)) as (lines & Hw & Hlen & Hl).
  { intros j p Hj. specialize (Hline j p Hj). simpl.
    destruct colored; [|by eexists].
    destruct Hline as (r & g & b & lr & lg & lb & ri & gi & bi & H).
    by eexists; apply H. }
  exists lines. split; [|split; [done|]].
  - unfold Codec.pointcloud_ply, Codec.write_pointcloud.
    fold n colors colored. rewrite Hw. f_equal.
    unfold Codec.header. fold LF. rewrite !append_assoc. done.
  - intros i x y z Hi xyz.
    destruct (Hl i (x, y, z) Hi) as (line & Hl1 & Hl2). simpl in Hl2.
    specialize (Hline i (x, y, z) Hi). destruct colored.
    + destruct Hline as (r & g & b & lr & lg & lb & ri & gi & bi & H1 & H2
                         & H3 & H4 & H5 & H6 & H7 & H8 & H9 & H10).
      exists r, g, b, lr, lg, lb, ri, gi, bi. rewrite Hl1.
      repeat (split; [done|]).
      rewrite H10 in Hl2. injection Hl2 as <-.
      unfold Codec.position, xyz. by rewrite !append_assoc.
    + rewrite Hl1. rewrite Hline in Hl2. injection Hl2 as <-.
      unfold Codec.position, xyz. by rewrite !append_assoc.
Qed.

Lemma pointcloud_ply_layout_witness :
  exists lines : list string,
    Codec.pointcloud_ply Doubles.world Doubles.cloud =
      Ok ("ply" +:+ Codec.LF +:+ "format ascii 1.0" +:+ Codec.LF +:+
          "element vertex 2" +:+ Codec.LF +:+
          "property float x" +:+ Codec.LF +:+ "property float y" +:+ Codec.LF
          +:+ "property float z" +:+ Codec.LF +:+
          "property uchar red" +:+ Codec.LF +:+ "property uchar green"
          +:+ Codec.LF +:+ "property uchar blue" +:+ Codec.LF +:+
          "end_header" +:+ Codec.LF +:+ foldr String.append "" lines) /\
    List.length lines = 2 /\
    lines !! 1 = Some ("1 2 3 255 0 255" +:+ Codec.LF).
Proof.
  destruct (pointcloud_ply_layout Doubles.world Doubles.cloud)
    as (lines & H1 & H2 & H3).
  - intros _ k Hk.
    apply elem_of_cons in Hk as [->|Hk];
      [eexists; split; [reflexivity|]; split; [reflexivity|done]|].
    apply elem_of_cons in Hk as [->|Hk];
      [eexists; split; [reflexivity|]; split; [reflexivity|done]|].
    apply elem_of_cons in Hk as [->|Hk];
      [eexists; split; [reflexivity|]; split; [reflexivity|done]|].
    by apply elem_of_nil in Hk.
  - exists lines. split; [exact H1|]. split; [exact H2|].
    destruct (H3 1 1%Z 2%Z 3%Z eq_refl)
      as (r & g & b & lr & lg & lb & ri & gi & bi & Hr & Hr1 & Hr2 & Hg & Hg1
          & Hg2 & Hb & Hb1 & Hb2 & Hline).
    injection Hr as <-. injection Hg as <-. injection Hb as <-.
    injection Hr1 as <-. injection Hg1 as <-. injection Hb1 as <-.
    injection Hr2 as <-. injection Hg2 as <-. injection Hb2 as <-.
    exact Hline.
Defined.

(** C8 as stated fails. A cloud of one point whose only color channel
    is the red one, with one entry, meets the condition of the claim:
    every channel that is present has as many entries as the cloud has
    points. The codec reads the green channel after the red one and
    raises [KeyError 'G']; no file is produced. *)
Lemma pointcloud_ply_needs_all_three_colors :
  let pc := {| PointE.coords := [(0, 0, 0)]%Z;
               PointE.channels := <["R" := [1%Z]]> ∅ |} in
  (forall k l, PointE.channels pc !! k = Some l ->
     List.length l = List.length (PointE.coords pc)) /\
  Codec.has_color (PointE.channels pc) = true /\
  Codec.pointcloud_ply Doubles.world pc = Raise (KeyError "G").
Proof.
  intros pc. split; [|split; reflexivity].
  intros k l. unfold pc. cbn [PointE.channels PointE.coords].
  rewrite lookup_insert_Some, lookup_empty.
  by intros [[_ <-]|[_ ?]].
Qed.

(** ** The file system *)

Section FsProps.

Implicit Types (fs : gmap (list string) Fs.node) (cur key : list string).

(** Writing a file where no directory is leaves the directories as they
    were. *)
Lemma is_dir_insert_file fs key data cur :
  fs !! key <> Some Fs.Dir ->
  Fs.is_dir (<[key := Fs.File data]> fs) cur = Fs.is_dir fs cur.
Proof.
  intros Hk. unfold Fs.is_dir. destruct cur as [|c cur]; [done|].
  destruct (decide (key = c :: cur)) as [->|Hne].
  - rewrite lookup_insert_eq. by destruct (fs !! (c :: cur)) as [[]|].
  - by rewrite lookup_insert_ne.
Qed.

Lemma walk_insert_file fs key data path comps cur d :
  fs !! key <> Some Fs.Dir ->
  Fs.walk fs path cur comps = Ok d ->
  Fs.walk (<[key := Fs.File data]> fs) path cur comps = Ok d.
Proof.
  intros Hk. revert cur. induction comps as [|c comps IH]; intros cur; [done|].
  cbn [Fs.walk]. rewrite (is_dir_insert_file fs key data cur Hk).
  destruct (Fs.is_dir fs cur); [apply IH|].
  by destruct (fs !! cur).
Qed.

Lemma walk_app fs path cur l1 l2 d :
  Fs.walk fs path cur l1 = Ok d ->
  Fs.walk fs path cur (l1 ++ l2) = Fs.walk fs path d l2.
Proof.
  revert cur. induction l1 as [|c l1 IH]; intros cur; cbn [Fs.walk app].
  - by intros [= ->].
  - destruct (Fs.is_dir fs cur); [apply IH|]. by destruct (fs !! cur).
Qed.

Lemma split_acc_nonempty sep acc s : Py.split_acc sep acc s <> [].
Proof.
  revert acc. induction s as [|c s IH]; intros acc; cbn [split_acc]; [done|].
  destruct (Ascii.eqb c sep); [done|apply IH].
Qed.

Lemma removelast_last {A} (l : list A) (d : A) :
  l <> [] -> l = removelast l ++ [List.last l d].
Proof. intros H. by apply app_removelast_last. Qed.

Lemma enter_ordinary cur name :
  Fs.ordinary name = true -> Fs.enter cur name = cur ++ [name].
Proof.
  unfold Fs.ordinary, Fs.enter. intros H. apply negb_true_iff in H.
  apply orb_false_iff in H as [H H3]. apply orb_false_iff in H as [H1 H2].
  by rewrite H1, H2, H3.
Qed.

(** What was written is what is found: after [write_file] has returned,
    the path leads to a regular file with the content written. *)
Lemma write_file_stat fs cwd path data fs' :
  Fs.write_file fs cwd path data = Ok fs' ->
  Fs.stat fs' cwd path = Ok (Fs.File data).
Proof.
  unfold Fs.write_file, Fs.stat.
  destruct (has_char Fs.NUL path); [done|].
  destruct (truthy path); [|done]. cbn [negb].
  pose proof (split_acc_nonempty "/" "" path) as Hne. fold (split "/" path) in Hne.
  set (comps := split "/" path) in *.
  destruct (Fs.walk fs path (Fs.origin cwd path) (removelast comps))
    as [d|] eqn:Hw; [|done].
  destruct (Fs.is_dir fs d) eqn:Hd; cbn [negb]; [|by destruct (fs !! d)].
  set (name := List.last comps "").
  destruct (Fs.ordinary name) eqn:Hord; cbn [negb]; [|done].
  destruct (fs !! (d ++ [name])) as [n|] eqn:Hk.
  - destruct n as [old|]; [|done]. intros [= <-].
    assert (fs !! (d ++ [name]) <> Some Fs.Dir) as Hnd by by rewrite Hk.
    rewrite (removelast_last comps "" Hne). fold name.
    rewrite (walk_app _ _ _ _ [name] d); [|by apply walk_insert_file].
    cbn [Fs.walk]. rewrite is_dir_insert_file, Hd by done.
    rewrite (enter_ordinary d name Hord), lookup_insert_eq.
    by destruct d.
  - intros [= <-].
    assert (fs !! (d ++ [name]) <> Some Fs.Dir) as Hnd by by rewrite Hk.
    rewrite (removelast_last comps "" Hne). fold name.
    rewrite (walk_app _ _ _ _ [name] d); [|by apply walk_insert_file].
    cbn [Fs.walk]. rewrite is_dir_insert_file, Hd by done.
    rewrite (enter_ordinary d name Hord), lookup_insert_eq.
    by destruct d.
Qed.

End FsProps.

(** ** The local tier *)

Section LocalTier.

Context {float obj : Type}.
Implicit Types (s : Server.state (float := float) (obj := obj)).

Lemma split_acc_no_sep (sep : ascii) (acc f : string) :
  has_char sep f = false -> split_acc sep acc f = [acc +:+ f].
Proof.
  revert acc. induction f as [|c f IH]; intros acc; cbn [has_char split_acc].
  - intros _. by rewrite append_nil_r.
  - intros H. apply orb_false_iff in H as [Hc Hf].
    rewrite Ascii.eqb_sym, Hc, (IH _ Hf), append_assoc. done.
Qed.

Lemma split_acc_app (sep : ascii) (acc a b : string) :
  has_char sep a = false ->
  split_acc sep acc (a +:+ String sep b) = (acc +:+ a) :: split_acc sep "" b.
Proof.
  revert acc. induction a as [|c a IH]; intros acc.
  - intros _. change ("" +:+ String sep b) with (String sep b).
    cbn [split_acc]. by rewrite Ascii.eqb_refl, append_nil_r.
  - cbn [has_char]. intros H. apply orb_false_iff in H as [Hc Ha].
    change (String c a +:+ String sep b) with (String c (a +:+ String sep b)).
    cbn [split_acc]. rewrite Ascii.eqb_sym, Hc, (IH _ Ha), append_assoc. done.
Qed.

Lemma split_scratch (f : string) :
  has_char "/" f = false ->
  split "/" (Server.scratch +:+ "/" +:+ f) = [""; "tmp"; "point-e-models"; f].
Proof.
  intros Hf. unfold split.
  change (Server.scratch +:+ "/" +:+ f)
    with ("" +:+ String "/" ("tmp" +:+ String "/"
            ("point-e-models" +:+ String "/" f))).
  rewrite !split_acc_app by reflexivity.
  by rewrite (split_acc_no_sep "/" "" f Hf).
Qed.

Lemma has_char_app (c : ascii) (a b : string) :
  has_char c (a +:+ b) = has_char c a || has_char c b.
Proof.
  induction a as [|x a IH]; [done|].
  change (String x a +:+ b) with (String x (a +:+ b)).
  cbn [has_char]. by rewrite IH, orb_assoc.
Qed.

(** After [os.makedirs] of the scratch directory has returned, the
    directory is there, and the entries below its level are as they
    were. *)
Lemma makedirs_scratch (fs fs1 : gmap (list string) Fs.node) (cwd : list string) :
  Fs.makedirs fs cwd Server.scratch = Ok fs1 ->
  Fs.is_dir fs1 ["tmp"] = true /\
  Fs.is_dir fs1 ["tmp"; "point-e-models"] = true /\
  forall f, fs1 !! ["tmp"; "point-e-models"; f] = fs !! ["tmp"; "point-e-models"; f].
Proof.
  unfold Fs.makedirs.
  change (has_char Fs.NUL Server.scratch) with false.
  change (truthy Server.scratch) with true.
  change (split "/" Server.scratch) with [""; "tmp"; "point-e-models"].
  change (Fs.origin cwd Server.scratch) with (@nil string).
  cbn [negb Fs.makedirs_from].
  change (Fs.enter [] "") with (@nil string).
  change (Fs.enter [] "tmp") with ["tmp"].
  change (Fs.enter ["tmp"] "point-e-models") with ["tmp"; "point-e-models"].
  unfold Fs.is_dir.
  destruct (fs !! ["tmp"]) as [[|]|] eqn:E1; [done| |].
  - destruct (fs !! ["tmp"; "point-e-models"]) as [[|]|] eqn:E2; [done| |].
    + intros [= <-]. by rewrite E1, E2.
    + intros [= <-]. rewrite lookup_insert_eq, lookup_insert_ne, E1 by done.
      repeat split. intros f. by rewrite lookup_insert_ne.
  - rewrite lookup_insert_ne by done.
    destruct (fs !! ["tmp"; "point-e-models"]) as [[|]|] eqn:E2; [done| |].
    + intros [= <-]. rewrite lookup_insert_eq, lookup_insert_ne, E2 by done.
      repeat split. intros f. by rewrite lookup_insert_ne.
    + intros [= <-].
      rewrite lookup_insert_eq, lookup_insert_ne, lookup_insert_eq by done.
      repeat split. intros f. by rewrite !lookup_insert_ne.
Qed.

(** In a file system that has the scratch directory, a file with an
    ordinary name, without a slash, can be written in it unless a
    directory has that name. *)
Lemma write_file_scratch (fs : gmap (list string) Fs.node) (cwd : list string)
    (f : string) (data : list byte) :
  has_char "/" f = false -> has_char Fs.NUL f = false ->
  Fs.ordinary f = true ->
  Fs.is_dir fs ["tmp"] = true ->
  Fs.is_dir fs ["tmp"; "point-e-models"] = true ->
  fs !! ["tmp"; "point-e-models"; f] <> Some Fs.Dir ->
  Fs.write_file fs cwd (Server.scratch +:+ "/" +:+ f) data =
    Ok (<[["tmp"; "point-e-models"; f] := Fs.File data]> fs).
Proof.
  intros Hslash Hnul Hord Ht Hs Hf. unfold Fs.write_file.
  rewrite !has_char_app, Hnul, (split_scratch f Hslash).
  change (has_char Fs.NUL Server.scratch) with false.
  change (has_char Fs.NUL "/") with false.
  change (truthy (Server.scratch +:+ "/" +:+ f)) with true.
  change (Fs.origin cwd (Server.scratch +:+ "/" +:+ f)) with (@nil string).
  cbn [orb negb removelast Fs.walk List.last].
  change (Fs.enter [] "") with (@nil string).
  change (Fs.enter [] "tmp") with ["tmp"].
  change (Fs.enter ["tmp"] "point-e-models") with ["tmp"; "point-e-models"].
  change (Fs.is_dir fs []) with true. cbn iota.
  rewrite Ht, Hs, Hord. cbn [negb app].
  destruct (fs !! ["tmp"; "point-e-models"; f]) as [[|]|]; done.
Qed.

(** Whatever the filename, when the write to the local tier has
    returned, it returned the access path of the filename, and the
    download of the filename sends the bytes written. *)
Lemma save_to_local_then_download (content : list byte) (filename : string)
    s (r : string) s' :
  Server.save_to_local content filename s = (Ok r, s') ->
  r = "/download/" +:+ filename /\
  Fs.stat (Server.fs s') (Server.cwd s')
    ("/tmp/point-e-models/" +:+ filename) = Ok (Fs.File content) /\
  Server.download filename s' = (Ok content, s').
Proof.
  unfold Server.save_to_local, Server.makedirs, Server.write_file, bind, ret.
  destruct (Fs.makedirs (Server.fs s) (Server.cwd s) Server.scratch)
    as [fs1|]; [|done].
  cbn [Server.fs Server.cwd Server.set_fs].
  destruct (Fs.write_file fs1 (Server.cwd s)
              (Server.scratch +:+ "/" +:+ filename) content)
    as [fs2|] eqn:Hw; [|done].
  intros [= <- <-]. apply write_file_stat in Hw.
  split; [done|]. split; [exact Hw|].
  unfold Server.download, bind, get, Fs.exists_, Fs.file_response, lift.
  cbn [Server.fs Server.cwd Server.set_fs]. by rewrite Hw.
Qed.

End LocalTier.

(** C10, as the code has it. For a filename that is one ordinary
    component of a path (not empty, not [.] or [..], without a slash or
    a NUL) and any content, in a file system where the scratch directory
    can be made and has no directory of that name, the write to the
    local tier returns the access path [/download/<filename>], and the
    download of that filename then succeeds and sends exactly the bytes
    that were written. *)
Theorem local_tier_round_trip {float obj : Type} (content : list byte)
    (filename : string) (s : Server.state (float := float) (obj := obj))
    (fs1 : gmap (list string) Fs.node) :
  has_char "/" filename = false ->
  has_char Fs.NUL filename = false ->
  Fs.ordinary filename = true ->
  Fs.makedirs (Server.fs s) (Server.cwd s) Server.scratch = Ok fs1 ->
  Server.fs s !! ["tmp"; "point-e-models"; filename] <> Some Fs.Dir ->
  exists s',
    Server.save_to_local content filename s =
      (Ok ("/download/" +:+ filename), s') /\
    Server.download filename s' = (Ok content, s').
Proof.
  intros Hslash Hnul Hord Hmk Hnd.
  destruct (makedirs_scratch _ _ _ Hmk) as (Ht & Hs & Hsame).
  assert (Server.save_to_local content filename s =
            (Ok ("/download/" +:+ filename),
             Server.set_fs (<[["tmp"; "point-e-models"; filename] :=
                              Fs.File content]> fs1) s)) as Hsave.
  { unfold Server.save_to_local, Server.makedirs, Server.write_file, bind, ret.
    rewrite Hmk. cbn [Server.fs Server.cwd Server.set_fs].
    rewrite write_file_scratch; try done. by rewrite Hsame. }
  eexists. split; [exact Hsave|].
  by apply (save_to_local_then_download content filename s _ _ Hsave).
Qed.

Lemma local_tier_round_trip_witness :
  exists s',
    Server.save_to_local [x70; x6c; x79] "cube.ply" Doubles.loading =
      (Ok "/download/cube.ply", s') /\
    Server.download "cube.ply" s' = (Ok [x70; x6c; x79], s').
Proof.
  apply (local_tier_round_trip [x70; x6c; x79] "cube.ply" Doubles.loading
           (<[["tmp"; "point-e-models"] := Fs.Dir]> (<[["tmp"] := Fs.Dir]> ∅)));
    try reflexivity.
  vm_compute. discriminate.
Defined.

(** C10 as stated fails. In an empty file system the filename [a/b]
    cannot be written to the local tier: no directory [a] is in the
    scratch directory. *)
Lemma save_to_local_fails_for_nested_filename :
  fst (Server.save_to_local [x70; x6c; x79] "a/b" Doubles.loading) =
    Raise (FileNotFoundError "/tmp/point-e-models/a/b").
Proof. vm_compute. reflexivity. Qed.

(** ** The storage paths *)

(** C7, as the code has it. The path in the remote tier is
    [users/<identity>/<year>/<month>/<day>/<filename>], with the date of
    the clock when the path is made. The local tier takes no identity
    and no date: a filename that is one ordinary component of a path
    (not empty, not [.] or [..], without a slash or a NUL) is written
    directly in the one scratch directory, as the entry [<filename>] of
    [/tmp/point-e-models], and its access path is [/download/<filename>];
    for any filename, a write that returns has left the content where
    the text [/tmp/point-e-models/<filename>] leads. *)
Theorem storage_paths {float obj : Type} (w : Env.World float obj)
    (uid filename : string) (content : list byte) (s : Server.state)
    (fs1 : gmap (list string) Fs.node) :
  let today := Env.now w (Server.clock_reads s) in
  fst (Server.get_storage_path w uid filename s) =
    Ok ("users/" +:+ uid +:+ "/" +:+ zfill 4 (DateTime.year today) +:+ "/"
        +:+ zfill 2 (DateTime.month today) +:+ "/"
        +:+ zfill 2 (DateTime.day today) +:+ "/" +:+ filename) /\
  (has_char "/" filename = false ->
   has_char Fs.NUL filename = false ->
   Fs.ordinary filename = true ->
   Fs.makedirs (Server.fs s) (Server.cwd s) Server.scratch = Ok fs1 ->
   Server.fs s !! ["tmp"; "point-e-models"; filename] <> Some Fs.Dir ->
   exists s',
     Server.save_to_local content filename s =
       (Ok ("/download/" +:+ filename), s') /\
     Server.fs s' =
       <[["tmp"; "point-e-models"; filename] := Fs.File content]> fs1 /\
     Server.fs s' !! ["tmp"; "point-e-models"; filename] =
       Some (Fs.File content) /\
     Server.fs s' !! ["tmp"; "point-e-models"] = Some Fs.Dir) /\
  forall r s',
    Server.save_to_local content filename s = (Ok r, s') ->
    r = "/download/" +:+ filename /\
    Fs.stat (Server.fs s') (Server.cwd s')
      ("/tmp/point-e-models/" +:+ filename) = Ok (Fs.File content).
Proof.
  intros today. split; [|split].
  - unfold Server.get_storage_path, Server.datetime_now, bind, ret.
    cbn [fst]. fold today. f_equal.
    cbn [DateTime.strftime DateTime.directive Ascii.eqb Bool.eqb].
    repeat (rewrite append_assoc || rewrite append_String
            || rewrite append_nil_r).
    reflexivity.
  - intros Hslash Hnul Hord Hmk Hnd.
    destruct (makedirs_scratch _ _ _ Hmk) as (Ht & Hs & Hsame).
    exists (Server.set_fs (<[["tmp"; "point-e-models"; filename] :=
                             Fs.File content]> fs1) s).
    split; [|split; [done|split]].
    + unfold Server.save_to_local, Server.makedirs, Server.write_file, bind, ret.
      rewrite Hmk. cbn [Server.fs Server.cwd Server.set_fs].
      rewrite write_file_scratch; try done. by rewrite Hsame.
    + cbn [Server.fs Server.set_fs]. by rewrite lookup_insert_eq.
    + cbn [Server.fs Server.set_fs]. rewrite lookup_insert_ne by done.
      unfold Fs.is_dir in Hs.
      by destruct (fs1 !! ["tmp"; "point-e-models"]) as [[]|].
  - intros r s' H.
    destruct (save_to_local_then_download content filename s r s' H)
      as (? & ? & _). done.
Qed.

Lemma storage_paths_witness :
  exists s',
    Server.save_to_local [x70; x6c; x79] "cube.ply" Doubles.loading =
      (Ok "/download/cube.ply", s') /\
    Server.fs s' !! ["tmp"; "point-e-models"; "cube.ply"] =
      Some (Fs.File [x70; x6c; x79]) /\
    Server.fs s' !! ["tmp"; "point-e-models"] = Some Fs.Dir.
Proof.
  destruct (storage_paths Doubles.world "u1" "cube.ply" [x70; x6c; x79]
              Doubles.loading
              (<[["tmp"; "point-e-models"] := Fs.Dir]> (<[["tmp"] := Fs.Dir]> ∅)))
    as (_ & H & _).
  destruct H as (s' & Hsave & _ & Hfile & Hdir); try reflexivity.
  { vm_compute. discriminate. }
  exists s'. split; [exact Hsave|]. split; [exact Hfile|exact Hdir].
Defined.

(** C7 as stated fails: the path in the remote tier starts with
    [users], not with [owner]. *)
Lemma get_storage_path_starts_with_users :
  fst (Server.get_storage_path Doubles.world "u1" "cube.ply" Doubles.loading) =
    Ok "users/u1/2024/01/02/cube.ply" /\
  fst (Server.get_storage_path Doubles.world "u1" "cube.ply" Doubles.loading) <>
    Ok "owner/u1/2024/01/02/cube.ply".
Proof. split; [by vm_compute|]. vm_compute. discriminate. Qed.

(** ** The readiness gate of the production server *)

Section Gate.

Context {float obj : Type}.
Variable cfg : Server.Config.
Variable w : Env.World float obj.
Implicit Types (s : Server.state (float := float) (obj := obj)).

Lemma generate_from_text_not_ready (prompt : string) s :
  Server.models_ready s = false \/ Server.text_sampler s = None ->
  Server.generate_from_text prompt s =
    (Raise (HTTPException 503 "Models not ready"), s).
Proof.
  unfold Server.generate_from_text, bind, get.
  intros [H|H]; rewrite H; [done|]. by destruct (Server.models_ready s).
Qed.

Lemma generate_from_text_ready (prompt : string) s ts :
  Server.models_ready s = true -> Server.text_sampler s = Some ts ->
  Server.generate_from_text prompt s =
    Server.run_sampler ts (PointE.Texts [prompt]) s.
Proof.
  unfold Server.generate_from_text, bind, get. by intros -> ->.
Qed.

(** Deriving the identity reads the clock and nothing else. *)
Lemma generate_user_id_runs (h : option (gmap string (option string))) s :
  exists id,
    Server.generate_user_id w h s =
      (Ok id, Server.set_clock_reads (S (Server.clock_reads s)) s).
Proof. by eexists. Qed.

(** Settling the identity of a request reads the clock at most. *)
Lemma identity_runs (u ua xff : option string) s :
  exists id s',
    Server.identity w u ua xff s = (Ok id, s') /\
    Server.calls s' = Server.calls s /\
    Server.models_ready s' = Server.models_ready s /\
    Server.text_sampler s' = Server.text_sampler s /\
    Server.sdf_model s' = Server.sdf_model s.
Proof.
  unfold Server.identity.
  destruct (Server.first_truthy u); [by eexists _, _|].
  match goal with |- context [Server.generate_user_id w ?h s] =>
    destruct (generate_user_id_runs h s) as [id ->] end.
  by eexists _, _.
Qed.

(** A text request made while the models are not ready: the handler
    answers 500, whose detail is the text of the 503 raised at the gate;
    the sampler is not called. *)
Lemma text_to_3d_not_ready (req : Server.Request)
    (request : Server.TextRequest) (ua xff auth : option string) s
    (ip : string) :
  Server.verify_secret_key cfg auth = Ok true ->
  Server.get_forwarded_ip req = Ok ip ->
  Server.models_ready s = false \/ Server.text_sampler s = None ->
  exists s',
    Server.text_to_3d cfg w req request ua xff auth s =
      (Raise (HTTPException 500
                (Env.str_exn w (HTTPException 503 "Models not ready"))), s') /\
    Server.calls s' = Server.calls s.
Proof.
  intros Hauth Hip Hnr.
  unfold Server.text_to_3d, bind, lift, try_catch, raise.
  rewrite Hauth, Hip. cbn [negb].
  unfold Server.text_to_3d_body.
  unfold bind at 1.
  destruct (identity_runs (Server.user_id request) ua xff s)
    as (id & s1 & -> & Hc & Hr & Ht & _).
  unfold bind at 1.
  rewrite generate_from_text_not_ready by (rewrite Hr, Ht; exact Hnr).
  by eexists.
Qed.

End Gate.

(** C1: the code departs from it. A text request with a valid
    credential, made while the models are still loading, is answered
    with the status 500, not 503: the 503 [Models not ready] raised at
    the gate is caught by the handler and only its text survives, as the
    detail of the 500. The sampler is not called, as the claim says; the
    readiness probe, in the same state, does answer 503. *)
Theorem text_to_3d_while_loading_answers_500 {float obj : Type}
    (w : Env.World float obj) (request : Server.TextRequest)
    (ua xff : option string) :
  let s := Server.initial ∅ [] in
  let r := Server.text_to_3d Doubles.config w Doubles.request request ua xff
             (Some "Bearer s3cret") s in
  Server.models_ready s = false /\
  fst r = Raise (HTTPException 500
                   (Env.str_exn w (HTTPException 503 "Models not ready"))) /\
  Server.calls (snd r) = [] /\
  fst (Server.ready s) = Raise (HTTPException 503 "Models not ready").
Proof.
  intros s r. split; [done|].
  destruct (text_to_3d_not_ready Doubles.config w Doubles.request request
              ua xff (Some "Bearer s3cret") s "127.0.0.1")
    as (s' & Hr & Hc); [reflexivity|reflexivity|by left|].
  subst r. rewrite Hr. cbn [fst snd]. by rewrite Hc.
Qed.

(** ** The calls a text request makes *)

Section Calls.

Context {float obj : Type}.
Variable cfg : Server.Config.
Variable w : Env.World float obj.
Variable P : PointE.call obj -> Prop.
Implicit Types (s : Server.state (float := float) (obj := obj)).

Local Abbreviation only := (Trace.only (float := float) P).
Local Abbreviation extends := (Trace.extends (float := float) P).

Lemma extends_same s s' :
  Server.calls s' = Server.calls s -> extends s s'.
Proof. intros H. exists []. by rewrite app_nil_r. Qed.

Lemma extends_trans s1 s2 s3 :
  extends s1 s2 -> extends s2 s3 -> extends s1 s3.
Proof.
  intros (r1 & H1 & F1) (r2 & H2 & F2). exists (r1 ++ r2).
  split; [by rewrite H2, H1, app_assoc|]. by apply Forall_app.
Qed.

Lemma only_ret {A} (a : A) : only (ret a).
Proof. intros s. by apply extends_same. Qed.

Lemma only_raise {A} (e : exn) : only (raise (A := A) e).
Proof. intros s. by apply extends_same. Qed.

Lemma only_lift {A} (r : result A) : only (lift r).
Proof. intros s. by apply extends_same. Qed.

Lemma only_get : only get.
Proof. intros s. by apply extends_same. Qed.

Lemma only_bind {A B} (m : M Server.state A) (k : A -> M Server.state B) :
  only m -> (forall a, only (k a)) -> only (bind m k).
Proof.
  intros Hm Hk s. unfold bind. specialize (Hm s).
  destruct (m s) as [[a|e] s1]; [|done].
  exact (extends_trans _ _ _ Hm (Hk a s1)).
Qed.

Lemma only_try_catch {A} (m : M Server.state A) (h : exn -> M Server.state A) :
  only m -> (forall e, only (h e)) ->
  only (try_catch m h).
Proof.
  intros Hm Hh s. unfold try_catch. specialize (Hm s).
  destruct (m s) as [[a|e] s1]; [done|].
  exact (extends_trans _ _ _ Hm (Hh e s1)).
Qed.

Lemma only_datetime_now : only (Server.datetime_now w).
Proof. intros s. by apply extends_same. Qed.

Lemma only_uuid4_str : only (Server.uuid4_str w).
Proof. intros s. by apply extends_same. Qed.

Lemma only_makedirs (path : string) : only (Server.makedirs path).
Proof.
  intros s. apply extends_same. unfold Server.makedirs.
  by destruct (Fs.makedirs _ _ _).
Qed.

Lemma only_write_file (path : string) (data : list byte) :
  only (Server.write_file path data).
Proof.
  intros s. apply extends_same. unfold Server.write_file.
  by destruct (Fs.write_file _ _ _ _).
Qed.

Lemma only_record_call (c : PointE.call obj) :
  P c -> only (Server.record_call c).
Proof.
  intros Hc s. exists [c]. split; [done|]. by apply Forall_singleton.
Qed.

Lemma only_generate_user_id (h : option (gmap string (option string))) :
  only (Server.generate_user_id w h).
Proof.
  apply only_bind; [apply only_datetime_now|]. intros ?. apply only_ret.
Qed.

Lemma only_save_to_local (content : list byte) (filename : string) :
  only (Server.save_to_local content filename).
Proof.
  apply only_bind; [apply only_makedirs|]. intros _.
  apply only_bind; [apply only_write_file|]. intros _. apply only_ret.
Qed.

Lemma only_save_to_gcs (content : list byte) (path ctype : string) :
  only (Server.save_to_gcs cfg content path ctype).
Proof.
  apply only_bind; [apply only_get|]. intros s0.
  destruct (Server.gcs_client s0); [|apply only_ret].
  apply only_try_catch; [|intros ?; apply only_ret].
  apply only_bind; [apply only_lift|]. intros _.
  apply only_bind; [apply only_lift|]. intros ?. apply only_ret.
Qed.

Lemma only_store (uid filename : string) (content : list byte) :
  only (Server.store cfg w uid filename content).
Proof.
  apply only_bind; [apply only_get|]. intros s0.
  apply only_bind.
  - destruct (Server.gcs_client s0); [|apply only_ret].
    apply only_bind; [|intros ?; apply only_save_to_gcs].
    apply only_bind; [apply only_datetime_now|]. intros ?. apply only_ret.
  - intros d. destruct (Server.first_truthy d); [apply only_ret|].
    apply only_bind; [apply only_save_to_local|]. intros ?. apply only_ret.
Qed.

Lemma only_expiry : only (Server.expiry w).
Proof.
  apply only_bind; [apply only_datetime_now|]. intros ?.
  apply only_bind; [apply only_lift|]. intros ?. apply only_ret.
Qed.

Lemma only_sample_loop (sampler : PointE.Sampler float obj)
    (kwargs : PointE.model_kwargs obj) :
  only (Server.sample_loop sampler kwargs).
Proof.
  apply only_bind; [apply only_lift|]. intros ?.
  apply only_bind; [apply only_lift|]. intros [|? ?];
    [apply only_raise|apply only_ret].
Qed.

Lemma only_pointcloud_to_mesh (pc : PointE.PointCloud float) (grid : Z) :
  P (PointE.MeshCall grid) ->
  only (Server.pointcloud_to_mesh w pc grid).
Proof.
  intros Hg. apply only_bind; [apply only_get|]. intros s0.
  destruct (Server.models_ready s0), (Server.sdf_model s0);
    try apply only_raise.
  apply only_bind; [by apply only_record_call|]. intros _. apply only_lift.
Qed.

(** What follows the sampling in the body of [text_to_3d]. *)
Lemma only_text_to_3d_finish (request : Server.TextRequest) (uid : string)
    (pc : PointE.PointCloud float) :
  P (PointE.MeshCall (Server.grid_size request)) ->
  only (Server.text_to_3d_finish cfg w request uid pc).
Proof.
  intros Hg.
  apply only_bind; [apply only_uuid4_str|]. intros u.
  apply only_bind; [apply only_datetime_now|]. intros t. cbv zeta.
  destruct (String.eqb (Server.format request) "mesh").
  - apply only_bind; [by apply only_pointcloud_to_mesh|]. intros mesh.
    apply only_bind; [apply only_lift|]. intros ?.
    apply only_bind; [apply only_store|]. intros ?.
    apply only_bind; [apply only_expiry|]. intros ?. apply only_ret.
  - apply only_bind; [apply only_lift|]. intros ?.
    apply only_bind; [apply only_store|]. intros ?.
    apply only_bind; [apply only_expiry|]. intros ?. apply only_ret.
Qed.

End Calls.

(** ** The grid size of a text request *)

Section GridSize.

Context {float obj : Type}.
Variable cfg : Server.Config.
Variable w : Env.World float obj.
Implicit Types (s : Server.state (float := float) (obj := obj)).

(** The calls of a text request on a ready server: the sampler first,
    with the prompt, then nothing but the mesh reconstruction with the
    grid size of the request. *)
Lemma text_to_3d_body_calls (request : Server.TextRequest)
    (ua xff : option string) s (ts : PointE.Sampler float obj) :
  Server.models_ready s = true ->
  Server.text_sampler s = Some ts ->
  exists rest,
    Server.calls (snd (Server.text_to_3d_body cfg w request ua xff s)) =
      Server.calls s
      ++ PointE.SampleCall (PointE.Texts [Server.prompt request]) :: rest /\
    Forall (fun c => c = PointE.MeshCall (Server.grid_size request)) rest.
Proof.
  intros Hr Ht. unfold Server.text_to_3d_body. unfold bind at 1.
  destruct (identity_runs w (Server.user_id request) ua xff s)
    as (uid & s1 & -> & Hc & Hr1 & Ht1 & _).
  rewrite Hr in Hr1. rewrite Ht in Ht1.
  set (P := fun c : PointE.call obj =>
              c = PointE.MeshCall (Server.grid_size request)).
  set (s2 := Server.set_calls
               (Server.calls s1
                ++ [PointE.SampleCall (PointE.Texts [Server.prompt request])]) s1).
  assert (Trace.only P
            (pc <- Server.sample_loop ts (PointE.Texts [Server.prompt request]) ;;
             Server.text_to_3d_finish cfg w request uid pc)) as Honly.
  { apply only_bind; [apply only_sample_loop|]. intros pc.
    by apply only_text_to_3d_finish. }
  destruct (Honly s2) as (rest & Hrest & HP).
  exists rest. split; [|exact HP].
  unfold bind at 1. rewrite (generate_from_text_ready _ s1 ts Hr1 Ht1).
  unfold Server.run_sampler, Server.record_call, modify.
  unfold bind in Hrest. unfold bind. fold s2.
  rewrite Hrest. subst s2. cbn [Server.calls Server.set_calls].
  by rewrite Hc, <- app_assoc.
Qed.

End GridSize.

(** C5, as the code has it. The grid size of a text request is not
    examined before the sampler is called: for every grid size, zero and
    the negative ones included, an authenticated request on a ready
    server calls the sampler with the prompt; the only other calls into
    the inference library are mesh reconstructions with the grid size as
    the request gave it; and when the request fails, its status is 500,
    never that of an invalid request. *)
Theorem text_to_3d_does_not_validate_grid_size {float obj : Type}
    (cfg : Server.Config) (w : Env.World float obj) (req : Server.Request)
    (request : Server.TextRequest) (ua xff auth : option string)
    (s : Server.state) (ts : PointE.Sampler float obj) (ip : string) :
  Server.verify_secret_key cfg auth = Ok true ->
  Server.get_forwarded_ip req = Ok ip ->
  Server.models_ready s = true ->
  Server.text_sampler s = Some ts ->
  let r := Server.text_to_3d cfg w req request ua xff auth s in
  (exists rest,
     Server.calls (snd r) =
       Server.calls s
       ++ PointE.SampleCall (PointE.Texts [Server.prompt request]) :: rest /\
     Forall (fun c => c = PointE.MeshCall (Server.grid_size request)) rest) /\
  (forall status detail,
     fst r = Raise (HTTPException status detail) -> status = 500%Z).
Proof.
  intros Hauth Hip Hr Ht r.
  destruct (text_to_3d_body_calls cfg w request ua xff s ts Hr Ht)
    as (rest & Hc & HP).
  subst r. unfold Server.text_to_3d, bind, lift, try_catch, raise.
  rewrite Hauth, Hip. cbn [negb].
  destruct (Server.text_to_3d_body cfg w request ua xff s) as [[resp|e] s'];
    cbn [fst snd] in *.
  - split; [by exists rest|]. intros ? ? [=].
  - split; [by exists rest|]. by intros ? ? [= <- _].
Qed.

Lemma text_to_3d_does_not_validate_grid_size_witness :
  let r := Server.text_to_3d Doubles.config Doubles.world Doubles.request
             (Doubles.text_request "a blue cube" "mesh" (-4))
             None None (Some "Bearer s3cret") (Doubles.loaded Doubles.world) in
  (exists rest,
     Server.calls (snd r) =
       Server.calls (Doubles.loaded Doubles.world)
       ++ PointE.SampleCall (PointE.Texts ["a blue cube"]) :: rest /\
     Forall (fun c => c = PointE.MeshCall (-4)%Z) rest) /\
  (forall status detail,
     fst r = Raise (HTTPException status detail) -> status = 500%Z).
Proof.
  apply (text_to_3d_does_not_validate_grid_size Doubles.config Doubles.world
           Doubles.request (Doubles.text_request "a blue cube" "mesh" (-4))
           None None (Some "Bearer s3cret") (Doubles.loaded Doubles.world)
           Doubles.sampler "127.0.0.1"); reflexivity.
Defined.

(** C5 as stated fails. On a ready server a request for a mesh with the
    grid size 0 is not rejected: the sampler is called, then the mesh
    reconstruction with the grid size 0, and the request succeeds when
    the inference library returns a mesh. *)
Lemma text_to_3d_accepts_grid_size_zero :
  let r := Server.text_to_3d Doubles.config Doubles.world Doubles.request
             (Doubles.text_request "a blue cube" "mesh" 0)
             None None (Some "Bearer s3cret") (Doubles.loaded Doubles.world) in
  is_ok (fst r) = true /\
  Server.calls (snd r) =
    [PointE.SampleCall (PointE.Texts ["a blue cube"]); PointE.MeshCall 0].
Proof. by vm_compute. Qed.

(** Every outcome of the calls into the library in turn. *)
Ltac run_all :=
  repeat match goal with
  | |- context [match ?x with Ok _ => _ | Raise _ => _ end] =>
      destruct x; cbn
  end.

(** ** The readiness gate of the local server *)

Section LocalGate.

Context {float obj : Type}.
Variable w : Env.World float obj.
Implicit Types (s : LocalServer.state (float := float) (obj := obj)).


Lemma get_device_state s : snd (LocalServer.get_device w s) = s.
Proof.
  unfold LocalServer.get_device, bind, lift, ret.
  destruct (PointE.cuda_is_available (Env.lib w)).
  - by destruct (PointE.cuda_get_device_name (Env.lib w) 0).
  - by destruct (PointE.mps_is_available (Env.lib w)).
Qed.




Lemma local_generate_from_text_not_ready (prompt : string) s :
  LocalServer.models_ready s = false ->
  fst (LocalServer.generate_from_text w prompt s) =
    Raise (HTTPException 503 "Models not ready").
Proof.
  intros H. unfold LocalServer.generate_from_text, bind, get. by rewrite H.
Qed.

Lemma local_run_sampler_calls (ts : PointE.Sampler float obj)
    (kwargs : PointE.model_kwargs obj) s :
  LocalServer.calls (snd (LocalServer.run_sampler w ts kwargs s)) =
    LocalServer.calls s ++ [PointE.SampleCall kwargs].
Proof.
  unfold LocalServer.run_sampler, LocalServer.datetime_now,
    LocalServer.record_call, bind, lift, modify, ret, raise.
  cbn. run_all; try done.
  match goal with |- context [match ?l with [] => _ | _ :: _ => _ end] =>
    by destruct l end.
Qed.

End LocalGate.








(** ** More on the catalog and the codec *)

Section CatalogKinds.

Context {float obj : Type}.
Variable cfg : Server.Config.
Variable w : Env.World float obj.

Lemma elem_of_insert_desc {A} (key : A -> string) (x y : A) (l : list A) :
  y ∈ Server.insert_desc key x l <-> y = x \/ y ∈ l.
Proof.
  induction l as [|z l IH]; cbn [Server.insert_desc].
  - rewrite elem_of_cons, elem_of_nil. tauto.
  - destruct (String.ltb (key x) (key z)); rewrite !elem_of_cons, ?IH;
      tauto.
Qed.

Lemma elem_of_sorted_desc {A} (key : A -> string) (y : A) (l : list A) :
  y ∈ Server.sorted_desc key l <-> y ∈ l.
Proof.
  unfold Server.sorted_desc. induction l as [|x l IH]; cbn [foldr]; [done|].
  rewrite elem_of_insert_desc, IH, elem_of_cons. tauto.
Qed.

Lemma collect_kinds (c : Gcs.Client) (blobs : list Gcs.Blob)
    (entries : list Server.ModelEntry) :
  Server.collect cfg c blobs = Ok entries ->
  Forall (fun e => Server.type_ e = Server.kind_of (Server.entry_path e) /\
                   Server.entry_filename e = basename (Server.entry_path e))
    entries.
Proof.
  revert entries. induction blobs as [|b blobs IH]; intros entries;
    cbn [Server.collect].
  - by intros [= <-].
  - destruct (endswith ".ply" (Gcs.name b)); [|apply IH].
    unfold Server.catalog_entry.
    destruct (Gcs.generate_signed_url c _ _ _) as [url|]; [|done].
    destruct (Server.collect cfg c blobs) as [rest|]; [|done].
    intros [= <-]. constructor; [done|]. by apply IH.
Qed.

Lemma contains_tail (sub : string) (c : ascii) (s : string) :
  contains sub s = true -> contains sub (String c s) = true.
Proof.
  intros H. cbn [contains]. rewrite H. by rewrite orb_true_r.
Qed.

Lemma contains_basename (sub p : string) :
  contains sub (basename p) = true -> contains sub p = true.
Proof.
  induction p as [|c p IH]; [done|]. cbn [basename].
  destruct (has_char "/" p).
  - intros H. by apply contains_tail, IH.
  - destruct (Ascii.eqb c "/"); [|done]. apply contains_tail.
Qed.

Lemma startswith_contains (sub s : string) :
  startswith sub s = true -> contains sub s = true.
Proof. intros H. destruct s; cbn [contains]; by rewrite H. Qed.

(** The kind of every entry the catalog returns is read from the whole
    name of the blob; a filename that begins with [mesh_] is always
    listed as a mesh, the converse being what fails. *)
Lemma get_user_models_kinds (uid : string) (s : Server.state)
    (resp : Server.UserModelsResponse) :
  fst (Server.get_user_models cfg w uid s) = Ok resp ->
  Forall (fun e =>
            Server.type_ e =
              (if contains "mesh_" (Server.entry_path e) then "mesh"
               else "pointcloud") /\
            (startswith "mesh_" (Server.entry_filename e) = true ->
             Server.type_ e = "mesh"))
    (Server.models resp).
Proof.
  unfold Server.get_user_models, bind, get, try_catch, lift, ret, raise.
  destruct (Server.gcs_client s) as [c|]; [|done].
  destruct (Gcs.list_blobs c _ _) as [blobs|]; [|done].
  destruct (Server.collect cfg c blobs) as [entries|] eqn:Ec; [|done].
  intros [= <-]. cbn [Server.models].
  apply collect_kinds in Ec. rewrite Forall_forall in Ec.
  apply Forall_forall. intros e He. apply elem_of_sorted_desc in He.
  destruct (Ec e He) as [Hk Hf]. split; [exact Hk|].
  intros Hs. rewrite Hk. unfold Server.kind_of.
  rewrite Hf in Hs. apply startswith_contains, contains_basename in Hs.
  by rewrite Hs.
Qed.

(** When the file can be written, [save_pointcloud_ply] leaves in it
    the text the codec wrote. *)
Lemma save_pointcloud_ply_writes (pc : PointE.PointCloud float)
    (filepath text : string) (s : Server.state)
    (fs' : gmap (list string) Fs.node) :
  Codec.pointcloud_ply w pc = Ok text ->
  Fs.write_file (Server.fs s) (Server.cwd s) filepath (encode_utf8 text) =
    Ok fs' ->
  Server.save_pointcloud_ply w pc filepath s = (Ok tt, Server.set_fs fs' s) /\
  Fs.stat fs' (Server.cwd s) filepath = Ok (Fs.File (encode_utf8 text)).
Proof.
  unfold Codec.pointcloud_ply, Server.save_pointcloud_ply.
  destruct (Codec.write_pointcloud w pc) as [out [[]|e]]; [|done].
  intros [= ->] Hw. split; [|by apply write_file_stat in Hw].
  unfold bind, Server.write_file, lift. by rewrite Hw.
Qed.

End CatalogKinds.

(** An image request made while the models are not ready is answered
    with the status 500 as well. *)
Lemma image_to_3d_not_ready {float obj : Type} (cfg : Server.Config)
    (w : Env.World float obj) (req : Server.Request)
    (file : Server.UploadFile) (fmt : string) (grid : Z)
    (uid ua xff auth : option string) (s : Server.state) (ip : string) :
  Server.verify_secret_key cfg auth = Ok true ->
  Server.get_forwarded_ip req = Ok ip ->
  Server.models_ready s = false \/ Server.image_sampler s = None ->
  Server.image_to_3d cfg w req file fmt grid uid ua xff auth s =
    (Raise (HTTPException 500
              (Env.str_exn w (HTTPException 503 "Image model not ready"))), s).
Proof.
  intros Hauth Hip Hnr.
  unfold Server.image_to_3d, bind, lift, try_catch, raise.
  rewrite Hauth, Hip. cbn [negb].
  unfold Server.image_to_3d_body, bind, get, raise.
  destruct Hnr as [H|H]; rewrite H; [done|].
  by destruct (Server.models_ready s).
Qed.

(** * Further properties of the code *)

(** ** The scratch directory of the local tier *)

Section Scratch.

Context {float obj : Type}.
Implicit Types (s : Server.state (float := float) (obj := obj)).
Implicit Types (fs : gmap (list string) Fs.node).

(** The entry of the scratch directory a filename names. *)
Local Abbreviation entry f := ["tmp"; "point-e-models"; f].

Lemma is_dir_insert_below fs (f : string) (n : Fs.node) (key : list string) :
  List.length key < 3 ->
  Fs.is_dir (<[entry f := n]> fs) key = Fs.is_dir fs key.
Proof.
  intros Hlen. unfold Fs.is_dir. destruct key as [|c key]; [done|].
  rewrite lookup_insert_ne; [done|]. intros E. rewrite <- E in Hlen.
  simpl in Hlen. lia.
Qed.

(** Where the scratch directory is, [os.makedirs] changes nothing. *)
Lemma makedirs_scratch_present fs (cwd : list string) :
  Fs.is_dir fs ["tmp"] = true ->
  Fs.is_dir fs ["tmp"; "point-e-models"] = true ->
  Fs.makedirs fs cwd Server.scratch = Ok fs.
Proof.
  unfold Fs.makedirs, Fs.is_dir.
  change (has_char Fs.NUL Server.scratch) with false.
  change (truthy Server.scratch) with true.
  change (split "/" Server.scratch) with [""; "tmp"; "point-e-models"].
  change (Fs.origin cwd Server.scratch) with (@nil string).
  cbn [negb Fs.makedirs_from].
  change (Fs.enter [] "") with (@nil string).
  change (Fs.enter [] "tmp") with ["tmp"].
  change (Fs.enter ["tmp"] "point-e-models") with ["tmp"; "point-e-models"].
  destruct (fs !! ["tmp"]) as [[|]|]; try done.
  by destruct (fs !! ["tmp"; "point-e-models"]) as [[|]|].
Qed.

(** What a path made of the scratch directory and a plain filename
    leads to. *)
Lemma stat_scratch fs (cwd : list string) (f : string) :
  has_char "/" f = false -> has_char Fs.NUL f = false ->
  Fs.ordinary f = true ->
  Fs.is_dir fs ["tmp"] = true ->
  Fs.is_dir fs ["tmp"; "point-e-models"] = true ->
  Fs.stat fs cwd (Server.scratch +:+ "/" +:+ f) =
    match fs !! entry f with
    | Some n => Ok n
    | None => Raise (FileNotFoundError (Server.scratch +:+ "/" +:+ f))
    end.
Proof.
  intros Hslash Hnul Hord Ht Hs. unfold Fs.stat.
  rewrite !has_char_app, Hnul, (split_scratch f Hslash).
  change (has_char Fs.NUL Server.scratch) with false.
  change (has_char Fs.NUL "/") with false.
  change (truthy (Server.scratch +:+ "/" +:+ f)) with true.
  change (Fs.origin cwd (Server.scratch +:+ "/" +:+ f)) with (@nil string).
  cbn [orb negb Fs.walk].
  change (Fs.enter [] "") with (@nil string).
  change (Fs.enter [] "tmp") with ["tmp"].
  change (Fs.enter ["tmp"] "point-e-models") with ["tmp"; "point-e-models"].
  change (Fs.is_dir fs []) with true. cbn iota.
  rewrite Ht, Hs, (enter_ordinary _ f Hord). reflexivity.
Qed.

(** What a successful write of a plain filename to the local tier did:
    the scratch directory was made if it was not there, and the one
    entry of the filename was set. *)
Lemma save_to_local_plain (content : list byte) (f : string) s (r : string) s' :
  has_char "/" f = false -> has_char Fs.NUL f = false ->
  Fs.ordinary f = true ->
  Server.save_to_local content f s = (Ok r, s') ->
  exists fs1,
    Fs.makedirs (Server.fs s) (Server.cwd s) Server.scratch = Ok fs1 /\
    Fs.is_dir fs1 ["tmp"] = true /\
    Fs.is_dir fs1 ["tmp"; "point-e-models"] = true /\
    (forall g, fs1 !! entry g = Server.fs s !! entry g) /\
    s' = Server.set_fs (<[entry f := Fs.File content]> fs1) s.
Proof.
  intros Hslash Hnul Hord.
  unfold Server.save_to_local, Server.makedirs, Server.write_file, bind, ret.
  destruct (Fs.makedirs (Server.fs s) (Server.cwd s) Server.scratch)
    as [fs1|] eqn:Hmk; [|done].
  destruct (makedirs_scratch _ _ _ Hmk) as (Ht & Hs & Hsame).
  cbn [Server.fs Server.cwd Server.set_fs].
  destruct (fs1 !! entry f) as [[old|]|] eqn:Hk.
  - rewrite write_file_scratch by (try done; by rewrite Hk).
    intros [= <- <-]. exists fs1. by repeat split.
  - unfold Fs.write_file.
    rewrite !has_char_app, Hnul, (split_scratch f Hslash).
    change (has_char Fs.NUL Server.scratch) with false.
    change (has_char Fs.NUL "/") with false.
    change (truthy (Server.scratch +:+ "/" +:+ f)) with true.
    change (Fs.origin (Server.cwd s) (Server.scratch +:+ "/" +:+ f))
      with (@nil string).
    cbn [orb negb removelast Fs.walk List.last].
    change (Fs.enter [] "") with (@nil string).
    change (Fs.enter [] "tmp") with ["tmp"].
    change (Fs.enter ["tmp"] "point-e-models") with ["tmp"; "point-e-models"].
    change (Fs.is_dir fs1 []) with true. cbn iota.
    rewrite Ht, Hs, Hord. cbn [negb app]. by rewrite Hk.
  - rewrite write_file_scratch by (try done; by rewrite Hk).
    intros [= <- <-]. exists fs1. by repeat split.
Qed.

End Scratch.

(** Writes of different plain filenames to the local tier do not
    disturb each other: after the two, the download of each filename
    sends the bytes written under it. *)
Theorem local_saves_do_not_interfere {float obj : Type}
    (c1 c2 : list byte) (f1 f2 r1 r2 : string)
    (s s1 s2 : Server.state (float := float) (obj := obj)) :
  has_char "/" f1 = false -> has_char Fs.NUL f1 = false ->
  Fs.ordinary f1 = true ->
  has_char "/" f2 = false -> has_char Fs.NUL f2 = false ->
  Fs.ordinary f2 = true ->
  f1 <> f2 ->
  Server.save_to_local c1 f1 s = (Ok r1, s1) ->
  Server.save_to_local c2 f2 s1 = (Ok r2, s2) ->
  Server.download f1 s2 = (Ok c1, s2) /\
  Server.download f2 s2 = (Ok c2, s2).
Proof.
  intros Hs1 Hn1 Ho1 Hs2 Hn2 Ho2 Hne Hsave1 Hsave2.
  split; [|by apply (save_to_local_then_download c2 f2 s1 r2 s2 Hsave2)].
  destruct (save_to_local_plain c1 f1 s r1 s1 Hs1 Hn1 Ho1 Hsave1)
    as (fsa & _ & Hta & Hpa & _ & ->).
  destruct (save_to_local_plain c2 f2 _ r2 s2 Hs2 Hn2 Ho2 Hsave2)
    as (fsb & Hmk & Htb & Hpb & Hsame & ->).
  unfold Server.download, bind, get, Fs.exists_, Fs.file_response, lift.
  cbn [Server.fs Server.cwd Server.set_fs].
  rewrite stat_scratch; try done.
  - rewrite lookup_insert_ne by congruence. rewrite Hsame.
    cbn [Server.fs Server.set_fs]. by rewrite lookup_insert_eq.
  - by rewrite is_dir_insert_below by (simpl; lia).
  - by rewrite is_dir_insert_below by (simpl; lia).
Qed.

Lemma local_saves_do_not_interfere_witness :
  exists s1 s2,
    Server.save_to_local [x61] "a.ply" Doubles.loading = (Ok "/download/a.ply", s1) /\
    Server.save_to_local [x62] "b.ply" s1 = (Ok "/download/b.ply", s2) /\
    Server.download "a.ply" s2 = (Ok [x61], s2) /\
    Server.download "b.ply" s2 = (Ok [x62], s2).
Proof.
  set (s1 := snd (Server.save_to_local [x61] "a.ply" Doubles.loading)).
  set (s2 := snd (Server.save_to_local [x62] "b.ply" s1)).
  assert (Server.save_to_local [x61] "a.ply" Doubles.loading =
            (Ok "/download/a.ply", s1)) as H1 by (vm_compute; reflexivity).
  assert (Server.save_to_local [x62] "b.ply" s1 = (Ok "/download/b.ply", s2))
    as H2 by (vm_compute; reflexivity).
  exists s1, s2. split; [exact H1|]. split; [exact H2|].
  apply (local_saves_do_not_interfere [x61] [x62] "a.ply" "b.ply"
           "/download/a.ply" "/download/b.ply" Doubles.loading s1 s2);
    try reflexivity; try exact H1; try exact H2. discriminate.
Defined.

(** ** What the handlers leave alone *)

Section FrameProps.

Context {float obj : Type}.
Variable cfg : Server.Config.
Variable w : Env.World float obj.
Implicit Types (s : Server.state (float := float) (obj := obj)).

Local Abbreviation keeps := (Frame.keeps (float := float) (obj := obj)).
Local Abbreviation same := (Frame.same_models (float := float) (obj := obj)).

Lemma same_refl s : same s s.
Proof. by repeat split. Qed.

Lemma same_trans s1 s2 s3 : same s1 s2 -> same s2 s3 -> same s1 s3.
Proof.
  unfold Frame.same_models.
  intros (A1 & A2 & A3 & A4 & A5 & A6 & A7) (B1 & B2 & B3 & B4 & B5 & B6 & B7).
  repeat split; congruence.
Qed.

Lemma keeps_ret {A} (a : A) : keeps (ret a).
Proof. intros s. apply same_refl. Qed.

Lemma keeps_raise {A} (e : exn) : keeps (raise (A := A) e).
Proof. intros s. apply same_refl. Qed.

Lemma keeps_lift {A} (r : result A) : keeps (lift r).
Proof. intros s. apply same_refl. Qed.

Lemma keeps_get : keeps get.
Proof. intros s. apply same_refl. Qed.

Lemma keeps_bind {A B} (m : M Server.state A) (k : A -> M Server.state B) :
  keeps m -> (forall a, keeps (k a)) -> keeps (bind m k).
Proof.
  intros Hm Hk s. unfold bind. specialize (Hm s).
  destruct (m s) as [[a|e] s1]; [|done].
  exact (same_trans _ _ _ Hm (Hk a s1)).
Qed.

Lemma keeps_try_catch {A} (m : M Server.state A)
    (h : exn -> M Server.state A) :
  keeps m -> (forall e, keeps (h e)) -> keeps (try_catch m h).
Proof.
  intros Hm Hh s. unfold try_catch. specialize (Hm s).
  destruct (m s) as [[a|e] s1]; [done|].
  exact (same_trans _ _ _ Hm (Hh e s1)).
Qed.

Lemma keeps_datetime_now : keeps (Server.datetime_now w).
Proof. intros s. by repeat split. Qed.

Lemma keeps_uuid4_str : keeps (Server.uuid4_str w).
Proof. intros s. by repeat split. Qed.

Lemma keeps_record_call (c : PointE.call obj) : keeps (Server.record_call c).
Proof. intros s. by repeat split. Qed.

Lemma keeps_makedirs (path : string) : keeps (Server.makedirs path).
Proof.
  intros s. unfold Server.makedirs.
  destruct (Fs.makedirs _ _ _); by repeat split.
Qed.

Lemma keeps_write_file (path : string) (data : list byte) :
  keeps (Server.write_file path data).
Proof.
  intros s. unfold Server.write_file.
  destruct (Fs.write_file _ _ _ _); by repeat split.
Qed.

Ltac keeps_step :=
  first
    [ apply keeps_ret | apply keeps_raise | apply keeps_lift | apply keeps_get
    | apply keeps_datetime_now | apply keeps_uuid4_str
    | apply keeps_record_call | apply keeps_makedirs | apply keeps_write_file
    | apply keeps_bind; [|intros ?]
    | apply keeps_try_catch; [|intros ?] ].

Lemma keeps_generate_user_id (h : option (gmap string (option string))) :
  keeps (Server.generate_user_id w h).
Proof. unfold Server.generate_user_id. repeat keeps_step. Qed.

Lemma keeps_identity (u ua xff : option string) :
  keeps (Server.identity w u ua xff).
Proof.
  unfold Server.identity. destruct (Server.first_truthy u);
    [apply keeps_ret|apply keeps_generate_user_id].
Qed.

Lemma keeps_save_to_local (content : list byte) (filename : string) :
  keeps (Server.save_to_local content filename).
Proof. unfold Server.save_to_local. repeat keeps_step. Qed.

Lemma keeps_save_to_gcs (content : list byte) (path ctype : string) :
  keeps (Server.save_to_gcs cfg content path ctype).
Proof.
  unfold Server.save_to_gcs. keeps_step; [keeps_step|].
  destruct (Server.gcs_client a); repeat keeps_step.
Qed.

Lemma keeps_get_storage_path (uid filename : string) :
  keeps (Server.get_storage_path w uid filename).
Proof. unfold Server.get_storage_path. repeat keeps_step. Qed.

Lemma keeps_store (uid filename : string) (content : list byte) :
  keeps (Server.store cfg w uid filename content).
Proof.
  unfold Server.store. keeps_step; [keeps_step|].
  keeps_step.
  - destruct (Server.gcs_client a); [|keeps_step].
    keeps_step; [apply keeps_get_storage_path|apply keeps_save_to_gcs].
  - destruct (Server.first_truthy a0); [keeps_step|].
    keeps_step; [apply keeps_save_to_local|keeps_step].
Qed.

Lemma keeps_expiry : keeps (Server.expiry w).
Proof. unfold Server.expiry. repeat keeps_step. Qed.

Lemma keeps_sample_loop (sampler : PointE.Sampler float obj)
    (kwargs : PointE.model_kwargs obj) :
  keeps (Server.sample_loop sampler kwargs).
Proof.
  unfold Server.sample_loop. keeps_step; [keeps_step|].
  keeps_step; [keeps_step|]. destruct a0; keeps_step.
Qed.

Lemma keeps_run_sampler (sampler : PointE.Sampler float obj)
    (kwargs : PointE.model_kwargs obj) :
  keeps (Server.run_sampler sampler kwargs).
Proof.
  unfold Server.run_sampler. keeps_step; [keeps_step|apply keeps_sample_loop].
Qed.

Lemma keeps_generate_from_text (prompt : string) :
  keeps (Server.generate_from_text prompt).
Proof.
  unfold Server.generate_from_text. keeps_step; [keeps_step|].
  destruct (Server.models_ready a), (Server.text_sampler a);
    first [apply keeps_run_sampler | keeps_step].
Qed.

Lemma keeps_generate_from_image (image : obj) :
  keeps (Server.generate_from_image image).
Proof.
  unfold Server.generate_from_image. keeps_step; [keeps_step|].
  destruct (Server.models_ready a), (Server.image_sampler a);
    first [apply keeps_run_sampler | keeps_step].
Qed.

Lemma keeps_pointcloud_to_mesh (pc : PointE.PointCloud float) (grid : Z) :
  keeps (Server.pointcloud_to_mesh w pc grid).
Proof.
  unfold Server.pointcloud_to_mesh. keeps_step; [keeps_step|].
  destruct (Server.models_ready a), (Server.sdf_model a); repeat keeps_step.
Qed.

Lemma keeps_text_to_3d_finish (request : Server.TextRequest) (uid : string)
    (pc : PointE.PointCloud float) :
  keeps (Server.text_to_3d_finish cfg w request uid pc).
Proof.
  unfold Server.text_to_3d_finish.
  keeps_step; [keeps_step|]. keeps_step; [keeps_step|]. cbv zeta.
  destruct (String.eqb (Server.format request) "mesh").
  - keeps_step; [apply keeps_pointcloud_to_mesh|].
    keeps_step; [keeps_step|].
    keeps_step; [apply keeps_store|].
    keeps_step; [apply keeps_expiry|keeps_step].
  - keeps_step; [keeps_step|].
    keeps_step; [apply keeps_store|].
    keeps_step; [apply keeps_expiry|keeps_step].
Qed.

Lemma keeps_text_to_3d (req : Server.Request) (request : Server.TextRequest)
    (ua xff auth : option string) :
  keeps (Server.text_to_3d cfg w req request ua xff auth).
Proof.
  unfold Server.text_to_3d. keeps_step; [keeps_step|].
  destruct (negb a); [keeps_step|].
  keeps_step; [keeps_step|]. keeps_step; [|keeps_step].
  unfold Server.text_to_3d_body.
  keeps_step; [apply keeps_identity|].
  keeps_step; [apply keeps_generate_from_text|apply keeps_text_to_3d_finish].
Qed.

Lemma keeps_image_to_3d (req : Server.Request) (file : Server.UploadFile)
    (fmt : string) (grid : Z) (uid ua xff auth : option string) :
  keeps (Server.image_to_3d cfg w req file fmt grid uid ua xff auth).
Proof.
  unfold Server.image_to_3d. keeps_step; [keeps_step|].
  destruct (negb a); [keeps_step|].
  keeps_step; [keeps_step|]. keeps_step; [|keeps_step].
  unfold Server.image_to_3d_body. keeps_step; [keeps_step|].
  destruct (Server.models_ready a1), (Server.image_sampler a1);
    [|apply keeps_raise..].
  keeps_step; [apply keeps_identity|].
  keeps_step; [keeps_step|].
  keeps_step; [apply keeps_generate_from_image|].
  keeps_step; [keeps_step|]. keeps_step; [keeps_step|]. cbv zeta.
  destruct (String.eqb fmt "mesh"); [|keeps_step].
  keeps_step; [apply keeps_pointcloud_to_mesh|].
  keeps_step; [keeps_step|].
  keeps_step; [apply keeps_store|].
  keeps_step; [apply keeps_expiry|keeps_step].
Qed.

Lemma keeps_get_user_models (uid : string) :
  keeps (Server.get_user_models cfg w uid).
Proof.
  unfold Server.get_user_models. keeps_step; [keeps_step|].
  destruct (Server.gcs_client a); repeat keeps_step.
Qed.

Lemma keeps_download (filename : string) : keeps (Server.download filename).
Proof.
  unfold Server.download. cbv zeta. keeps_step; [keeps_step|].
  destruct (negb _); keeps_step.
Qed.

End FrameProps.

(** Serving a request never changes the loaded models, the readiness
    flag or the client of the blob store: a server that is ready stays
    ready, and a blob store that could not be reached at start-up is
    not tried again. *)
Theorem requests_leave_the_models_alone {float obj : Type}
    (cfg : Server.Config) (w : Env.World float obj) (req : Server.Request)
    (request : Server.TextRequest) (file : Server.UploadFile)
    (fmt : string) (grid : Z) (uid ua xff auth : option string)
    (user filename : string) :
  Frame.keeps (Server.text_to_3d cfg w req request ua xff auth) /\
  Frame.keeps (Server.image_to_3d cfg w req file fmt grid uid ua xff auth) /\
  Frame.keeps (Server.get_user_models cfg w user) /\
  Frame.keeps (Server.download (float := float) (obj := obj) filename).
Proof.
  split; [apply keeps_text_to_3d|]. split; [apply keeps_image_to_3d|].
  split; [apply keeps_get_user_models|apply keeps_download].
Qed.

(** ** Start-up of the production server *)

Section Startup.

Context {float obj : Type}.
Variable cfg : Server.Config.
Variable w : Env.World float obj.
Implicit Types (s : Server.state (float := float) (obj := obj)).

(** Setting up the blob store never raises, whatever the blob store
    does, and touches nothing but the client. *)
Lemma setup_gcs_runs s :
  exists s',
    Server.setup_gcs cfg w s = (Ok tt, s') /\
    Server.text_model s' = Server.text_model s /\
    Server.text_sampler s' = Server.text_sampler s /\
    Server.image_model s' = Server.image_model s /\
    Server.image_sampler s' = Server.image_sampler s /\
    Server.sdf_model s' = Server.sdf_model s /\
    Server.models_ready s' = Server.models_ready s /\
    Server.fs s' = Server.fs s /\
    Server.calls s' = Server.calls s.
Proof.
  assert (forall st : Server.state (float := float) (obj := obj),
            Server.text_model st = Server.text_model s ->
            Server.text_sampler st = Server.text_sampler s ->
            Server.image_model st = Server.image_model s ->
            Server.image_sampler st = Server.image_sampler s ->
            Server.sdf_model st = Server.sdf_model s ->
            Server.models_ready st = Server.models_ready s ->
            Server.fs st = Server.fs s ->
            Server.calls st = Server.calls s ->
            exists s',
              (Ok tt, st) = (Ok tt, s') /\
              Server.text_model s' = Server.text_model s /\
              Server.text_sampler s' = Server.text_sampler s /\
              Server.image_model s' = Server.image_model s /\
              Server.image_sampler s' = Server.image_sampler s /\
              Server.sdf_model s' = Server.sdf_model s /\
              Server.models_ready s' = Server.models_ready s /\
              Server.fs s' = Server.fs s /\
              Server.calls s' = Server.calls s) as Hend.
  { intros st ? ? ? ? ? ? ? ?. exists st. by repeat split. }
  unfold Server.setup_gcs.
  destruct (Server.ENABLE_GCS cfg); cbn [negb]; [|by apply Hend].
  unfold try_catch, bind, lift, modify, ret.
  destruct (Env.storage_Client w (Server.PROJECT_ID cfg)) as [c|e];
    [|by apply Hend].
  destruct (Gcs.bucket_exists c (Server.BUCKET_NAME cfg)) as [[]|];
    [| |by apply Hend].
  - destruct (Gcs.patch_cors c (Server.BUCKET_NAME cfg)) as [[]|];
      by apply Hend.
  - destruct (Gcs.create_bucket c (Server.BUCKET_NAME cfg) "us-central1")
      as [[]|]; [|by apply Hend].
    destruct (Gcs.patch_cors c (Server.BUCKET_NAME cfg)) as [[]|];
      by apply Hend.
Qed.

Lemma load_all_ok (d : PointE.device) s s' :
  Server.load_all cfg w d s = (Ok tt, s') ->
  Server.models_ready s' = true /\
  is_Some (Server.text_model s') /\ is_Some (Server.text_sampler s') /\
  is_Some (Server.image_model s') /\ is_Some (Server.image_sampler s') /\
  is_Some (Server.sdf_model s').
Proof.
  unfold Server.load_all, Server.load_weights, bind, lift, modify.
  cbn. run_all; try done.
  match goal with |- Server.setup_gcs cfg w ?st = _ -> _ =>
    destruct (setup_gcs_runs st) as (s'' & -> & E1 & E2 & E3 & E4 & E5 & E6 & _)
  end.
  intros [= <-]. rewrite E1, E2, E3, E4, E5, E6. cbn. by repeat split.
Qed.

End Startup.

(** The models are ready after [load_models_fast] exactly when it
    returned: then all five models and samplers are set; otherwise it
    raised and the models are not ready, whatever they were before. A
    blob store that cannot be set up is not among the causes. *)
Theorem load_models_fast_ready_iff_returned {float obj : Type}
    (cfg : Server.Config) (w : Env.World float obj) (s : Server.state) :
  let r := Server.load_models_fast cfg w s in
  (fst r = Ok tt /\
   Server.models_ready (snd r) = true /\
   is_Some (Server.text_model (snd r)) /\
   is_Some (Server.text_sampler (snd r)) /\
   is_Some (Server.image_model (snd r)) /\
   is_Some (Server.image_sampler (snd r)) /\
   is_Some (Server.sdf_model (snd r)))
  \/
  ((exists e, fst r = Raise e) /\ Server.models_ready (snd r) = false).
Proof.
  intros r. subst r. unfold Server.load_models_fast, try_catch.
  destruct (Server.load_all cfg w (Server.pick_device w) s)
    as [[[]|e] s'] eqn:E.
  - left. split; [done|]. exact (load_all_ok cfg w _ s s' E).
  - right. split; [by eexists|done].
Qed.

(** Setting up the blob store never raises and never touches the
    readiness of the models. The client is kept exactly when it could be
    made: a failure to make it leaves no client, while a failure of the
    bucket (its lookup, its creation or its CORS settings) is only
    reported and leaves the client in place. With the blob store
    disabled, the client is left as it was. *)
Theorem setup_gcs_outcome {float obj : Type} (cfg : Server.Config)
    (w : Env.World float obj) (s : Server.state) :
  let r := Server.setup_gcs cfg w s in
  fst r = Ok tt /\
  Server.models_ready (snd r) = Server.models_ready s /\
  Server.gcs_client (snd r) =
    if Server.ENABLE_GCS cfg then
      match Env.storage_Client w (Server.PROJECT_ID cfg) with
      | Ok c => Some c
      | Raise _ => None
      end
    else Server.gcs_client s.
Proof.
  intros r. subst r.
  destruct (setup_gcs_runs cfg w s) as (s' & E & _ & _ & _ & _ & _ & Hr & _).
  rewrite E. cbn [fst snd]. split; [done|]. split; [done|].
  revert E. unfold Server.setup_gcs.
  destruct (Server.ENABLE_GCS cfg); cbn [negb]; [|by intros [= <-]].
  unfold try_catch, bind, lift, modify, ret.
  destruct (Env.storage_Client w (Server.PROJECT_ID cfg)) as [c|e];
    [|by intros [= <-]].
  destruct (Gcs.bucket_exists c (Server.BUCKET_NAME cfg)) as [[]|];
    [| |by intros [= <-]].
  - by destruct (Gcs.patch_cors c (Server.BUCKET_NAME cfg)) as [[]|];
      intros [= <-].
  - destruct (Gcs.create_bucket c (Server.BUCKET_NAME cfg) "us-central1")
      as [[]|]; [|by intros [= <-]].
    by destruct (Gcs.patch_cors c (Server.BUCKET_NAME cfg)) as [[]|];
      intros [= <-].
Qed.

(** ** The catalog *)

Section CatalogOrder.

Context {float obj : Type}.
Variable cfg : Server.Config.
Variable w : Env.World float obj.

Lemma ltb_asym (a b : string) :
  String.ltb a b = true -> String.ltb b a = false.
Proof.
  unfold String.ltb. rewrite (String.compare_antisym a b).
  by destruct (String.compare b a).
Qed.

Lemma insert_desc_head {A} (key : A -> string) (R : A -> A -> Prop)
    (x y : A) (l : list A) :
  R y x -> HdRel R y l -> HdRel R y (Server.insert_desc key x l).
Proof.
  intros Hx Hl. destruct l as [|z l]; cbn [Server.insert_desc].
  - by constructor.
  - destruct (String.ltb (key x) (key z)); constructor; [|done].
    by inversion Hl.
Qed.

Lemma insert_desc_sorted {A} (key : A -> string) (x : A) (l : list A) :
  Sorted (fun a b => String.ltb (key a) (key b) = false) l ->
  Sorted (fun a b => String.ltb (key a) (key b) = false)
    (Server.insert_desc key x l).
Proof.
  induction l as [|y l IH]; cbn [Server.insert_desc]; intros Hs.
  - by repeat constructor.
  - destruct (String.ltb (key x) (key y)) eqn:E.
    + inversion Hs as [|? ? Hs' Hhd]; subst. constructor; [by apply IH|].
      apply insert_desc_head; [by apply ltb_asym|done].
    + constructor; [done|]. by constructor.
Qed.

Lemma sorted_desc_sorted {A} (key : A -> string) (l : list A) :
  Sorted (fun a b => String.ltb (key a) (key b) = false)
    (Server.sorted_desc key l).
Proof.
  unfold Server.sorted_desc. induction l as [|x l IH]; cbn [foldr].
  - constructor.
  - by apply insert_desc_sorted.
Qed.

Lemma insert_desc_perm {A} (key : A -> string) (x : A) (l : list A) :
  Server.insert_desc key x l ≡ₚ x :: l.
Proof.
  induction l as [|y l IH]; cbn [Server.insert_desc]; [done|].
  destruct (String.ltb (key x) (key y)); [|done].
  rewrite IH. apply Permutation_swap.
Qed.

Lemma sorted_desc_perm {A} (key : A -> string) (l : list A) :
  Server.sorted_desc key l ≡ₚ l.
Proof.
  unfold Server.sorted_desc. induction l as [|x l IH]; cbn [foldr]; [done|].
  by rewrite insert_desc_perm, IH.
Qed.

Lemma collect_paths (c : Gcs.Client) (blobs : list Gcs.Blob)
    (entries : list Server.ModelEntry) :
  Server.collect cfg c blobs = Ok entries ->
  map Server.entry_path entries =
    map Gcs.name (List.filter (fun b => endswith ".ply" (Gcs.name b)) blobs).
Proof.
  revert entries. induction blobs as [|b blobs IH]; intros entries;
    cbn [Server.collect List.filter].
  - by intros [= <-].
  - destruct (endswith ".ply" (Gcs.name b)); [|apply IH].
    unfold Server.catalog_entry.
    destruct (Gcs.generate_signed_url c _ _ _) as [url|]; [|done].
    destruct (Server.collect cfg c blobs) as [rest|]; [|done].
    intros [= <-]. cbn [map Server.entry_path]. by rewrite (IH rest).
Qed.

End CatalogOrder.

(** A listing that succeeds holds exactly the blobs under the prefix of
    the identity whose names end in [.ply], each once, ordered by
    creation time with the newest first (an entry without one counts as
    the oldest); the count it reports is the number of its entries. *)
Theorem get_user_models_listing {float obj : Type} (cfg : Server.Config)
    (w : Env.World float obj) (uid : string) (s : Server.state)
    (c : Gcs.Client) (resp : Server.UserModelsResponse) :
  Server.gcs_client s = Some c ->
  fst (Server.get_user_models cfg w uid s) = Ok resp ->
  Server.models_user_id resp = uid /\
  Server.total_count resp = List.length (Server.models resp) /\
  Sorted (fun a b =>
            String.ltb (Server.created_key a) (Server.created_key b) = false)
    (Server.models resp) /\
  exists blobs,
    Gcs.list_blobs c (Server.BUCKET_NAME cfg) ("users/" +:+ uid +:+ "/") =
      Ok blobs /\
    map Server.entry_path (Server.models resp) ≡ₚ
      map Gcs.name (List.filter (fun b => endswith ".ply" (Gcs.name b)) blobs).
Proof.
  intros Hc. unfold Server.get_user_models, bind, get, try_catch, lift, ret, raise.
  rewrite Hc.
  destruct (Gcs.list_blobs c _ _) as [blobs|]; [|done].
  destruct (Server.collect cfg c blobs) as [entries|] eqn:Ec; [|done].
  intros [= <-]. cbn [Server.models Server.total_count Server.models_user_id].
  split; [done|]. split.
  { by rewrite (Permutation_length (sorted_desc_perm Server.created_key entries)). }
  split; [apply sorted_desc_sorted|].
  exists blobs. split; [done|].
  rewrite <- (collect_paths cfg c blobs entries Ec).
  apply Permutation_map, sorted_desc_perm.
Qed.

Lemma get_user_models_listing_witness :
  let s := Doubles.loaded Doubles.world_with_many in
  exists resp,
    fst (Server.get_user_models Doubles.config Doubles.world_with_many "u1" s)
      = Ok resp /\
    map Server.entry_path (Server.models resp) =
      [ "users/u1/2024/01/02/pointcloud_mesh_x_20240102_030405_abcd1234.ply";
        "users/u1/2024/01/01/mesh_a_20240101_000000_aaaa1111.ply";
        "users/u1/untimed.ply" ] /\
    map Server.created (Server.models resp) =
      [ Some "2024-01-02T03:04:05+00:00"; Some "2024-01-01T00:00:00+00:00";
        None ] /\
    Server.total_count resp = 3 /\
    Sorted (fun a b =>
              String.ltb (Server.created_key a) (Server.created_key b) = false)
      (Server.models resp) /\
    map Server.entry_path (Server.models resp) ≡ₚ
      map Gcs.name
        (List.filter (fun b => endswith ".ply" (Gcs.name b)) Doubles.blobs_many).
Proof.
  intros s.
  destruct (Server.get_user_models Doubles.config Doubles.world_with_many "u1" s)
    as [[resp|e] s'] eqn:E; [|by vm_compute in E].
  exists resp. split; [done|].
  destruct (get_user_models_listing Doubles.config Doubles.world_with_many "u1"
              s Doubles.client_many resp)
    as (_ & Hn & Hsorted & blobs & Hb & Hp); [reflexivity|by rewrite E|].
  injection Hb as <-.
  vm_compute in E. injection E as <- _.
  split; [reflexivity|]. split; [reflexivity|]. split; [exact Hn|].
  split; [exact Hsorted|exact Hp].
Defined.

(** The catalog only reads: the state is the same after a listing,
    however it ends. It ends in a response, in the error 503 [Storage
    not available] when there is no client of the blob store, or, for
    every failure of the blob store, in an error 500 whose detail starts
    with [Failed to list user models: ]; no part of a listing is
    returned when a blob fails. *)
Theorem get_user_models_read_only {float obj : Type} (cfg : Server.Config)
    (w : Env.World float obj) (uid : string) (s : Server.state) :
  let r := Server.get_user_models cfg w uid s in
  snd r = s /\
  ((exists resp, fst r = Ok resp /\ is_Some (Server.gcs_client s)) \/
   (fst r = Raise (HTTPException 503 "Storage not available") /\
    Server.gcs_client s = None) \/
   (exists e, fst r = Raise (HTTPException 500
                               ("Failed to list user models: "
                                +:+ Env.str_exn w e)) /\
              is_Some (Server.gcs_client s))).
Proof.
  intros r. subst r.
  unfold Server.get_user_models, bind, get, try_catch, lift, ret, raise.
  destruct (Server.gcs_client s) as [c|]; [|split; [done|]; right; by left].
  destruct (Gcs.list_blobs c _ _) as [blobs|e].
  - destruct (Server.collect cfg c blobs) as [entries|e].
    + split; [done|]. left. by eexists.
    + split; [done|]. right. right. by eexists.
  - split; [done|]. right. right. by eexists.
Qed.

(** ** Authentication comes first *)

(** A generation request that does not carry the bearer credential of
    the configured secret is answered 401 by both handlers and changes
    nothing: no model is called, no file is written, the clock is not
    read. When no secret is configured, every generation request ends in
    the [ValueError] of the credential check, with the state unchanged
    as well. *)
Theorem unauthenticated_requests_change_nothing {float obj : Type}
    (cfg : Server.Config) (w : Env.World float obj) (req : Server.Request)
    (request : Server.TextRequest) (file : Server.UploadFile)
    (fmt : string) (grid : Z) (uid ua xff auth : option string)
    (s : Server.state) :
  (Server.SECRET_KEY cfg <> "" ->
   ~ (is_ascii_str (Server.SECRET_KEY cfg) = true /\
      exists scheme,
        lower scheme = "bearer" /\
        auth = Some (scheme +:+ " " +:+ Server.SECRET_KEY cfg)) ->
   Server.text_to_3d cfg w req request ua xff auth s =
     (Raise (HTTPException 401 "Invalid or missing authentication token"), s) /\
   Server.image_to_3d cfg w req file fmt grid uid ua xff auth s =
     (Raise (HTTPException 401 "Invalid or missing authentication token"), s))
  /\
  (Server.SECRET_KEY cfg = "" ->
   Server.text_to_3d cfg w req request ua xff auth s =
     (Raise (ValueError "POINT_E_SECRET_KEY must be configured for production use"), s) /\
   Server.image_to_3d cfg w req file fmt grid uid ua xff auth s =
     (Raise (ValueError "POINT_E_SECRET_KEY must be configured for production use"), s)).
Proof.
  split.
  - intros Hkey Hnot.
    destruct (verify_secret_key_total cfg auth Hkey) as [b Hb].
    assert (b = false) as ->.
    { destruct b; [|done]. by apply (verify_secret_key_true cfg auth Hkey) in Hb. }
    unfold Server.text_to_3d, Server.image_to_3d, bind, lift, raise.
    by rewrite Hb.
  - intros Hkey.
    unfold Server.text_to_3d, Server.image_to_3d, Server.verify_secret_key,
      bind, lift, raise.
    by rewrite Hkey.
Qed.

Lemma unauthenticated_requests_change_nothing_witness :
  Server.text_to_3d Doubles.config Doubles.world Doubles.request
    (Doubles.text_request "a cube" "mesh" 32) None None (Some "Bearer wrong")
    (Doubles.loaded Doubles.world) =
    (Raise (HTTPException 401 "Invalid or missing authentication token"),
     Doubles.loaded Doubles.world).
Proof.
  apply (unauthenticated_requests_change_nothing Doubles.config Doubles.world
           Doubles.request (Doubles.text_request "a cube" "mesh" 32)
           {| Server.upload_filename := None; Server.upload_content := [] |}
           "mesh" 32 None None None (Some "Bearer wrong")
           (Doubles.loaded Doubles.world)).
  - discriminate.
  - intros [_ (scheme & Hl & [= E])].
    assert (cut " " (scheme +:+ " " +:+ "s3cret") =
              Some (scheme, "s3cret")) as H2
      by exact (cut_app " " scheme "s3cret" (lower_bearer_no_space _ Hl)).
    rewrite <- E in H2. vm_compute in H2. discriminate H2.
Defined.

(** ** The origin address *)

Section Origin.

Lemma cut_none_no_sep (sep : ascii) (s : string) :
  cut sep s = None -> has_char sep s = false.
Proof.
  induction s as [|c s IH]; cbn [cut has_char]; [done|].
  rewrite (Ascii.eqb_sym sep c).
  destruct (Ascii.eqb c sep); [done|].
  destruct (cut sep s) as [[? ?]|]; [done|]. intros _. by apply IH.
Qed.

Lemma split_acc_cut (sep : ascii) (acc s : string) :
  split_acc sep acc s =
    match cut sep s with
    | Some (a, b) => (acc +:+ a) :: split_acc sep "" b
    | None => [acc +:+ s]
    end.
Proof.
  destruct (cut sep s) as [[a b]|] eqn:E.
  - apply cut_spec in E as [-> Ha]. by apply split_acc_app.
  - by apply split_acc_no_sep, cut_none_no_sep.
Qed.

Lemma has_char_lstrip (c : ascii) (s : string) :
  has_char c s = false -> has_char c (lstrip s) = false.
Proof.
  induction s as [|d s IH]; cbn [has_char lstrip]; [done|].
  intros H. apply orb_false_iff in H as [Hd Hs].
  destruct (isspace d); [by apply IH|]. cbn [has_char]. by rewrite Hd, Hs.
Qed.

Lemma has_char_rstrip (c : ascii) (s : string) :
  has_char c s = false -> has_char c (rstrip s) = false.
Proof.
  induction s as [|d s IH]; cbn [has_char rstrip]; [done|].
  intros H. apply orb_false_iff in H as [Hd Hs]. specialize (IH Hs).
  destruct (rstrip s) as [|e r].
  - destruct (isspace d); [done|]. cbn [has_char]. by rewrite Hd.
  - cbn [has_char] in *. by rewrite Hd, IH.
Qed.

Lemma lstrip_head (s : string) :
  match lstrip s with
  | String c _ => isspace c = false
  | EmptyString => True
  end.
Proof.
  induction s as [|d s IH]; cbn [lstrip]; [done|].
  by destruct (isspace d) eqn:E.
Qed.

Lemma rstrip_rstrip (s : string) : rstrip (rstrip s) = rstrip s.
Proof.
  induction s as [|d s IH]; cbn [rstrip]; [done|].
  destruct (rstrip s) as [|e r] eqn:E.
  - destruct (isspace d) eqn:Ed; [done|]. cbn [rstrip]. by rewrite Ed.
  - cbn [rstrip]. cbn [rstrip] in IH. rewrite IH. by destruct r.
Qed.

Lemma rstrip_tail (c : ascii) (s : string) :
  rstrip (String c s) = String c s -> rstrip s = s.
Proof.
  cbn [rstrip]. destruct (rstrip s) as [|e r].
  - destruct (isspace c); [done|]. by intros [= <-].
  - by intros [= <-].
Qed.

Lemma rstrip_lstrip (s : string) :
  rstrip s = s -> rstrip (lstrip s) = lstrip s.
Proof.
  induction s as [|d s IH]; [done|]. intros H. cbn [lstrip].
  destruct (isspace d); [|done]. by apply IH, (rstrip_tail d).
Qed.

End Origin.

(** When the request has a non-empty [X-Forwarded-For] header, the
    origin address is what that header has before its first comma,
    without the white space around it, whatever the other headers and
    the peer are: it contains no comma and neither begins nor ends with
    white space. *)
Theorem get_forwarded_ip_first_entry (req : Server.Request) (v : string) :
  Server.headers req !! "x-forwarded-for" = Some v ->
  v <> "" ->
  exists first ip,
    Server.get_forwarded_ip req = Ok ip /\
    ip = strip first /\
    has_char "," first = false /\
    (v = first \/ exists rest, v = first +:+ "," +:+ rest) /\
    has_char "," ip = false /\
    rstrip ip = ip /\
    match ip with
    | String c _ => isspace c = false
    | EmptyString => True
    end.
Proof.
  intros Hv Hne. unfold Server.get_forwarded_ip, Server.headers_get.
  change (lower "X-Forwarded-For") with "x-forwarded-for". rewrite Hv.
  assert (Server.first_truthy (Some v) = Some v) as ->
    by by destruct v.
  unfold split. rewrite split_acc_cut.
  assert (forall first,
            has_char "," first = false ->
            has_char "," (strip first) = false /\
            rstrip (strip first) = strip first /\
            match strip first with
            | String c _ => isspace c = false
            | EmptyString => True
            end) as Hstrip.
  { intros first Hf. unfold strip. split; [|split].
    - by apply has_char_lstrip, has_char_rstrip.
    - apply rstrip_lstrip, rstrip_rstrip.
    - apply lstrip_head. }
  destruct (cut "," v) as [[a b]|] eqn:E.
  - apply cut_spec in E as [-> Ha].
    exists a, (strip a). destruct (Hstrip a Ha) as (H1 & H2 & H3).
    repeat split; try done. right. by exists b.
  - apply cut_none_no_sep in E.
    exists v, (strip v). destruct (Hstrip v E) as (H1 & H2 & H3).
    repeat split; try done. by left.
Qed.

Lemma get_forwarded_ip_first_entry_witness :
  let req := {| Server.headers :=
                  <["x-forwarded-for" := " 203.0.113.7 , 10.0.0.1"]>
                    (<["x-real-ip" := "10.0.0.2"]> ∅);
                Server.client := None |} in
  Server.get_forwarded_ip req = Ok "203.0.113.7".
Proof.
  intros req.
  destruct (get_forwarded_ip_first_entry req " 203.0.113.7 , 10.0.0.1")
    as (first & ip & H & _); [reflexivity|discriminate|].
  rewrite H. vm_compute in H. by injection H as <-.
Defined.

(** ** Storing an artifact *)

Section Store.

Context {float obj : Type}.
Variable cfg : Server.Config.
Variable w : Env.World float obj.
Implicit Types (s : Server.state (float := float) (obj := obj)).

Lemma bind_ok {A B} (m : M Server.state A) (k : A -> M Server.state B)
    s (b : B) s' :
  bind m k s = (Ok b, s') ->
  exists a s1, m s = (Ok a, s1) /\ k a s1 = (Ok b, s').
Proof.
  unfold bind. destruct (m s) as [[a|e] s1]; [|done]. by exists a, s1.
Qed.

(** The download of a filename depends on the files only. *)
Lemma download_files (filename : string) s s' :
  Server.fs s' = Server.fs s -> Server.cwd s' = Server.cwd s ->
  fst (Server.download filename s') = fst (Server.download filename s) /\
  snd (Server.download filename s') = s'.
Proof.
  intros Hf Hc. unfold Server.download, bind, get, raise, lift.
  rewrite Hf, Hc. by destruct (negb _).
Qed.

(** The outcome of [store] when the remote tier gave no usable link:
    that of the write to the local tier, whose access path serves as
    both links. *)
Lemma store_remote_failure (uid filename : string) (content : list byte)
    s (c : Gcs.Client) (path : string) s1 :
  Server.gcs_client s = Some c ->
  Server.get_storage_path w uid filename s = (Ok path, s1) ->
  (forall url,
     Gcs.upload_from_string c (Server.BUCKET_NAME cfg) path content "model/ply"
       = Ok tt ->
     Gcs.generate_signed_url c (Server.BUCKET_NAME cfg) path (Server.days 30)
       = Ok url ->
     url = "") ->
  Server.store cfg w uid filename content s =
    (local <- Server.save_to_local content filename ;; ret (local, local)) s1.
Proof.
  intros Hc Hp Hbad.
  assert (Server.gcs_client s1 = Some c) as Hc1.
  { destruct (keeps_get_storage_path w uid filename s)
      as (_ & _ & _ & _ & _ & _ & H). rewrite Hp in H. cbn in H. congruence. }
  unfold Server.store. unfold bind at 1. unfold get at 1. rewrite Hc.
  unfold bind at 1. unfold bind at 1. rewrite Hp.
  unfold Server.save_to_gcs. unfold bind at 1. unfold get at 1. rewrite Hc1.
  unfold try_catch, bind at 1, lift at 1.
  destruct (Gcs.upload_from_string c (Server.BUCKET_NAME cfg) path content
              "model/ply") as [[]|e] eqn:Eu; [|done].
  unfold bind at 1, lift at 1.
  destruct (Gcs.generate_signed_url c (Server.BUCKET_NAME cfg) path
              (Server.days 30)) as [url|e] eqn:Es; [|done].
  unfold ret at 1. by rewrite (Hbad url eq_refl eq_refl).
Qed.

End Store.

(** When the remote tier is configured but this one put fails (the
    upload raises, the signing raises, or the link comes back empty),
    the artifact is written to the local tier instead: both links of the
    response are the local access path, the download of the filename
    sends the bytes, and the client of the blob store stays in place for
    the next request. *)
Theorem store_falls_back_to_local {float obj : Type} (cfg : Server.Config)
    (w : Env.World float obj) (uid filename : string) (content : list byte)
    (s s1 s2 : Server.state) (c : Gcs.Client) (path local : string) :
  Server.gcs_client s = Some c ->
  Server.get_storage_path w uid filename s = (Ok path, s1) ->
  (forall url,
     Gcs.upload_from_string c (Server.BUCKET_NAME cfg) path content "model/ply"
       = Ok tt ->
     Gcs.generate_signed_url c (Server.BUCKET_NAME cfg) path (Server.days 30)
       = Ok url ->
     url = "") ->
  Server.save_to_local content filename s1 = (Ok local, s2) ->
  Server.store cfg w uid filename content s =
    (Ok ("/download/" +:+ filename, "/download/" +:+ filename), s2) /\
  Server.download filename s2 = (Ok content, s2) /\
  Server.gcs_client s2 = Some c.
Proof.
  intros Hc Hp Hbad Hsave.
  rewrite (store_remote_failure cfg w uid filename content s c path s1 Hc Hp Hbad).
  destruct (save_to_local_then_download content filename s1 local s2 Hsave)
    as (-> & _ & Hd).
  unfold bind, ret. rewrite Hsave. split; [done|]. split; [done|].
  destruct (keeps_get_storage_path w uid filename s)
    as (_ & _ & _ & _ & _ & _ & H1). rewrite Hp in H1. cbn in H1.
  destruct (keeps_save_to_local content filename s1)
    as (_ & _ & _ & _ & _ & _ & H2). rewrite Hsave in H2. cbn in H2.
  congruence.
Qed.

Lemma store_falls_back_to_local_witness :
  let failing : Gcs.Client :=
    {| Gcs.bucket_exists := fun _ => Ok true;
       Gcs.create_bucket := fun _ _ => Ok tt;
       Gcs.patch_cors := fun _ => Ok tt;
       Gcs.upload_from_string := fun _ _ _ _ => Raise (Exception "503 from the blob store");
       Gcs.generate_signed_url := fun _ _ _ => Ok "https://storage.example/x";
       Gcs.list_blobs := fun _ _ => Ok [] |} in
  let s := Server.set_gcs_client (Some failing) Doubles.loading in
  exists s2,
    Server.store Doubles.config Doubles.world "u1" "cube.ply" [x70; x6c; x79] s =
      (Ok ("/download/cube.ply", "/download/cube.ply"), s2) /\
    Server.download "cube.ply" s2 = (Ok [x70; x6c; x79], s2) /\
    Server.gcs_client s2 = Some failing.
Proof.
  intros failing s.
  set (s1 := snd (Server.get_storage_path Doubles.world "u1" "cube.ply" s)).
  set (s2 := snd (Server.save_to_local [x70; x6c; x79] "cube.ply" s1)).
  exists s2.
  apply (store_falls_back_to_local Doubles.config Doubles.world "u1" "cube.ply"
           [x70; x6c; x79] s s1 s2 failing "users/u1/2024/01/02/cube.ply"
           "/download/cube.ply").
  - reflexivity.
  - vm_compute. reflexivity.
  - intros url H. discriminate H.
  - vm_compute. reflexivity.
Defined.

Section Dangling.

Context {float obj : Type}.
Variable cfg : Server.Config.
Variable w : Env.World float obj.
Implicit Types (s : Server.state (float := float) (obj := obj)).

(** The two ways [store] can succeed. *)
Lemma store_ok (uid filename : string) (content : list byte) s
    (urls : string * string) s' :
  Server.store cfg w uid filename content s = (Ok urls, s') ->
  (fst urls = "/gcs/" +:+ filename /\ snd urls <> "" /\
   is_Some (Server.gcs_client s) /\
   Server.fs s' = Server.fs s /\ Server.cwd s' = Server.cwd s)
  \/
  (fst urls = "/download/" +:+ filename /\ snd urls = fst urls /\
   Server.download filename s' = (Ok content, s')).
Proof.
  unfold Server.store. intros H.
  apply bind_ok in H as (s0 & sa & [= <- <-] & H).
  apply bind_ok in H as (d & sb & Hd & H).
  destruct (Server.first_truthy d) as [url|] eqn:Ed.
  - injection H as <- <-. left. cbn [fst snd].
    destruct d as [u|]; [|done]. cbn in Ed.
    destruct (truthy u) eqn:Eu; [|done]. injection Ed as <-.
    destruct (Server.gcs_client s) as [c|] eqn:Ec; [|by injection Hd].
    split; [done|]. split; [by destruct u|]. split; [done|].
    apply bind_ok in Hd as (path & sc & Hp & Hd).
    assert (Server.fs sc = Server.fs s /\ Server.cwd sc = Server.cwd s)
      as [F1 C1].
    { unfold Server.get_storage_path, Server.datetime_now, bind, ret in Hp.
      by injection Hp as _ <-. }
    assert (Server.fs sb = Server.fs sc /\ Server.cwd sb = Server.cwd sc)
      as [F2 C2].
    { revert Hd. unfold Server.save_to_gcs, bind, get, try_catch, lift, ret.
      destruct (Server.gcs_client sc); [|by intros [= _ <-]].
      destruct (Gcs.upload_from_string _ _ _ _ _); [|by intros [= _ <-]].
      destruct (Gcs.generate_signed_url _ _ _ _); by intros [= _ <-]. }
    split; congruence.
  - apply bind_ok in H as (l & sc & Hl & [= <- <-]). right. cbn [fst snd].
    destruct (save_to_local_then_download content filename sb l sc Hl)
      as (-> & _ & Hdl). by repeat split.
Qed.

End Dangling.

Section Retrievable.

Context {float obj : Type}.
Variable cfg : Server.Config.
Variable w : Env.World float obj.
Implicit Types (s : Server.state (float := float) (obj := obj)).

Lemma try_catch_ok {A} (m : M Server.state A) (h : exn -> exn) s (a : A) s' :
  try_catch m (fun e => raise (h e)) s = (Ok a, s') -> m s = (Ok a, s').
Proof. unfold try_catch, raise. by destruct (m s) as [[?|?] ?]. Qed.

Lemma expiry_files s (e : string) s' :
  Server.expiry w s = (Ok e, s') ->
  Server.fs s' = Server.fs s /\ Server.cwd s' = Server.cwd s.
Proof.
  unfold Server.expiry, Server.datetime_now, bind, lift, ret.
  destruct (DateTime.add_days 30 _); [|done]. by intros [= _ <-].
Qed.

(** What a stored artifact leaves in the response. *)
Lemma stored_then_expiry (uid filename : string) (content : list byte) s
    (urls : string * string) s1 (e : string) s' :
  Server.store cfg w uid filename content s = (Ok urls, s1) ->
  Server.expiry w s1 = (Ok e, s') ->
  (fst urls = "/gcs/" +:+ filename /\ snd urls <> "" /\
   is_Some (Server.gcs_client s))
  \/
  (fst urls = "/download/" +:+ filename /\ snd urls = fst urls /\
   Server.download filename s' = (Ok content, s')).
Proof.
  intros Hst He. destruct (store_ok cfg w _ _ _ _ _ _ Hst)
    as [(H1 & H2 & H3 & _)|(H1 & H2 & H3)]; [by left|right].
  split; [done|]. split; [done|].
  destruct (expiry_files s1 e s' He) as [F C].
  destruct (download_files filename s1 s' F C) as [D1 D2].
  rewrite H3 in D1. cbn [fst] in D1.
  destruct (Server.download filename s') as [r sx]. cbn [fst snd] in *.
  by subst.
Qed.

End Retrievable.

(** No success of a text request dangles on the local tier. When
    [text_to_3d] returns a response, the response reports success, and
    either the artifact went to the remote tier (the file link is
    [/gcs/<filename>], the download link is the signed link), or it was
    written to the local tier: then both links are [/download/<filename>],
    and in the state the request leaves, the download of that filename
    succeeds. *)
Theorem text_to_3d_success_is_retrievable {float obj : Type}
    (cfg : Server.Config) (w : Env.World float obj) (req : Server.Request)
    (request : Server.TextRequest) (ua xff auth : option string)
    (s s' : Server.state) (resp : Server.GenerationResponse) :
  Server.text_to_3d cfg w req request ua xff auth s = (Ok resp, s') ->
  Server.success resp = true /\
  exists filename,
    (Server.file_url resp = Some ("/gcs/" +:+ filename) /\
     (exists url, Server.download_url resp = Some url /\ url <> "") /\
     is_Some (Server.gcs_client s))
    \/
    (Server.file_url resp = Some ("/download/" +:+ filename) /\
     Server.download_url resp = Server.file_url resp /\
     exists content, Server.download filename s' = (Ok content, s')).
Proof.
  unfold Server.text_to_3d. intros H.
  apply bind_ok in H as (ok & s0 & Hv & H).
  destruct ok; cbn [negb] in H; [|done].
  unfold lift in Hv. injection Hv as _ <-.
  apply bind_ok in H as (ip & s0 & Hip & H).
  unfold lift in Hip. injection Hip as _ <-.
  apply try_catch_ok in H. unfold Server.text_to_3d_body in H.
  apply bind_ok in H as (uid & s1 & Hid & H).
  apply bind_ok in H as (pc & s2 & Hpc & H).
  assert (Server.gcs_client s2 = Server.gcs_client s) as Hc.
  { destruct (keeps_identity w (Server.user_id request) ua xff s)
      as (_ & _ & _ & _ & _ & _ & K1). rewrite Hid in K1.
    destruct (keeps_generate_from_text (Server.prompt request) s1)
      as (_ & _ & _ & _ & _ & _ & K2). rewrite Hpc in K2.
    cbn in K1, K2. congruence. }
  unfold Server.text_to_3d_finish in H.
  apply bind_ok in H as (u & s3 & Hu & H).
  apply bind_ok in H as (t & s4 & Ht & H). cbv zeta in H.
  assert (Server.gcs_client s4 = Server.gcs_client s) as Hc4.
  { unfold Server.uuid4_str in Hu. injection Hu as _ <-.
    unfold Server.datetime_now in Ht. injection Ht as _ <-. exact Hc. }
  destruct (String.eqb (Server.format request) "mesh").
  - apply bind_ok in H as (mesh & s5 & Hm & H).
    apply bind_ok in H as (content & s6 & Hw & H).
    unfold lift in Hw. injection Hw as Hw <-.
    apply bind_ok in H as (urls & s7 & Hst & H).
    apply bind_ok in H as (e & s8 & He & H).
    injection H as <- <-. cbn. split; [done|].
    assert (Server.gcs_client s5 = Server.gcs_client s) as Hc5.
    { destruct (keeps_pointcloud_to_mesh w pc (Server.grid_size request) s4)
        as (_ & _ & _ & _ & _ & _ & K). rewrite Hm in K. cbn in K. congruence. }
    eexists.
    destruct (stored_then_expiry cfg w _ _ _ _ _ _ _ _ Hst He)
      as [(H1 & H2 & H3)|(H1 & H2 & H3)].
    + left. rewrite H1. split; [done|]. split; [by eexists|]. by rewrite <- Hc5.
    + right. rewrite H2, H1. split; [done|]. split; [done|]. by eexists.
  - apply bind_ok in H as (text & s5 & Hw & H).
    unfold lift in Hw. injection Hw as Hw <-.
    apply bind_ok in H as (urls & s7 & Hst & H).
    apply bind_ok in H as (e & s8 & He & H).
    injection H as <- <-. cbn. split; [done|]. eexists.
    destruct (stored_then_expiry cfg w _ _ _ _ _ _ _ _ Hst He)
      as [(H1 & H2 & H3)|(H1 & H2 & H3)].
    + left. rewrite H1. split; [done|]. split; [by eexists|]. by rewrite <- Hc4.
    + right. rewrite H2, H1. split; [done|]. split; [done|]. by eexists.
Qed.

Lemma text_to_3d_success_is_retrievable_witness :
  let r := Server.text_to_3d Doubles.config Doubles.world Doubles.request
             (Doubles.text_request "a blue cube" "mesh" 32) None None
             (Some "Bearer s3cret") (Doubles.loaded Doubles.world) in
  exists resp, fst r = Ok resp /\ Server.success resp = true.
Proof.
  intros r.
  destruct r as [[resp|e] s'] eqn:E; [|by vm_compute in E].
  exists resp. split; [done|].
  by destruct (text_to_3d_success_is_retrievable _ _ _ _ _ _ _ _ _ _ E).
Defined.

(** ** The namespaces of the remote tier *)

Section Namespace.

Lemma startswith_app (a b c : string) :
  startswith (a +:+ b) (a +:+ c) = startswith b c.
Proof.
  induction a as [|x a IH]; [done|].
  change (startswith (String x (a +:+ b)) (String x (a +:+ c)) = startswith b c).
  cbn [startswith]. by rewrite Ascii.eqb_refl, IH.
Qed.

Lemma startswith_segment (u2 u1 rest : string) :
  has_char "/" u1 = false -> has_char "/" u2 = false ->
  startswith (u2 +:+ "/") (u1 +:+ "/" +:+ rest) = true <-> u1 = u2.
Proof.
  revert u1. induction u2 as [|d u2 IH]; intros [|c u1] H1 H2.
  - done.
  - cbn [has_char] in H1. apply orb_false_iff in H1 as [Hc _].
    change (startswith "/" (String c (u1 +:+ "/" +:+ rest)) = true <-> String c u1 = "").
    cbn [startswith]. rewrite Hc. cbn. split; [done|discriminate].
  - cbn [has_char] in H2. apply orb_false_iff in H2 as [Hd _].
    change (startswith (String d (u2 +:+ "/")) (String "/" rest) = true
            <-> "" = String d u2).
    cbn [startswith]. rewrite Ascii.eqb_sym, Hd. cbn. split; [done|discriminate].
  - cbn [has_char] in H1, H2.
    apply orb_false_iff in H1 as [_ H1]. apply orb_false_iff in H2 as [_ H2].
    change (startswith (String d (u2 +:+ "/"))
              (String c (u1 +:+ "/" +:+ rest)) = true
            <-> String c u1 = String d u2).
    cbn [startswith]. rewrite andb_true_iff, (IH u1 H1 H2), Ascii.eqb_eq.
    split; [by intros [-> ->]|by intros [= -> ->]].
Qed.

End Namespace.

(** The remote tier keeps identities apart as long as they have no
    slash: the path under which an artifact of one identity is stored
    lies under the prefix that the listing of another identity asks for
    only if the two identities are the same. An identity with a slash is
    not kept apart: what is stored for [u/v] is listed for [u]. *)
Theorem storage_path_matches_own_listing_only {float obj : Type}
    (w : Env.World float obj) (u1 u2 v filename : string)
    (s : Server.state) :
  (has_char "/" u1 = false -> has_char "/" u2 = false ->
   forall path,
     fst (Server.get_storage_path w u1 filename s) = Ok path ->
     (startswith ("users/" +:+ u2 +:+ "/") path = true <-> u1 = u2)) /\
  (forall path,
     fst (Server.get_storage_path w (u1 +:+ "/" +:+ v) filename s) = Ok path ->
     startswith ("users/" +:+ u1 +:+ "/") path = true).
Proof.
  split.
  - intros H1 H2 path.
    unfold Server.get_storage_path, Server.datetime_now, bind, ret. cbn [fst].
    intros [= <-]. rewrite (startswith_app "users/").
    by apply startswith_segment.
  - intros path.
    unfold Server.get_storage_path, Server.datetime_now, bind, ret. cbn [fst].
    intros [= <-]. rewrite (startswith_app "users/").
    rewrite <- (append_assoc u1 "/"), !append_assoc.
    rewrite <- (append_assoc u1 "/" (v +:+ _)).
    rewrite <- (append_nil_r (u1 +:+ "/")) at 1.
    by rewrite startswith_app.
Qed.

Lemma storage_path_matches_own_listing_only_witness :
  startswith "users/u2/"
    "users/u1/2024/01/02/cube.ply" = true <-> "u1" = "u2".
Proof.
  destruct (storage_path_matches_own_listing_only Doubles.world "u1" "u2" ""
              "cube.ply" Doubles.loading) as [H _].
  apply (H eq_refl eq_refl "users/u1/2024/01/02/cube.ply"). reflexivity.
Defined.

(** ** Identities that coincide *)

(** The derived identity depends on the caller-agent and the
    forwarded address only through their concatenation, an absent
    header counting as the text [None]: callers whose two headers
    concatenate to the same text share one identity on the same day. *)
Theorem derived_identity_of_concatenation {float obj : Type}
    (w : Env.World float obj) (ua1 xff1 ua2 xff2 : option string)
    (s1 s2 : Server.state) :
  Server.fstr ua1 +:+ Server.fstr xff1 = Server.fstr ua2 +:+ Server.fstr xff2 ->
  DateTime.str_date (Env.now w (Server.clock_reads s1)) =
    DateTime.str_date (Env.now w (Server.clock_reads s2)) ->
  fst (Server.identity w None ua1 xff1 s1) =
    fst (Server.identity w None ua2 xff2 s2).
Proof.
  intros Hcat Hday.
  assert (forall ua xff (s : Server.state (float := float) (obj := obj)),
            fst (Server.identity w None ua xff s) =
              Ok ("user_" +:+ take 8
                    (Env.md5_hexdigest w
                       (encode_utf8
                          ((Server.fstr ua +:+ Server.fstr xff) +:+
                           DateTime.str_date (Env.now w (Server.clock_reads s)))))))
    as Hid.
  { intros ua xff s. unfold Server.identity. cbn [Server.first_truthy].
    unfold Server.generate_user_id, Server.get_or_empty, bind, ret,
      Server.datetime_now. cbn [fst].
    destruct (decide (_ = ∅)) as [He|_].
    { by apply insert_non_empty in He. }
    rewrite lookup_insert_eq, lookup_insert_ne, lookup_insert_eq by done.
    by rewrite append_assoc. }
  by rewrite !Hid, Hcat, Hday.
Qed.

Lemma derived_identity_of_concatenation_witness :
  fst (Server.identity Doubles.world None (Some "ab") (Some "c") Doubles.loading) =
    fst (Server.identity Doubles.world None (Some "a") (Some "bc")
           (Doubles.loaded Doubles.world)) /\
  fst (Server.identity Doubles.world None None (Some "x") Doubles.loading) =
    fst (Server.identity Doubles.world None (Some "None") (Some "x")
           Doubles.loading).
Proof.
  split;
    apply (derived_identity_of_concatenation Doubles.world); reflexivity.
Defined.

(** ** The format of a request *)

Section Formats.

Context {float obj : Type}.
Variable cfg : Server.Config.
Variable w : Env.World float obj.
Implicit Types (s : Server.state (float := float) (obj := obj)).

(** With a format other than [mesh], what follows the sampling makes no
    call into the inference library. *)
Lemma only_text_to_3d_finish_pointcloud (P : PointE.call obj -> Prop)
    (request : Server.TextRequest) (uid : string)
    (pc : PointE.PointCloud float) :
  Server.format request <> "mesh" ->
  Trace.only P (Server.text_to_3d_finish cfg w request uid pc).
Proof.
  intros Hf. unfold Server.text_to_3d_finish.
  apply only_bind; [apply only_uuid4_str|]. intros u.
  apply only_bind; [apply only_datetime_now|]. intros t. cbv zeta.
  destruct (String.eqb_spec (Server.format request) "mesh") as [E|_]; [done|].
  apply only_bind; [apply only_lift|]. intros ?.
  apply only_bind; [apply only_store|]. intros ?.
  apply only_bind; [apply only_expiry|]. intros ?. apply only_ret.
Qed.

Lemma text_to_3d_body_pointcloud_calls (request : Server.TextRequest)
    (ua xff : option string) s (ts : PointE.Sampler float obj) :
  Server.models_ready s = true ->
  Server.text_sampler s = Some ts ->
  Server.format request <> "mesh" ->
  Server.calls (snd (Server.text_to_3d_body cfg w request ua xff s)) =
    Server.calls s ++ [PointE.SampleCall (PointE.Texts [Server.prompt request])].
Proof.
  intros Hr Ht Hf. unfold Server.text_to_3d_body. unfold bind at 1.
  destruct (identity_runs w (Server.user_id request) ua xff s)
    as (uid & s1 & -> & Hc & Hr1 & Ht1 & _).
  rewrite Hr in Hr1. rewrite Ht in Ht1.
  set (s2 := Server.set_calls
               (Server.calls s1
                ++ [PointE.SampleCall (PointE.Texts [Server.prompt request])]) s1).
  assert (Trace.only (fun _ => False)
            (pc <- Server.sample_loop ts (PointE.Texts [Server.prompt request]) ;;
             Server.text_to_3d_finish cfg w request uid pc)) as Honly.
  { apply only_bind; [apply only_sample_loop|]. intros pc.
    by apply only_text_to_3d_finish_pointcloud. }
  destruct (Honly s2) as (rest & Hrest & HP).
  assert (rest = []) as -> by (destruct rest; [done|by inversion HP]).
  rewrite app_nil_r in Hrest.
  unfold bind at 1. rewrite (generate_from_text_ready _ s1 ts Hr1 Ht1).
  unfold Server.run_sampler, Server.record_call, modify.
  unfold bind in Hrest. unfold bind. fold s2.
  rewrite Hrest. subst s2. cbn [Server.calls Server.set_calls].
  by rewrite Hc.
Qed.

End Formats.

(** Every format other than [mesh] is taken for a point cloud: the
    format is not checked against a list. For an authenticated request
    on a ready server whose format is not [mesh], the sampler is the
    only call into the inference library (no mesh is reconstructed), and
    a response, when there is one, reports zero faces and the message of
    a point cloud. *)
Theorem text_to_3d_other_formats_are_point_clouds {float obj : Type}
    (cfg : Server.Config) (w : Env.World float obj) (req : Server.Request)
    (request : Server.TextRequest) (ua xff auth : option string)
    (s : Server.state) (ts : PointE.Sampler float obj) (ip : string) :
  Server.verify_secret_key cfg auth = Ok true ->
  Server.get_forwarded_ip req = Ok ip ->
  Server.models_ready s = true ->
  Server.text_sampler s = Some ts ->
  Server.format request <> "mesh" ->
  let r := Server.text_to_3d cfg w req request ua xff auth s in
  Server.calls (snd r) =
    Server.calls s ++ [PointE.SampleCall (PointE.Texts [Server.prompt request])] /\
  forall resp, fst r = Ok resp ->
    Server.resp_faces resp = Some 0 /\
    Server.message resp = "Generated point cloud: " +:+ Server.prompt request.
Proof.
  intros Hauth Hip Hr Ht Hf r.
  pose proof (text_to_3d_body_pointcloud_calls cfg w request ua xff s ts Hr Ht Hf)
    as Hcalls.
  subst r. unfold Server.text_to_3d, bind, lift, try_catch, raise.
  rewrite Hauth, Hip. cbn [negb].
  destruct (Server.text_to_3d_body cfg w request ua xff s) as [[resp|e] s']
    eqn:Eb; cbn [fst snd] in *; (split; [done|]); [|done].
  intros ? [= <-]. unfold Server.text_to_3d_body in Eb.
  apply bind_ok in Eb as (uid & s1 & _ & Eb).
  apply bind_ok in Eb as (pc & s2 & _ & Eb).
  unfold Server.text_to_3d_finish in Eb.
  apply bind_ok in Eb as (u & s3 & _ & Eb).
  apply bind_ok in Eb as (t & s4 & _ & Eb). cbv zeta in Eb.
  destruct (String.eqb_spec (Server.format request) "mesh") as [E|_]; [done|].
  apply bind_ok in Eb as (text & s5 & _ & Eb).
  apply bind_ok in Eb as (urls & s6 & _ & Eb).
  apply bind_ok in Eb as (e & s7 & _ & Eb).
  by injection Eb as <- <-.
Qed.

Lemma text_to_3d_other_formats_are_point_clouds_witness :
  let r := Server.text_to_3d Doubles.config Doubles.world Doubles.request
             (Doubles.text_request "a cube" "obj" 32) None None
             (Some "Bearer s3cret") (Doubles.loaded Doubles.world) in
  Server.calls (snd r) = [PointE.SampleCall (PointE.Texts ["a cube"])] /\
  exists resp, fst r = Ok resp /\ Server.resp_faces resp = Some 0.
Proof.
  intros r.
  destruct (text_to_3d_other_formats_are_point_clouds Doubles.config
              Doubles.world Doubles.request
              (Doubles.text_request "a cube" "obj" 32) None None
              (Some "Bearer s3cret") (Doubles.loaded Doubles.world)
              Doubles.sampler "127.0.0.1") as [Hc Hresp];
    [reflexivity|reflexivity|reflexivity|reflexivity|discriminate|].
  split; [exact Hc|].
  fold r in Hresp. destruct (fst r) as [resp|e] eqn:E; [|by vm_compute in E].
  exists resp. split; [done|]. by destruct (Hresp resp eq_refl).
Defined.

Section ImageFormats.

Context {float obj : Type}.
Variable cfg : Server.Config.
Variable w : Env.World float obj.
Implicit Types (s : Server.state (float := float) (obj := obj)).

Lemma identity_state (u ua xff : option string) s (id : string) s' :
  Server.identity w u ua xff s = (Ok id, s') ->
  s' = s \/ s' = Server.set_clock_reads (S (Server.clock_reads s)) s.
Proof.
  unfold Server.identity. destruct (Server.first_truthy u).
  - intros [= _ <-]. by left.
  - unfold Server.generate_user_id, Server.datetime_now, bind, ret.
    intros [= _ <-]. by right.
Qed.

Lemma run_sampler_state (sampler : PointE.Sampler float obj)
    (kwargs : PointE.model_kwargs obj) s (pc : PointE.PointCloud float) s' :
  Server.run_sampler sampler kwargs s = (Ok pc, s') ->
  s' = Server.set_calls (Server.calls s ++ [PointE.SampleCall kwargs]) s.
Proof.
  unfold Server.run_sampler, Server.record_call, Server.sample_loop,
    bind, modify, lift, ret, raise.
  destruct (PointE.sample_batch_progressive sampler 1 kwargs); [|done].
  destruct (PointE.output_to_point_clouds sampler _) as [[|? ?]|]; try done.
  by intros [= _ <-].
Qed.

End ImageFormats.

(** The branch of an image request for a format other than [mesh] is
    empty. When such a request returns, it returns no response at all
    ([None]), after the image was decoded and the sampler was called
    with it; nothing was written to the file system. *)
Theorem image_to_3d_other_formats_return_nothing {float obj : Type}
    (cfg : Server.Config) (w : Env.World float obj) (req : Server.Request)
    (file : Server.UploadFile) (fmt : string) (grid : Z)
    (uid ua xff auth : option string) (s s' : Server.state)
    (resp : option Server.GenerationResponse) :
  fmt <> "mesh" ->
  Server.image_to_3d cfg w req file fmt grid uid ua xff auth s = (Ok resp, s') ->
  resp = None /\
  Server.fs s' = Server.fs s /\
  exists image,
    PointE.Image_open (Env.lib w) (Server.upload_content file) = Ok image /\
    Server.calls s' =
      Server.calls s ++ [PointE.SampleCall (PointE.Images [image])].
Proof.
  intros Hf. unfold Server.image_to_3d. intros H.
  apply bind_ok in H as (ok & s0 & Hv & H).
  destruct ok; cbn [negb] in H; [|done].
  unfold lift in Hv. injection Hv as _ <-.
  apply bind_ok in H as (ip & s0 & Hip & H).
  unfold lift in Hip. injection Hip as _ <-.
  apply try_catch_ok in H. unfold Server.image_to_3d_body in H.
  apply bind_ok in H as (s0 & sx & [= <- <-] & H).
  destruct (Server.models_ready s) eqn:Hr; [|done].
  destruct (Server.image_sampler s) as [smp|] eqn:Hs; [|done].
  apply bind_ok in H as (id & s1 & Hid & H).
  apply bind_ok in H as (image & s2 & Him & H).
  unfold lift in Him. injection Him as Him <-.
  apply bind_ok in H as (pc & s3 & Hpc & H).
  apply bind_ok in H as (u & s4 & Hu & H).
  apply bind_ok in H as (t & s5 & Ht & H). cbv zeta in H.
  destruct (String.eqb_spec fmt "mesh") as [E|_]; [done|].
  injection H as <- <-. split; [done|].
  unfold Server.uuid4_str in Hu. injection Hu as _ <-.
  unfold Server.datetime_now in Ht. injection Ht as _ <-.
  assert (Server.models_ready s1 = true /\ Server.image_sampler s1 = Some smp /\
          Server.fs s1 = Server.fs s /\ Server.calls s1 = Server.calls s)
    as (Hr1 & Hs1 & Hf1 & Hc1).
  { by destruct (identity_state w _ _ _ _ _ _ Hid) as [->| ->]. }
  unfold Server.generate_from_image, bind, get in Hpc.
  rewrite Hr1, Hs1 in Hpc. apply run_sampler_state in Hpc as ->.
  cbn. split; [done|]. exists image. split; [done|]. by rewrite Hc1.
Qed.

Lemma image_to_3d_other_formats_return_nothing_witness :
  let file := {| Server.upload_filename := Some "cube.png";
                 Server.upload_content := [x89; x50] |} in
  let r := Server.image_to_3d Doubles.config Doubles.world Doubles.request
             file "pointcloud" 32 (Some "u1") None None (Some "Bearer s3cret")
             (Doubles.loaded Doubles.world) in
  fst r = Ok None /\
  Server.calls (snd r) = [PointE.SampleCall (PointE.Images [7])].
Proof.
  intros file r.
  assert (r = (fst r, snd r)) as E by by destruct r.
  assert (exists resp, fst r = Ok resp) as [resp Hresp]
    by (vm_compute; by eexists).
  rewrite Hresp in E.
  destruct (image_to_3d_other_formats_return_nothing Doubles.config
              Doubles.world Doubles.request file "pointcloud" 32 (Some "u1")
              None None (Some "Bearer s3cret") (Doubles.loaded Doubles.world)
              (snd r) resp) as (-> & _ & image & Hi & Hc);
    [discriminate|exact E|].
  split; [exact Hresp|]. injection Hi as <-. exact Hc.
Defined.

(** ** The local server: storing and retrieving *)

Lemma bind_inv {S A B} (m : M S A) (k : A -> M S B) (s : S) (b : B) (s' : S) :
  bind m k s = (Ok b, s') ->
  exists a s1, m s = (Ok a, s1) /\ k a s1 = (Ok b, s').
Proof.
  unfold bind. destruct (m s) as [[a|e] s1]; [|done]. by exists a, s1.
Qed.

Lemma try_catch_inv {S A} (m : M S A) (h : exn -> exn) (s : S) (a : A) (s' : S) :
  try_catch m (fun e => raise (h e)) s = (Ok a, s') -> m s = (Ok a, s').
Proof. unfold try_catch, raise. by destruct (m s) as [[?|?] ?]. Qed.

Section LocalStore.

Context {float obj : Type}.
Variable w : Env.World float obj.
Implicit Types (s : LocalServer.state (float := float) (obj := obj)).

Lemma local_write_file_ok (path : string) (data : list byte) s s' :
  LocalServer.write_file path data s = (Ok tt, s') ->
  exists fs',
    Fs.write_file (LocalServer.fs s) (LocalServer.cwd s) path data = Ok fs' /\
    s' = LocalServer.set_fs fs' s.
Proof.
  unfold LocalServer.write_file.
  destruct (Fs.write_file _ _ _ _) as [fs'|]; [|done].
  intros [= <-]. by exists fs'.
Qed.

(** What [save_mesh_locally] has written can be downloaded under the
    identity and the filename it returns. *)
Lemma save_mesh_locally_then_download (mesh : PointE.TriMesh float)
    (uid prompt : string) s (filepath filename : string) s' :
  LocalServer.save_mesh_locally w mesh (Some uid) prompt s =
    (Ok (filepath, filename), s') ->
  exists content,
    PointE.write_ply (Env.lib w) mesh = Ok content /\
    filepath =
      LocalServer.joinpath (LocalServer.joinpath LocalServer.OUTPUT_DIR uid)
        filename /\
    LocalServer.download uid filename s' = (Ok content, s').
Proof.
  unfold LocalServer.save_mesh_locally. intros H.
  apply bind_inv in H as ([] & s1 & _ & H).
  apply bind_inv in H as (t & s2 & _ & H). cbv zeta in H.
  remember (DateTime.strftime "%Y%m%d_%H%M%S" t) as timestamp eqn:Et. clear Et.
  apply bind_inv in H as ([] & s3 & _ & H).
  apply bind_inv in H as (content & s4 & Hc & H).
  unfold lift in Hc. injection Hc as Hc <-.
  apply bind_inv in H as ([] & s5 & Hw & H).
  injection H as <- <- <-. exists content. split; [done|]. split; [done|].
  apply local_write_file_ok in Hw as (fs' & Hw & ->).
  apply write_file_stat in Hw.
  unfold LocalServer.download, bind, get, Fs.exists_, Fs.file_response, lift.
  cbn [LocalServer.fs LocalServer.cwd LocalServer.set_fs]. by rewrite Hw.
Qed.

End LocalStore.

(** No success of the local server dangles. When its [text_to_3d]
    returns a response, the request carried an identity, the file link
    of the response is [/download/<identity>/<filename>], and in the
    state the request leaves, the download of that identity and filename
    succeeds and sends the mesh as the inference library encoded it. *)
Theorem local_text_to_3d_success_is_retrievable {float obj : Type}
    (w : Env.World float obj) (request : LocalServer.TextRequest)
    (s s' : LocalServer.state) (resp : LocalServer.GenerationResponse) :
  LocalServer.text_to_3d w request s = (Ok resp, s') ->
  LocalServer.format request = "mesh" /\
  exists uid filename mesh content,
    LocalServer.user_id request = Some uid /\
    LocalServer.file_url resp =
      Some ("/download/" +:+ uid +:+ "/" +:+ filename) /\
    PointE.write_ply (Env.lib w) mesh = Ok content /\
    LocalServer.vertices resp = Some (List.length (PointE.verts mesh)) /\
    LocalServer.resp_faces resp = Some (List.length (PointE.faces mesh)) /\
    LocalServer.download uid filename s' = (Ok content, s').
Proof.
  unfold LocalServer.text_to_3d. intros H. apply try_catch_inv in H.
  unfold LocalServer.text_to_3d_body in H.
  apply bind_inv in H as (dn & s1 & _ & H).
  apply bind_inv in H as (g & s2 & _ & H). cbv zeta in H.
  destruct (String.eqb_spec (LocalServer.format request) "mesh") as [E|_];
    [|done].
  split; [done|].
  apply bind_inv in H as (mesh & s3 & _ & H).
  apply bind_inv in H as ([filepath filename] & s4 & Hsave & H).
  injection H as <- <-.
  destruct (LocalServer.user_id request) as [uid|] eqn:Eu; [|done].
  destruct (save_mesh_locally_then_download w mesh uid _ _ _ _ _ Hsave)
    as (content & Hc & _ & Hd).
  exists uid, filename, mesh, content. by repeat split.
Qed.

Lemma local_text_to_3d_success_is_retrievable_witness :
  let request := {| LocalServer.prompt := "a cube";
                    LocalServer.user_id := Some "local/";
                    LocalServer.format := "mesh";
                    LocalServer.grid_size := 32;
                    LocalServer.num_samples := 1 |} in
  let s := snd (LocalServer.on_import
                  (snd (LocalServer.load_models Doubles.world
                          (LocalServer.initial ∅ [])))) in
  exists resp s',
    LocalServer.text_to_3d Doubles.world request s = (Ok resp, s') /\
    exists uid filename mesh content,
      LocalServer.user_id request = Some uid /\
      LocalServer.file_url resp =
        Some ("/download/" +:+ uid +:+ "/" +:+ filename) /\
      PointE.write_ply (Env.lib Doubles.world) mesh = Ok content /\
      LocalServer.vertices resp = Some (List.length (PointE.verts mesh)) /\
      LocalServer.resp_faces resp = Some (List.length (PointE.faces mesh)) /\
      LocalServer.download uid filename s' = (Ok content, s').
Proof.
  intros request s.
  destruct (LocalServer.text_to_3d Doubles.world request s) as [[resp|e] s']
    eqn:E.
  - exists resp, s'. split; [reflexivity|].
    exact (proj2 (local_text_to_3d_success_is_retrievable
                    Doubles.world request s s' resp E)).
  - vm_compute in E. discriminate E.
Defined.

(** ** The local server: formats other than a mesh *)

Section LocalFormats.

Context {float obj : Type}.
Variable w : Env.World float obj.
Implicit Types (s : LocalServer.state (float := float) (obj := obj)).

Lemma local_run_sampler_files (ts : PointE.Sampler float obj)
    (kwargs : PointE.model_kwargs obj) s :
  LocalServer.fs (snd (LocalServer.run_sampler w ts kwargs s)) =
    LocalServer.fs s.
Proof.
  unfold LocalServer.run_sampler, LocalServer.datetime_now,
    LocalServer.record_call, bind, lift, modify, ret, raise.
  cbn. run_all; try done.
  match goal with |- context [match ?l with [] => _ | _ :: _ => _ end] =>
    by destruct l end.
Qed.

End LocalFormats.

(** The local server rejects a format other than ["mesh"] only after it
    has sampled. For such a request [text_to_3d] never returns a
    response and writes no file: it raises a 500 whose detail is the
    text of the error inside. On a server whose models are loaded and
    whose device can be named, the sampler has by then been called,
    once, with the prompt, the surface reconstruction has not, and when
    the sampler gave a point cloud the error inside is the 400
    [Only mesh format is supported]. *)
Theorem local_text_to_3d_rejects_other_formats_after_sampling
    {float obj : Type} (w : Env.World float obj)
    (request : LocalServer.TextRequest) (s : LocalServer.state)
    (ts : PointE.Sampler float obj) :
  LocalServer.format request <> "mesh" ->
  let r := LocalServer.text_to_3d w request s in
  (exists e, fst r = Raise (HTTPException 500 (Env.str_exn w e))) /\
  LocalServer.fs (snd r) = LocalServer.fs s /\
  (LocalServer.models_ready s = true ->
   LocalServer.text_sampler s = Some ts ->
   is_ok (fst (LocalServer.get_device w s)) = true ->
   LocalServer.calls (snd r) =
     LocalServer.calls s ++
       [PointE.SampleCall (PointE.Texts [LocalServer.prompt request])] /\
   (is_ok (fst (LocalServer.run_sampler w ts
                  (PointE.Texts [LocalServer.prompt request]) s)) = true ->
    fst r = Raise (HTTPException 500
                     (Env.str_exn w
                        (HTTPException 400 "Only mesh format is supported"))))).
Proof.
  intros Hfmt r. subst r.
  unfold LocalServer.text_to_3d, LocalServer.text_to_3d_body,
    LocalServer.generate_from_text, try_catch, bind, get.
  pose proof (get_device_state w s) as Hd.
  destruct (LocalServer.get_device w s) as [[dn|e] s1] eqn:Ed;
    cbn [snd] in Hd; subst s1; cbn [fst snd raise].
  2:{ split; [by eexists|]. split; [done|]. by intros _ _ ?. }
  destruct (LocalServer.models_ready s) eqn:Er; cbn [fst snd raise].
  2:{ split; [by eexists|]. split; [done|]. by intros ?. }
  destruct (LocalServer.text_sampler s) as [ts'|] eqn:Es; cbn [fst snd raise].
  2:{ split; [by eexists|]. split; [done|]. by intros _ ?. }
  pose proof (local_run_sampler_calls w ts'
                (PointE.Texts [LocalServer.prompt request]) s) as Hc.
  pose proof (local_run_sampler_files w ts'
                (PointE.Texts [LocalServer.prompt request]) s) as Hf.
  destruct (LocalServer.run_sampler w ts' _ s) as [[g|e] s2] eqn:Eg;
    cbn [snd] in Hc, Hf; cbn [fst snd raise].
  - destruct (String.eqb_spec (LocalServer.format request) "mesh") as [?|_];
      [done|].
    cbn [fst snd raise]. split; [by eexists|]. split; [done|].
    intros _ [= <-] _. by rewrite Eg.
  - split; [by eexists|]. split; [done|].
    intros _ [= <-] _. rewrite Eg. by split.
Qed.

Lemma local_text_to_3d_rejects_other_formats_after_sampling_witness :
  let request := {| LocalServer.prompt := "a cube";
                    LocalServer.user_id := Some "local";
                    LocalServer.format := "pointcloud";
                    LocalServer.grid_size := 32;
                    LocalServer.num_samples := 1 |} in
  let s := snd (LocalServer.on_import
                  (snd (LocalServer.load_models Doubles.world
                          (LocalServer.initial ∅ [])))) in
  let r := LocalServer.text_to_3d Doubles.world request s in
  fst r = Raise (HTTPException 500 "400: Only mesh format is supported") /\
  LocalServer.fs (snd r) = LocalServer.fs s /\
  LocalServer.calls (snd r) = [PointE.SampleCall (PointE.Texts ["a cube"])].
Proof.
  intros request s r.
  destruct (local_text_to_3d_rejects_other_formats_after_sampling
              Doubles.world request s Doubles.sampler)
    as (_ & Hf & H).
  { vm_compute. discriminate. }
  destruct H as [Hc He]; [reflexivity..|].
  split; [apply He; reflexivity|]. split; [exact Hf|exact Hc].
Defined.

(** ** Loading the models of the local server *)

Section LocalStartup.

Context {float obj : Type}.
Variable w : Env.World float obj.
Implicit Types (s : LocalServer.state (float := float) (obj := obj)).

Lemma load_text_outcome (d : PointE.device) s :
  let r := LocalServer.load_text w d s in
  LocalServer.device (snd r) = LocalServer.device s /\
  (is_ok (fst r) = true ->
   is_Some (LocalServer.text_model (snd r)) /\
   is_Some (LocalServer.text_sampler (snd r))).
Proof.
  unfold LocalServer.load_text, LocalServer.load_weights, bind, lift, modify, ret.
  cbn. run_all; by cbn.
Qed.

Lemma load_image_outcome (d : PointE.device) (um ud : obj) s :
  let r := LocalServer.load_image w d um ud s in
  LocalServer.text_model (snd r) = LocalServer.text_model s /\
  LocalServer.text_sampler (snd r) = LocalServer.text_sampler s /\
  LocalServer.device (snd r) = LocalServer.device s /\
  (fst r = Ok tt ->
   is_Some (LocalServer.image_model (snd r)) /\
   is_Some (LocalServer.image_sampler (snd r))).
Proof.
  unfold LocalServer.load_image, LocalServer.load_weights, bind, lift, modify.
  cbn. run_all; by cbn.
Qed.

Lemma load_sdf_outcome (d : PointE.device) s :
  let r := LocalServer.load_sdf w d s in
  LocalServer.text_model (snd r) = LocalServer.text_model s /\
  LocalServer.text_sampler (snd r) = LocalServer.text_sampler s /\
  LocalServer.image_model (snd r) = LocalServer.image_model s /\
  LocalServer.image_sampler (snd r) = LocalServer.image_sampler s /\
  LocalServer.device (snd r) = LocalServer.device s /\
  (fst r = Ok tt -> is_Some (LocalServer.sdf_model (snd r))).
Proof.
  unfold LocalServer.load_sdf, LocalServer.load_weights, bind, lift, modify.
  cbn. run_all; by cbn.
Qed.

End LocalStartup.

(** What [load_models] of the local server leaves behind. When the
    device cannot be named it raises before anything is set. Otherwise
    the device is recorded, and the models are ready exactly when it
    returned: then the text model, the text sampler and the SDF model
    are set, and the image model and the image sampler are either both
    set or both absent, so the two checks the image route makes (of the
    model in [image_to_3d], of the sampler in [generate_from_image])
    agree. *)
Theorem local_load_models_outcome {float obj : Type}
    (w : Env.World float obj) (s : LocalServer.state) :
  let r := LocalServer.load_models w s in
  ((exists e, fst (LocalServer.get_device w s) = Raise e /\ fst r = Raise e) /\
   snd r = s)
  \/
  (is_Some (LocalServer.device (snd r)) /\
   ((fst r = Ok tt /\
     LocalServer.models_ready (snd r) = true /\
     is_Some (LocalServer.text_model (snd r)) /\
     is_Some (LocalServer.text_sampler (snd r)) /\
     is_Some (LocalServer.sdf_model (snd r)) /\
     (is_Some (LocalServer.image_model (snd r)) /\
      is_Some (LocalServer.image_sampler (snd r)) \/
      LocalServer.image_model (snd r) = None /\
      LocalServer.image_sampler (snd r) = None))
    \/
    ((exists e, fst r = Raise e) /\
     LocalServer.models_ready (snd r) = false))).
Proof.
  intros r. subst r. unfold LocalServer.load_models, try_catch, bind, modify.
  pose proof (get_device_state w s) as Hs.
  destruct (LocalServer.get_device w s) as [[dn|e] s0]; cbn [snd] in Hs;
    subst s0; cbn [fst snd].
  2:{ left. split; [by exists e|done]. }
  right. set (sd := LocalServer.set_device (Some (fst dn)) s).
  assert (is_Some (LocalServer.device sd)) as Hdev by by eexists.
  pose proof (load_text_outcome w (fst dn) sd) as (T1 & T2).
  destruct (LocalServer.load_text w (fst dn) sd) as [[up|e] s1];
    cbn [fst snd raise is_ok] in *.
  2:{ cbn [LocalServer.device LocalServer.models_ready LocalServer.text_model
      LocalServer.text_sampler LocalServer.image_model
      LocalServer.image_sampler LocalServer.sdf_model
      LocalServer.set_models_ready LocalServer.set_image_model
      LocalServer.set_image_sampler]. rewrite T1. split; [done|]. right. split; [by eexists|done]. }
  destruct T2 as (T2 & T3); [done|].
  pose proof (load_image_outcome w (fst dn) (fst up) (snd up) s1)
    as (I1 & I2 & I3 & I4).
  destruct (LocalServer.load_image w (fst dn) (fst up) (snd up) s1)
    as [[[]|e] s2]; cbn [fst snd raise] in *.
  - destruct I4 as (I4 & I5); [done|].
    pose proof (load_sdf_outcome w (fst dn) s2) as (S1 & S2 & S3 & S4 & S5 & S6).
    destruct (LocalServer.load_sdf w (fst dn) s2) as [[[]|e] s3];
      cbn [fst snd raise] in *; cbn [LocalServer.device LocalServer.models_ready LocalServer.text_model
      LocalServer.text_sampler LocalServer.image_model
      LocalServer.image_sampler LocalServer.sdf_model
      LocalServer.set_models_ready LocalServer.set_image_model
      LocalServer.set_image_sampler]; rewrite S5, I3, T1.
    + split; [done|]. left.
      rewrite S1, S2, S3, S4, I1, I2. specialize (S6 eq_refl).
      repeat split; try done. by left.
    + split; [done|]. right. split; [by eexists|done].
  - clear I4.
    pose proof (load_sdf_outcome w (fst dn)
                  (LocalServer.set_image_sampler None
                     (LocalServer.set_image_model None s2)))
      as (S1 & S2 & S3 & S4 & S5 & S6).
    destruct (LocalServer.load_sdf w (fst dn) _) as [[[]|e'] s3];
      cbn [fst snd raise] in *; cbn [LocalServer.device LocalServer.models_ready LocalServer.text_model
      LocalServer.text_sampler LocalServer.image_model
      LocalServer.image_sampler LocalServer.sdf_model
      LocalServer.set_models_ready LocalServer.set_image_model
      LocalServer.set_image_sampler]; rewrite S5; cbn [LocalServer.device LocalServer.models_ready LocalServer.text_model
      LocalServer.text_sampler LocalServer.image_model
      LocalServer.image_sampler LocalServer.sdf_model
      LocalServer.set_models_ready LocalServer.set_image_model
      LocalServer.set_image_sampler]; rewrite I3, T1.
    + split; [done|]. left.
      rewrite S1, S2, S3, S4. cbn [LocalServer.device LocalServer.models_ready LocalServer.text_model
      LocalServer.text_sampler LocalServer.image_model
      LocalServer.image_sampler LocalServer.sdf_model
      LocalServer.set_models_ready LocalServer.set_image_model
      LocalServer.set_image_sampler]. rewrite I1, I2. specialize (S6 eq_refl).
      repeat split; try done. by right.
    + split; [done|]. right. split; [by eexists|done].
Qed.

(** ** The codec when a color is missing *)

Section CodecFailure.

Context {float obj : Type}.
Variable w : Env.World float obj.

(** Why a scaled color can fail: the channel is missing, it is too
    short, or [int] refuses the entry. *)
Lemma scaled_raise (colors : gmap string (list float)) (k : string)
    (i : nat) (e : exn) :
  Codec.scaled w colors k i = Raise e ->
  match colors !! k with
  | None => e = KeyError k
  | Some l =>
      match l !! i with
      | None => e = IndexError ("index " +:+ str_nat i
                      +:+ " is out of bounds for axis 0 with size "
                      +:+ str_nat (List.length l))
      | Some c => Env.int_times_255 w c = Raise e
      end
  end.
Proof.
  unfold Codec.scaled, Codec.item.
  destruct (colors !! k) as [l|]; [|by intros [= <-]].
  by destruct (l !! i); [|intros [= <-]].
Qed.

(** A line can fail only while it reads the colors, and never on the
    red channel being absent. *)
Lemma vertex_line_raise (colors : gmap string (list float)) (i : nat)
    (p : PointE.vec3 float) (e : exn) :
  Codec.vertex_line w colors i p = Raise e ->
  Codec.has_color colors = true /\
  exists k, k ∈ ["R"; "G"; "B"] /\
    match colors !! k with
    | None => k <> "R" /\ e = KeyError k
    | Some l =>
        match l !! i with
        | None => e = IndexError ("index " +:+ str_nat i
                        +:+ " is out of bounds for axis 0 with size "
                        +:+ str_nat (List.length l))
        | Some c => Env.int_times_255 w c = Raise e
        end
    end.
Proof.
  unfold Codec.vertex_line, Codec.has_color.
  destruct (colors !! "R") as [lr|] eqn:Er; [|done].
  intros H. split; [done|]. revert H.
  destruct (Codec.scaled w colors "R" i) as [r|e'] eqn:Sr.
  2:{ intros [= <-]. exists "R". split; [rewrite !elem_of_cons; tauto|].
      apply scaled_raise in Sr. by rewrite Er in *. }
  destruct (Codec.scaled w colors "G" i) as [g|e'] eqn:Sg.
  2:{ intros [= <-]. exists "G". split; [rewrite !elem_of_cons; tauto|].
      apply scaled_raise in Sg. by destruct (colors !! "G"). }
  destruct (Codec.scaled w colors "B" i) as [b|e'] eqn:Sb; [done|].
  intros [= <-]. exists "B". split; [rewrite !elem_of_cons; tauto|].
  apply scaled_raise in Sb. by destruct (colors !! "B").
Qed.

(** The loop, whatever its outcome: the lines of the vertices before the
    one it stopped at have been written, and nothing else. *)
Lemma write_vertices_prefix (colors : gmap string (list float))
    (ps : list (PointE.vec3 float)) (i : nat) (out : string) :
  exists lines,
    fst (Codec.write_vertices w colors i ps out) =
      out +:+ foldr String.append "" lines /\
    (forall j line, lines !! j = Some line ->
       exists p, ps !! j = Some p /\
                 Codec.vertex_line w colors (i + j) p = Ok line) /\
    match snd (Codec.write_vertices w colors i ps out) with
    | Ok _ => List.length lines = List.length ps
    | Raise e =>
        exists p, ps !! List.length lines = Some p /\
                  Codec.vertex_line w colors (i + List.length lines) p = Raise e
    end.
Proof.
  revert i out. induction ps as [|p ps IH]; intros i out.
  - exists []. cbn. rewrite append_nil_r. split; [done|]. split; [|done].
    intros j line Hj. by rewrite lookup_nil in Hj.
  - cbn [Codec.write_vertices].
    destruct (Codec.vertex_line w colors i p) as [l|e] eqn:El.
    + destruct (IH (S i) (out +:+ l)) as (lines & Hout & Hl & Hr).
      exists (l :: lines). rewrite Hout. cbn [foldr]. rewrite append_assoc.
      split; [done|]. split.
      * intros [|j] line Hj.
        -- injection Hj as <-. exists p. by rewrite Nat.add_0_r.
        -- destruct (Hl j line Hj) as (p' & Hp & Hv). exists p'.
           split; [done|]. by replace (i + S j) with (S i + j) by lia.
      * destruct (snd (Codec.write_vertices w colors (S i) ps (out +:+ l)))
          as [[]|e].
        -- by cbn; rewrite Hr.
        -- destruct Hr as (p' & Hp & Hv). exists p'. split; [done|].
           cbn [List.length]. by replace (i + S (List.length lines))
             with (S i + List.length lines) by lia.
    + exists []. cbn. rewrite append_nil_r. split; [done|]. split.
      * intros j line Hj. by rewrite lookup_nil in Hj.
      * exists p. by rewrite Nat.add_0_r.
Qed.

(** Whether a file can be opened for writing does not depend on what
    is then written. *)
Lemma write_file_any_data fs cwd path (d1 d2 : list byte) :
  is_ok (Fs.write_file fs cwd path d1) = true ->
  is_ok (Fs.write_file fs cwd path d2) = true.
Proof.
  unfold Fs.write_file.
  destruct (has_char Fs.NUL path); [done|].
  destruct (negb (truthy path)); [done|]. cbv zeta.
  destruct (Fs.walk fs path (Fs.origin cwd path) _) as [d|]; [|done].
  destruct (negb (Fs.is_dir fs d)); [done|].
  destruct (negb (Fs.ordinary _)); [done|].
  by destruct (fs !! _) as [[|]|].
Qed.

End CodecFailure.

(** A failed [save_pointcloud_ply] leaves a truncated file. When the
    file could be opened and the call raised, the red channel is present
    and the loop stopped at a vertex while it read one of the three
    colors: that channel is missing (a [KeyError], for green or blue),
    or it has no entry for the vertex (the [IndexError] of the array),
    or [int] refused the entry (its error, for a NaN or an infinity).
    The file then holds the header, which declares all the vertices and
    the colors, and after it the lines of the vertices before the
    failing one only, fewer than the header declares. *)
Theorem save_pointcloud_ply_failure_leaves_truncated_file
    {float obj : Type} (w : Env.World float obj)
    (pc : PointE.PointCloud float) (filepath : string)
    (s s' : Server.state) (e : exn) :
  is_ok (Fs.write_file (Server.fs s) (Server.cwd s) filepath []) = true ->
  Server.save_pointcloud_ply w pc filepath s = (Raise e, s') ->
  let n := List.length (PointE.coords pc) in
  let colors := PointE.channels pc in
  Codec.has_color colors = true /\
  exists lines,
    List.length lines < n /\
    (exists k, k ∈ ["R"; "G"; "B"] /\
       match colors !! k with
       | None => k <> "R" /\ e = KeyError k
       | Some l =>
           match l !! List.length lines with
           | None => e = IndexError ("index " +:+ str_nat (List.length lines)
                           +:+ " is out of bounds for axis 0 with size "
                           +:+ str_nat (List.length l))
           | Some c => Env.int_times_255 w c = Raise e
           end
       end) /\
    (forall j line, lines !! j = Some line ->
       exists p, PointE.coords pc !! j = Some p /\
                 Codec.vertex_line w colors j p = Ok line) /\
    Fs.stat (Server.fs s') (Server.cwd s') filepath =
      Ok (Fs.File (encode_utf8 (Codec.header n true
                                  +:+ foldr String.append "" lines))).
Proof.
  intros Hopen H n colors.
  unfold Server.save_pointcloud_ply, Codec.write_pointcloud in H.
  destruct (write_vertices_prefix w colors (PointE.coords pc) 0
              (Codec.header n (Codec.has_color colors)))
    as (lines & Hout & Hl & Hr).
  fold n colors in H.
  destruct (Codec.write_vertices w colors 0 (PointE.coords pc) _)
    as [out r]. cbn [fst snd] in Hout, Hr. subst out.
  apply (write_file_any_data _ _ _ _
           (encode_utf8 (Codec.header n (Codec.has_color colors)
                         +:+ foldr String.append "" lines))) in Hopen.
  unfold bind, Server.write_file, lift in H.
  destruct (Fs.write_file _ _ _ _) as [fs'|] eqn:Hw; [|done].
  destruct r as [[]|e']; [done|]. injection H as -> <-.
  destruct Hr as (p & Hp & Hv).
  apply vertex_line_raise in Hv as (Hc & He).
  split; [done|]. exists lines. split.
  { apply lookup_lt_Some in Hp. exact Hp. }
  split; [exact He|]. split; [exact Hl|].
  rewrite Hc in Hw. by apply write_file_stat in Hw.
Qed.

Lemma save_pointcloud_ply_failure_leaves_truncated_file_witness :
  let pc := {| PointE.coords := [(0, 0, 0); (1, 2, 3)]%Z;
               PointE.channels := <["R" := [0; 1]%Z]> (<["G" := [1]%Z]>
                                    (<["B" := [1; 1]%Z]> ∅)) |} in
  let r := Server.save_pointcloud_ply Doubles.world pc "cloud.ply"
             Doubles.loading in
  fst r = Raise (IndexError "index 1 is out of bounds for axis 0 with size 1")
  /\
  exists lines,
    List.length lines < 2 /\
    Fs.stat (Server.fs (snd r)) (Server.cwd (snd r)) "cloud.ply" =
      Ok (Fs.File (encode_utf8 (Codec.header 2 true
                                  +:+ foldr String.append "" lines))).
Proof.
  intros pc r. split; [reflexivity|].
  destruct (save_pointcloud_ply_failure_leaves_truncated_file Doubles.world
              pc "cloud.ply" Doubles.loading (snd r)
              (IndexError "index 1 is out of bounds for axis 0 with size 1"))
    as (_ & lines & Hlen & _ & _ & Hfile); [reflexivity..|].
  exists lines. split; [exact Hlen|exact Hfile].
Defined.

(** ** The part of a filename that comes from the prompt *)

Section SafePrompt.

Lemma all_chars_filter (q : ascii -> bool) (p : string) :
  all_chars q (filter_chars q p) = true.
Proof.
  induction p as [|c p IH]; [done|]. cbn [filter_chars].
  destruct (q c) eqn:E; [|done]. cbn [all_chars]. by rewrite E.
Qed.

Lemma all_chars_rstrip (q : ascii -> bool) (p : string) :
  all_chars q p = true -> all_chars q (rstrip p) = true.
Proof.
  induction p as [|c p IH]; [done|]. cbn [all_chars rstrip].
  intros [Hc Hp]%andb_prop. specialize (IH Hp).
  destruct (rstrip p) as [|d r].
  - destruct (isspace c); [done|]. cbn [all_chars]. by rewrite Hc.
  - cbn [all_chars] in *. by rewrite Hc.
Qed.

Lemma all_chars_take (q : ascii -> bool) (n : nat) (p : string) :
  all_chars q p = true -> all_chars q (take n p) = true.
Proof.
  revert p. induction n as [|n IH]; intros [|c p]; try done.
  cbn [all_chars take]. intros [Hc Hp]%andb_prop. by rewrite Hc, IH.
Qed.

Lemma length_take (n : nat) (p : string) : String.length (take n p) <= n.
Proof.
  revert p. induction n as [|n IH]; intros [|c p]; cbn; try lia.
  specialize (IH p). lia.
Qed.

Lemma take_all (n : nat) (p : string) :
  String.length p <= n -> take n p = p.
Proof.
  revert p. induction n as [|n IH]; intros [|c p]; cbn; try done; try lia.
  intros H. rewrite IH; [done|lia].
Qed.

Lemma filter_chars_all (q : ascii -> bool) (p : string) :
  all_chars q p = true -> filter_chars q p = p.
Proof.
  induction p as [|c p IH]; [done|]. cbn [all_chars filter_chars].
  intros [-> Hp]%andb_prop. by rewrite IH.
Qed.

Lemma all_chars_has_char (q : ascii -> bool) (c : ascii) (p : string) :
  all_chars q p = true -> q c = false -> has_char c p = false.
Proof.
  intros Hp Hc. induction p as [|d p IH]; [done|].
  cbn [all_chars has_char] in *. apply andb_prop in Hp as [Hd Hp].
  rewrite (IH Hp), orb_false_r. apply Ascii.eqb_neq. by intros <-; congruence.
Qed.

End SafePrompt.

(** The prompt cannot put a path into a filename. What [text_to_3d] and
    [save_mesh_locally] take from the prompt has at most 30 characters,
    all of them alphanumeric, a space, a hyphen or an underscore: no
    slash, no dot, no NUL, no line break, whatever the prompt was. A
    prompt of at most 30 such characters that does not end in white
    space is taken as it is. *)
Theorem safe_prompt_is_a_plain_name (p : string) :
  String.length (Server.safe_prompt p) <= 30 /\
  all_chars Server.safe_char (Server.safe_prompt p) = true /\
  (forall c, c ∈ ["/"; "."; "\"; Fs.NUL; "010"; "013"]%char ->
     has_char c (Server.safe_prompt p) = false) /\
  (all_chars Server.safe_char p = true -> rstrip p = p ->
   String.length p <= 30 -> Server.safe_prompt p = p).
Proof.
  unfold Server.safe_prompt.
  assert (all_chars Server.safe_char
            (take 30 (rstrip (filter_chars Server.safe_char p))) = true) as Hs.
  { apply all_chars_take, all_chars_rstrip, all_chars_filter. }
  split; [apply length_take|]. split; [exact Hs|]. split.
  - intros c Hc. apply (all_chars_has_char _ _ _ Hs).
    rewrite !elem_of_cons, elem_of_nil in Hc.
    destruct Hc as [->|[->|[->|[->|[->|[->|[]]]]]]]; reflexivity.
  - intros Ha Hr Hl. by rewrite (filter_chars_all _ _ Ha), Hr, take_all.
Qed.

Lemma safe_prompt_is_a_plain_name_witness :
  Server.safe_prompt "a red-hot chair_2" = "a red-hot chair_2" /\
  has_char "/" (Server.safe_prompt "../../etc/passwd ") = false.
Proof.
  split.
  - apply (safe_prompt_is_a_plain_name "a red-hot chair_2");
      [reflexivity|reflexivity|vm_compute; lia].
  - apply (safe_prompt_is_a_plain_name "../../etc/passwd ").
    rewrite elem_of_cons. by left.
Defined.

(** ** The probes *)

(** The readiness probe tells the truth on a server that was started by
    [load_models_fast], in the state the start left and in every later
    state with the same models, which is every state the handlers reach.
    Either [ready] answers [True] and [health] says [healthy]: then the
    three stages of a generation find their model, so that none of them
    raises its "not ready" error. Or [ready] answers 503 and [health]
    says [loading]: then each of the three stages raises its 503. *)
Theorem ready_probe_is_sound_after_startup {float obj : Type}
    (cfg : Server.Config) (w : Env.World float obj) (s0 st : Server.state) :
  Frame.same_models (snd (Server.load_models_fast cfg w s0)) st ->
  (Server.ready st = (Ok true, st) /\
   (exists h, Server.health st = (Ok h, st) /\
              Server.health_status h = "healthy") /\
   exists ts smp sdf,
     (forall prompt,
        Server.generate_from_text prompt st =
          Server.run_sampler ts (PointE.Texts [prompt]) st) /\
     (forall image,
        Server.generate_from_image image st =
          Server.run_sampler smp (PointE.Images [image]) st) /\
     (forall pc grid,
        Server.pointcloud_to_mesh w pc grid st =
          (Server.record_call (PointE.MeshCall grid) ;;;
           lift (PointE.marching_cubes_mesh (Env.lib w) pc sdf 4096 grid)) st))
  \/
  (Server.ready st = (Raise (HTTPException 503 "Models not ready"), st) /\
   (exists h, Server.health st = (Ok h, st) /\
              Server.health_status h = "loading") /\
   (forall prompt,
      Server.generate_from_text prompt st =
        (Raise (HTTPException 503 "Models not ready"), st)) /\
   (forall image,
      Server.generate_from_image image st =
        (Raise (HTTPException 503 "Image model not ready"), st)) /\
   (forall pc grid,
      Server.pointcloud_to_mesh w pc grid st =
        (Raise (HTTPException 503 "SDF model not ready"), st))).
Proof.
  intros (E1 & E2 & E3 & E4 & E5 & E6 & _). revert E1 E2 E3 E4 E5 E6.
  unfold Server.load_models_fast, try_catch.
  destruct (Server.load_all cfg w (Server.pick_device w) s0)
    as [[[]|e] s'] eqn:E; cbn [snd].
  - destruct (load_all_ok cfg w _ s0 s' E)
      as (Hr & _ & [ts Hts] & _ & [smp Hsmp] & [sdf Hsdf]).
    rewrite Hr, Hts, Hsmp, Hsdf. intros _ Ets _ Esmp Esdf Er. left.
    unfold Server.ready, Server.health, Server.generate_from_text,
      Server.generate_from_image, Server.pointcloud_to_mesh, bind, get.
    rewrite Er, Ets, Esmp, Esdf. cbn. split; [done|]. split; [by eexists|].
    by exists ts, smp, sdf.
  - cbn. intros _ _ _ _ _ Er. right.
    unfold Server.ready, Server.health, Server.generate_from_text,
      Server.generate_from_image, Server.pointcloud_to_mesh, bind, get.
    rewrite Er. cbn. split; [done|]. split; [by eexists|]. done.
Qed.

Lemma ready_probe_is_sound_after_startup_witness :
  let st := Doubles.loaded Doubles.world in
  Server.ready st = (Ok true, st) /\
  forall prompt,
    Server.generate_from_text prompt st =
      Server.run_sampler Doubles.sampler (PointE.Texts [prompt]) st.
Proof.
  intros st.
  destruct (ready_probe_is_sound_after_startup Doubles.config Doubles.world
              Doubles.loading st) as [(Hr & _ & _)|(Hr & _)].
  - repeat split; reflexivity.
  - split; [exact Hr|]. intros prompt. reflexivity.
  - vm_compute in Hr. discriminate Hr.
Defined.

(** ** The local server and its device *)

(** Every route of the local server names the device first. When CUDA
    is reported but its device cannot be named, [get_device] raises, and
    with it [load_models] and [health] raise the same error, and both
    generation routes answer 500 with its text (the image route when an
    image model is set, 500 for its 503 otherwise); none of them changes
    the state, and nothing is sampled. *)
Theorem local_routes_need_the_device {float obj : Type}
    (w : Env.World float obj) (s : LocalServer.state) (e : exn)
    (request : LocalServer.TextRequest) (file : LocalServer.UploadFile)
    (uid : string) (grid : Z) :
  fst (LocalServer.get_device w s) = Raise e ->
  PointE.cuda_is_available (Env.lib w) = true /\
  LocalServer.load_models w s = (Raise e, s) /\
  LocalServer.health w s = (Raise e, s) /\
  LocalServer.text_to_3d w request s =
    (Raise (HTTPException 500 (Env.str_exn w e)), s) /\
  LocalServer.image_to_3d w file uid grid s =
    (Raise (HTTPException 500
              (Env.str_exn w
                 (match LocalServer.image_model s with
                  | Some _ => e
                  | None =>
                      HTTPException 503
                        "Image model not available. Use text-to-3D instead."
                  end))), s).
Proof.
  intros H. pose proof (get_device_state w s) as Hs.
  assert (PointE.cuda_is_available (Env.lib w) = true) as Hc.
  { revert H. unfold LocalServer.get_device, ret.
    destruct (PointE.cuda_is_available (Env.lib w)); [done|].
    by destruct (PointE.mps_is_available (Env.lib w)). }
  split; [exact Hc|].
  assert (LocalServer.get_device w s = (Raise e, s)) as Ed.
  { destruct (LocalServer.get_device w s) as [r s1].
    cbn [fst snd] in H, Hs. by subst. }
  unfold LocalServer.load_models, LocalServer.health, LocalServer.text_to_3d,
    LocalServer.text_to_3d_body, LocalServer.image_to_3d,
    LocalServer.image_to_3d_body, try_catch, bind, get.
  rewrite Ed. repeat split; try done.
  destruct (LocalServer.image_model s); [|done]. by rewrite Ed.
Qed.

Lemma local_routes_need_the_device_witness :
  let s := LocalServer.initial ∅ [] in
  let e := RuntimeError "no CUDA device" in
  let request := {| LocalServer.prompt := "a cube";
                    LocalServer.user_id := Some "local";
                    LocalServer.format := "mesh";
                    LocalServer.grid_size := 32;
                    LocalServer.num_samples := 1 |} in
  LocalServer.load_models Doubles.world_without_device s = (Raise e, s) /\
  LocalServer.health Doubles.world_without_device s = (Raise e, s) /\
  LocalServer.text_to_3d Doubles.world_without_device request s =
    (Raise (HTTPException 500 "no CUDA device"), s).
Proof.
  intros s e request.
  destruct (local_routes_need_the_device Doubles.world_without_device s e
              request
              {| LocalServer.upload_filename := None;
                 LocalServer.upload_content := [] |} "local" 32)
    as (_ & Hl & Hh & Ht & _); [reflexivity|].
  split; [exact Hl|]. split; [exact Hh|exact Ht].
Defined.

(** ** The local server: an image request that succeeds *)

(** No success of the image route of the local server dangles either.
    When [image_to_3d] returns a response, its file link is
    [/download/<identity>/<filename>] for the identity of the request,
    and in the state the request leaves, the download of that identity
    and filename succeeds and sends the mesh as the inference library
    encoded it. Such a request was made with the models ready and with
    both the image model and the image sampler set. *)
Theorem local_image_to_3d_success_is_retrievable {float obj : Type}
    (w : Env.World float obj) (file : LocalServer.UploadFile)
    (uid : string) (grid : Z) (s s' : LocalServer.state)
    (resp : LocalServer.GenerationResponse) :
  LocalServer.image_to_3d w file uid grid s = (Ok resp, s') ->
  is_Some (LocalServer.image_model s) /\
  is_Some (LocalServer.image_sampler s) /\
  LocalServer.models_ready s = true /\
  LocalServer.resp_user_id resp = Some uid /\
  exists filename mesh content,
    LocalServer.file_url resp =
      Some ("/download/" +:+ uid +:+ "/" +:+ filename) /\
    PointE.write_ply (Env.lib w) mesh = Ok content /\
    LocalServer.vertices resp = Some (List.length (PointE.verts mesh)) /\
    LocalServer.resp_faces resp = Some (List.length (PointE.faces mesh)) /\
    LocalServer.download uid filename s' = (Ok content, s').
Proof.
  unfold LocalServer.image_to_3d. intros H. apply try_catch_inv in H.
  unfold LocalServer.image_to_3d_body in H.
  apply bind_inv in H as (s0 & s1 & [= <- <-] & H).
  destruct (LocalServer.image_model s) as [im|] eqn:Ei; [|done].
  split; [by eexists|].
  apply bind_inv in H as (dn & s2 & Hd & H).
  pose proof (get_device_state w s) as Hs. rewrite Hd in Hs.
  cbn [snd] in Hs. subst s2. cbv zeta in H.
  apply bind_inv in H as (image & s3 & [= _ <-] & H).
  apply bind_inv in H as (g & s4 & Hg & H).
  assert (is_Some (LocalServer.image_sampler s) /\
          LocalServer.models_ready s = true) as [Hsm Hr].
  { revert Hg. unfold LocalServer.generate_from_image, bind, get.
    destruct (LocalServer.models_ready s); [|done].
    by destruct (LocalServer.image_sampler s). }
  split; [done|]. split; [done|].
  apply bind_inv in H as (mesh & s5 & _ & H).
  apply bind_inv in H as ([filepath filename] & s6 & Hsave & H).
  injection H as <- <-. split; [done|].
  destruct (save_mesh_locally_then_download w mesh uid _ _ _ _ _ Hsave)
    as (content & Hc & _ & Hdl).
  by exists filename, mesh, content.
Qed.

Lemma local_image_to_3d_success_is_retrievable_witness :
  let file := {| LocalServer.upload_filename := Some "photos/chair.png";
                 LocalServer.upload_content := [x89; x50] |} in
  let s := snd (LocalServer.on_import
                  (snd (LocalServer.load_models Doubles.world
                          (LocalServer.initial ∅ [])))) in
  exists resp s',
    LocalServer.image_to_3d Doubles.world file "local/" 32 s = (Ok resp, s') /\
    exists filename mesh content,
      LocalServer.file_url resp =
        Some ("/download/" +:+ "local/" +:+ "/" +:+ filename) /\
      PointE.write_ply (Env.lib Doubles.world) mesh = Ok content /\
      LocalServer.vertices resp = Some (List.length (PointE.verts mesh)) /\
      LocalServer.resp_faces resp = Some (List.length (PointE.faces mesh)) /\
      LocalServer.download "local/" filename s' = (Ok content, s').
Proof.
  intros file s.
  destruct (LocalServer.image_to_3d Doubles.world file "local/" 32 s)
    as [[resp|e] s'] eqn:E.
  - exists resp, s'. split; [reflexivity|].
    destruct (local_image_to_3d_success_is_retrievable
                Doubles.world file "local/" 32 s s' resp E)
      as (_ & _ & _ & _ & H).
    exact H.
  - vm_compute in E. discriminate E.
Defined.
